(** * UnrealMCP bridge: command dispatch, game-thread hand-off and server lifecycle

    A shallow embedding of [UUnrealMCPBridge] (UnrealMCPBridge.cpp) and of the
    [HandleCommand] routers of the command families under
    [Private/Commands/], together with the properties the design document
    states about them.

    Layout:
    - [FStr]      : [FString] comparison and formatting as the sources use them;
    - [Json]      : [FJsonValue] / [FJsonObject] and the accessors the bridge calls;
    - [JsonText]  : the text reader behind [FJsonSerializer::Deserialize];
    - [Families]  : the [HandleCommand] routers of the six static families;
    - [Bridge]    : [ExecuteCommand], that is the lambda it queues and the
                    game-thread queue with its promise and future;
    - [Lifecycle] : [Initialize], [StartServer], [StopServer], [Deinitialize];
    - the properties, in the same order.

    In the words of the design document, [ExecuteCommand] is Dispatch, the
    pair [AsyncTask] / [Future.Get()] inside it is Submit, the game thread is
    the owner thread, and the if/else chain on [CommandType] is the
    registry. *)

From Stdlib Require Import List String Ascii Bool Arith ZArith QArith Lia.
Import ListNotations.
Local Close Scope Q_scope.
Local Open Scope string_scope.
Local Open Scope list_scope.

(* ------------------------------------------------------------------ *)
(** ** FString *)

Module FStr.

(** The double quote, written by its code so that literals stay readable. *)
Definition DQ : ascii := "034"%char.
Definition BSL : ascii := "092"%char.

(** The TEXT literals of the sources contain many escaped double quotes.
    They are transcribed with an apostrophe standing for each escaped double
    quote: none of the literals of the sources has an apostrophe of its
    own. *)
Fixpoint TEXT (s : string) : string :=
  match s with
  | EmptyString => EmptyString
  | String c r => String (if Ascii.eqb c "'"%char then DQ else c) (TEXT r)
  end.

(** [FChar::ToLower] on the ASCII range. *)
Definition ToLower (c : ascii) : ascii :=
  let n := nat_of_ascii c in
  if Nat.leb 65 n && Nat.leb n 90 then ascii_of_nat (n + 32) else c.

(** [FString::operator==] : the engine compares [FString]s ignoring case
    ([FPlatformString::Stricmp(..) == 0]). *)
Fixpoint Equals (a b : string) : bool :=
  match a, b with
  | EmptyString, EmptyString => true
  | String x a', String y b' => Ascii.eqb (ToLower x) (ToLower y) && Equals a' b'
  | _, _ => false
  end.

(** [FString::Printf] with a single [%s]: the argument is spliced in as it
    is, nothing is escaped. *)
Definition Printf1 (before arg after : string) : string :=
  (before ++ arg ++ after)%string.

Definition IsEmpty (s : string) : bool :=
  match s with EmptyString => true | _ => false end.

End FStr.

(* ------------------------------------------------------------------ *)
(** ** JSON values and objects *)

Module Json.

(** [FJsonValue] with its six kinds ([EJson::Null], [Boolean], [Number],
    [String], [Array], [Object]).  A number is kept as the rational it
    denotes. *)
#[local] Unset Elimination Schemes.
Inductive JsonValue : Type :=
| JNull
| JBool (b : bool)
| JNumber (q : Q)
| JString (s : string)
| JArray (items : list JsonValue)
| JObject (fields : list (string * JsonValue)).
#[local] Set Elimination Schemes.

(** [FJsonObject]: the [Values] map, in insertion order. *)
Definition JsonObject : Type := list (string * JsonValue).

(** A [TSharedPtr<T>] is either null or points to a [T]. *)
Definition TSharedPtr (A : Type) : Type := option A.

(** [Values.Find(FieldName)]: keys are [FString]s and are compared as such. *)
Fixpoint Find (o : JsonObject) (FieldName : string) : option JsonValue :=
  match o with
  | [] => None
  | (k, v) :: r => if FStr.Equals k FieldName then Some v else Find r FieldName
  end.

(** [FJsonObject::HasField]. *)
Definition HasField (o : JsonObject) (FieldName : string) : bool :=
  match Find o FieldName with Some _ => true | None => false end.

(** [FJsonObject::SetField]: [Values.Add], which overwrites the value stored
    under an existing key and appends otherwise. *)
Fixpoint SetField (o : JsonObject) (FieldName : string) (v : JsonValue) : JsonObject :=
  match o with
  | [] => [(FieldName, v)]
  | (k, w) :: r =>
      if FStr.Equals k FieldName then (FieldName, v) :: r
      else (k, w) :: SetField r FieldName v
  end.

Definition SetStringField (o : JsonObject) (k s : string) : JsonObject :=
  SetField o k (JString s).
Definition SetObjectField (o : JsonObject) (k : string) (v : JsonObject) : JsonObject :=
  SetField o k (JObject v).
Definition SetBoolField (o : JsonObject) (k : string) (b : bool) : JsonObject :=
  SetField o k (JBool b).

(** [FString::ToBool]: the words the engine reads as true or false, and for
    any other text [Atoi(..) != 0], the integer being the optional sign and
    the leading digits after any leading white space (overflow aside). *)
Definition IsDigit (c : ascii) : bool :=
  let n := nat_of_ascii c in Nat.leb 48 n && Nat.leb n 57.

Definition IsSpace (c : ascii) : bool :=
  let n := nat_of_ascii c in Nat.eqb n 32 || (Nat.leb 9 n && Nat.leb n 13).

Fixpoint SkipSpaces (s : string) : string :=
  match s with
  | String c r => if IsSpace c then SkipSpaces r else s
  | EmptyString => EmptyString
  end.

Fixpoint LeadingDigitsNonZero (s : string) : bool :=
  match s with
  | String c r =>
      if IsDigit c then negb (Ascii.eqb c "0"%char) || LeadingDigitsNonZero r
      else false
  | EmptyString => false
  end.

Definition AtoiNonZero (s : string) : bool :=
  match SkipSpaces s with
  | String "-"%char r => LeadingDigitsNonZero r
  | String "+"%char r => LeadingDigitsNonZero r
  | t => LeadingDigitsNonZero t
  end.

Definition ToBool (s : string) : bool :=
  if FStr.Equals s "True" || FStr.Equals s "Yes" || FStr.Equals s "On" then true
  else if FStr.Equals s "False" || FStr.Equals s "No" || FStr.Equals s "Off" then false
  else AtoiNonZero s.

(** [FJsonValue::TryGetBool]: booleans, numbers ([Value != 0.0]) and strings
    convert; null, arrays and objects do not. *)
Definition TryGetBool (v : JsonValue) : option bool :=
  match v with
  | JBool b => Some b
  | JNumber q => Some (negb (Qeq_bool q 0%Q))
  | JString s => Some (ToBool s)
  | _ => None
  end.

(** [FJsonValue::AsBool]: [false] (and a logged error) when the value does
    not convert. *)
Definition AsBool (v : JsonValue) : bool :=
  match TryGetBool v with Some b => b | None => false end.

(** Decimal rendering of a number, after [FString::SanitizeFloat(Value, 0)]:
    six fractional digits, trailing zeros dropped. *)
Fixpoint digits_of (fuel : nat) (n : N) (acc : string) : string :=
  match fuel with
  | O => acc
  | S f =>
      let d := ascii_of_N (48 + N.modulo n 10)%N in
      let acc' := String d acc in
      if N.ltb n 10%N then acc' else digits_of f (N.div n 10%N) acc'
  end.

Definition DecimalOfN (n : N) : string :=
  digits_of (S (N.to_nat (N.log2 n))) n EmptyString.

Fixpoint zeros (n : nat) (s : string) : string :=
  match n with
  | O => s
  | S k => zeros k (String "0"%char s)
  end.

Definition pad_left (width : nat) (s : string) : string :=
  zeros (width - String.length s) s.

Fixpoint drop_trailing_zeros (l : list ascii) : list ascii :=
  match l with
  | [] => []
  | c :: r =>
      match drop_trailing_zeros r with
      | [] => if Ascii.eqb c "0"%char then [] else [c]
      | r' => c :: r'
      end
  end.

Definition SanitizeFloat (q : Q) : string :=
  let scaled := ((Z.abs (Qnum q) * 1000000 * 2 + Z.pos (Qden q)) / (2 * Z.pos (Qden q)))%Z in
  let ip := Z.to_N (scaled / 1000000)%Z in
  let fp := Z.to_N (scaled mod 1000000)%Z in
  let frac := string_of_list_ascii
                (drop_trailing_zeros
                   (list_ascii_of_string (pad_left 6 (DecimalOfN fp)))) in
  let body := if FStr.IsEmpty frac then DecimalOfN ip
              else (DecimalOfN ip ++ "." ++ frac)%string in
  if (Qnum q <? 0)%Z && negb (Z.eqb scaled 0%Z) then ("-" ++ body)%string else body.

(** [FJsonValue::TryGetString]. *)
Definition TryGetString (v : JsonValue) : option string :=
  match v with
  | JString s => Some s
  | JNumber q => Some (SanitizeFloat q)
  | JBool b => Some (if b then "true" else "false")
  | _ => None
  end.

(** [FJsonValue::AsString]: the empty string when the value does not
    convert. *)
Definition AsString (v : JsonValue) : string :=
  match TryGetString v with Some s => s | None => EmptyString end.

(** [FJsonObject::GetBoolField] and [GetStringField].  Both are only called
    by the bridge after [HasField] answered true; on a missing field the
    engine logs and yields the default value. *)
Definition GetBoolField (o : JsonObject) (FieldName : string) : bool :=
  match Find o FieldName with Some v => AsBool v | None => false end.

Definition GetStringField (o : JsonObject) (FieldName : string) : string :=
  match Find o FieldName with Some v => AsString v | None => EmptyString end.

End Json.

(* ------------------------------------------------------------------ *)
(** ** The JSON text reader *)

Module JsonText.
Import Json.

Definition IsWhiteSpace (c : ascii) : bool :=
  Ascii.eqb c " "%char || Ascii.eqb c "009"%char
  || Ascii.eqb c "010"%char || Ascii.eqb c "013"%char.

Fixpoint ParseWhiteSpace (s : list ascii) : list ascii :=
  match s with
  | c :: r => if IsWhiteSpace c then ParseWhiteSpace r else s
  | [] => []
  end.

Definition HexValue (c : ascii) : option nat :=
  let n := nat_of_ascii c in
  if Nat.leb 48 n && Nat.leb n 57 then Some (n - 48)
  else if Nat.leb 65 n && Nat.leb n 70 then Some (n - 55)
  else if Nat.leb 97 n && Nat.leb n 102 then Some (n - 87)
  else None.

Definition Hex4 (a b c d : ascii) : option nat :=
  match HexValue a, HexValue b, HexValue c, HexValue d with
  | Some x, Some y, Some z, Some w => Some (((x * 16 + y) * 16 + z) * 16 + w)
  | _, _, _, _ => None
  end.

(** A code point of the basic plane as the bytes that stand for it in the
    8-bit strings of this development (UTF-8). *)
Definition EncodeCodePoint (n : nat) : list ascii :=
  if Nat.ltb n 128 then [ascii_of_nat n]
  else if Nat.ltb n 2048
       then [ascii_of_nat (192 + n / 64); ascii_of_nat (128 + n mod 64)]
       else [ascii_of_nat (224 + n / 4096);
             ascii_of_nat (128 + (n / 64) mod 64);
             ascii_of_nat (128 + n mod 64)].

(** The body of a string token, after its opening quote, up to and
    including the closing quote; [acc] holds the characters read so far, last
    first. *)
Fixpoint ParseStringToken (s : list ascii) (acc : list ascii)
  : option (string * list ascii) :=
  match s with
  | [] => None
  | c :: r =>
      if Ascii.eqb c FStr.DQ then Some (string_of_list_ascii (rev acc), r)
      else if Ascii.eqb c FStr.BSL then
        match r with
        | [] => None
        | e :: r' =>
            if Ascii.eqb e FStr.DQ then ParseStringToken r' (FStr.DQ :: acc)
            else if Ascii.eqb e FStr.BSL then ParseStringToken r' (FStr.BSL :: acc)
            else if Ascii.eqb e "/"%char then ParseStringToken r' ("/"%char :: acc)
            else if Ascii.eqb e "b"%char then ParseStringToken r' ("008"%char :: acc)
            else if Ascii.eqb e "f"%char then ParseStringToken r' ("012"%char :: acc)
            else if Ascii.eqb e "n"%char then ParseStringToken r' ("010"%char :: acc)
            else if Ascii.eqb e "r"%char then ParseStringToken r' ("013"%char :: acc)
            else if Ascii.eqb e "t"%char then ParseStringToken r' ("009"%char :: acc)
            else if Ascii.eqb e "u"%char then
              match r' with
              | h1 :: h2 :: h3 :: h4 :: r'' =>
                  match Hex4 h1 h2 h3 h4 with
                  | Some n => ParseStringToken r'' (rev (EncodeCodePoint n) ++ acc)
                  | None => None
                  end
              | _ => None
              end
            else None
        end
      else ParseStringToken r (c :: acc)
  end.

(** Digits of a number token: the value read so far and the count of digits
    consumed. *)
Fixpoint ParseDigits (s : list ascii) (acc : Z) (n : nat) : Z * nat * list ascii :=
  match s with
  | c :: r =>
      if IsDigit c
      then ParseDigits r (acc * 10 + Z.of_nat (nat_of_ascii c - 48))%Z (S n)
      else (acc, n, s)
  | [] => (acc, n, [])
  end.

Definition Pow10 (e : Z) : Q :=
  if (0 <=? e)%Z then inject_Z (10 ^ e) else Qinv (inject_Z (10 ^ (- e))).

(** A number token: an optional minus sign, digits, an optional fraction and
    an optional exponent. *)
Definition ParseNumberToken (s : list ascii) : option (Q * list ascii) :=
  let '(neg, s0) := match s with
                    | "-"%char :: r => (true, r)
                    | _ => (false, s)
                    end in
  let '(ip, ni, s1) := ParseDigits s0 0%Z 0 in
  if Nat.eqb ni 0 then None else
  let frac :=
    match s1 with
    | "."%char :: r =>
        let '(fp, nf, s2) := ParseDigits r 0%Z 0 in
        if Nat.eqb nf 0 then None
        else Some (Qmult (inject_Z fp) (Pow10 (- Z.of_nat nf)), s2)
    | _ => Some (0%Q, s1)
    end in
  match frac with
  | None => None
  | Some (f, s2) =>
      let ex :=
        match s2 with
        | c :: r =>
            if Ascii.eqb c "e"%char || Ascii.eqb c "E"%char then
              let '(eneg, r0) := match r with
                                 | "-"%char :: r' => (true, r')
                                 | "+"%char :: r' => (false, r')
                                 | _ => (false, r)
                                 end in
              let '(ev, ne, s3) := ParseDigits r0 0%Z 0 in
              if Nat.eqb ne 0 then None
              else Some ((if eneg then - ev else ev)%Z, s3)
            else Some (0%Z, s2)
        | [] => Some (0%Z, s2)
        end in
      match ex with
      | None => None
      | Some (e, s3) =>
          let m := Qmult (Qplus (inject_Z ip) f) (Pow10 e) in
          Some (Qred (if neg then Qopp m else m), s3)
      end
  end.

Definition IsAlnum (c : ascii) : bool :=
  let n := nat_of_ascii c in
  IsDigit c || (Nat.leb 65 n && Nat.leb n 90) || (Nat.leb 97 n && Nat.leb n 122).

Fixpoint ParseWord (s : list ascii) (acc : list ascii) : string * list ascii :=
  match s with
  | c :: r => if IsAlnum c then ParseWord r (c :: acc)
              else (string_of_list_ascii (rev acc), s)
  | [] => (string_of_list_ascii (rev acc), [])
  end.

Section Containers.
(** The reader of one value, supplied by the enclosing recursion. *)
Variable ReadValue : list ascii -> option (JsonValue * list ascii).

(** Members of an object after its opening brace (a first member is
    known to follow); [n] bounds the number of members. *)
Fixpoint ReadMembers (n : nat) (acc : JsonObject) (s : list ascii)
  : option (JsonObject * list ascii) :=
  match n with
  | O => None
  | S n' =>
      match ParseWhiteSpace s with
      | c :: r =>
          if Ascii.eqb c FStr.DQ then
            match ParseStringToken r [] with
            | Some (Identifier, r1) =>
                match ParseWhiteSpace r1 with
                | ":"%char :: r2 =>
                    match ReadValue r2 with
                    | Some (v, r3) =>
                        let acc' := SetField acc Identifier v in
                        match ParseWhiteSpace r3 with
                        | ","%char :: r4 => ReadMembers n' acc' r4
                        | "}"%char :: r4 => Some (acc', r4)
                        | _ => None
                        end
                    | None => None
                    end
                | _ => None
                end
            | None => None
            end
          else None
      | [] => None
      end
  end.

Fixpoint ReadElements (n : nat) (acc : list JsonValue) (s : list ascii)
  : option (list JsonValue * list ascii) :=
  match n with
  | O => None
  | S n' =>
      match ReadValue s with
      | Some (v, r) =>
          match ParseWhiteSpace r with
          | ","%char :: r' => ReadElements n' (v :: acc) r'
          | "]"%char :: r' => Some (rev (v :: acc), r')
          | _ => None
          end
      | None => None
      end
  end.
End Containers.

(** One JSON value; [fuel] bounds the nesting depth. *)
Fixpoint ReadValue (fuel : nat) (s : list ascii) : option (JsonValue * list ascii) :=
  match fuel with
  | O => None
  | S f =>
      match ParseWhiteSpace s with
      | [] => None
      | c :: r =>
          if Ascii.eqb c "{"%char then
            match ParseWhiteSpace r with
            | "}"%char :: r' => Some (JObject [], r')
            | _ => match ReadMembers (ReadValue f) (List.length r) [] r with
                   | Some (o, r') => Some (JObject o, r')
                   | None => None
                   end
            end
          else if Ascii.eqb c "["%char then
            match ParseWhiteSpace r with
            | "]"%char :: r' => Some (JArray [], r')
            | _ => match ReadElements (ReadValue f) (List.length r) [] r with
                   | Some (l, r') => Some (JArray l, r')
                   | None => None
                   end
            end
          else if Ascii.eqb c FStr.DQ then
            match ParseStringToken r [] with
            | Some (str, r') => Some (JString str, r')
            | None => None
            end
          else if IsDigit c || Ascii.eqb c "-"%char then
            match ParseNumberToken (c :: r) with
            | Some (q, r') => Some (JNumber q, r')
            | None => None
            end
          else if Ascii.eqb c "t"%char || Ascii.eqb c "f"%char || Ascii.eqb c "n"%char then
            let '(w, r') := ParseWord (c :: r) [] in
            if FStr.Equals w "true" then Some (JBool true, r')
            else if FStr.Equals w "false" then Some (JBool false, r')
            else if FStr.Equals w "null" then Some (JNull, r')
            else None
          else None
      end
  end.

(** [FJsonSerializer::Deserialize(Reader, Object)]: the text must hold one
    value, an object, and nothing after it but white space.  [None] is the
    failed read, which leaves the caller's pointer as it was. *)
Definition Deserialize (text : string) : option JsonObject :=
  let s := list_ascii_of_string text in
  match ReadValue (S (List.length s)) s with
  | Some (JObject o, r) =>
      match ParseWhiteSpace r with
      | [] => Some o
      | _ => None
      end
  | _ => None
  end.

End JsonText.

(* ------------------------------------------------------------------ *)
(** ** The command families *)

Module Families.
Import Json.

(** How a call into a handler ends: it returns, it throws an exception
    derived from [std::exception] (the only kind the sources catch, kept
    with its [what()] text), or it brings the process down (a failed engine
    check, such as the use of a null pointer). *)
Inductive Outcome (A : Type) : Type :=
| Returned (a : A)
| Threw (what : string)
| Fatal.
Arguments Returned {A} a.
Arguments Threw {A} what.
Arguments Fatal {A}.

(** The body of one command of a static family: from [Params] to the
    response text.  The bodies talk to the editor; the routers below take
    them as given. *)
Definition Operation : Type := TSharedPtr JsonObject -> Outcome string.

Module FUnrealMCPAssetCommands.
Record Editor : Type := {
  (** [UEditorAssetLibrary::LoadAsset]: the class name of the loaded
      asset, or nothing when the asset does not load. *)
  UEditorAssetLibrary_LoadAsset : string -> option string;
  SaveAsset : Operation;
  DuplicateAsset : Operation;
  DeleteAsset : Operation;
  RenameAsset : Operation;
  MoveAsset : Operation;
  ImportAsset : Operation;
  ExportAsset : Operation
}.

Definition LoadAsset (E : Editor) (Params : TSharedPtr JsonObject) : Outcome string :=
  match Params with
  | None => Fatal
  | Some P =>
      let AssetPath := GetStringField P "asset_path" in
      match UEditorAssetLibrary_LoadAsset E AssetPath with
      | None =>
          Returned (FStr.Printf1
                      (FStr.TEXT "{'success':false,'error':'Failed to load asset: ")
                      AssetPath (FStr.TEXT "'}"))
      | Some ClassName =>
          Returned (FStr.TEXT "{'success':true,'result':{'asset_path':'"
                    ++ AssetPath ++ FStr.TEXT "','loaded':true,'class':'"
                    ++ ClassName ++ FStr.TEXT "'}}")%string
      end
  end.

Definition HandleCommand (E : Editor) (CommandType : string)
           (Params : TSharedPtr JsonObject) : Outcome string :=
  if FStr.Equals CommandType "load_asset" then LoadAsset E Params
  else if FStr.Equals CommandType "save_asset" then SaveAsset E Params
  else if FStr.Equals CommandType "duplicate_asset" then DuplicateAsset E Params
  else if FStr.Equals CommandType "delete_asset" then DeleteAsset E Params
  else if FStr.Equals CommandType "rename_asset" then RenameAsset E Params
  else if FStr.Equals CommandType "move_asset" then MoveAsset E Params
  else if FStr.Equals CommandType "import_asset" then ImportAsset E Params
  else if FStr.Equals CommandType "export_asset" then ExportAsset E Params
  else Returned (FStr.Printf1
                   (FStr.TEXT "{'success':false,'error':'Unknown asset command: ")
                   CommandType (FStr.TEXT "'}")).
End FUnrealMCPAssetCommands.

Module FUnrealMCPContentBrowserCommands.
Record Editor : Type := {
  ListAssets : Operation;
  GetAssetMetadata : Operation;
  SearchAssets : Operation
}.

Definition HandleCommand (E : Editor) (CommandType : string)
           (Params : TSharedPtr JsonObject) : Outcome string :=
  if FStr.Equals CommandType "list_assets" then ListAssets E Params
  else if FStr.Equals CommandType "get_asset_metadata" then GetAssetMetadata E Params
  else if FStr.Equals CommandType "search_assets" then SearchAssets E Params
  else Returned (FStr.Printf1
                   (FStr.TEXT "{'success':false,'error':'Unknown content browser command: ")
                   CommandType (FStr.TEXT "'}")).
End FUnrealMCPContentBrowserCommands.

Module FUnrealMCPAssetRegistryCommands.
Record Editor : Type := {
  GetAssetReferences : Operation;
  GetAssetDependencies : Operation
}.

Definition HandleCommand (E : Editor) (CommandType : string)
           (Params : TSharedPtr JsonObject) : Outcome string :=
  if FStr.Equals CommandType "get_asset_references" then GetAssetReferences E Params
  else if FStr.Equals CommandType "get_asset_dependencies" then GetAssetDependencies E Params
  else Returned (FStr.Printf1
                   (FStr.TEXT "{'success':false,'error':'Unknown asset registry command: ")
                   CommandType (FStr.TEXT "'}")).
End FUnrealMCPAssetRegistryCommands.

Module FUnrealMCPLevelCommands.
Record Editor : Type := {
  CreateLevel : Operation;
  SaveLevel : Operation;
  LoadLevel : Operation;
  SetLevelVisibility : Operation;
  CreateStreamingLevel : Operation;
  LoadStreamingLevel : Operation;
  UnloadStreamingLevel : Operation
}.

Definition HandleCommand (E : Editor) (CommandType : string)
           (Params : TSharedPtr JsonObject) : Outcome string :=
  if FStr.Equals CommandType "create_level" then CreateLevel E Params
  else if FStr.Equals CommandType "save_level" then SaveLevel E Params
  else if FStr.Equals CommandType "load_level" then LoadLevel E Params
  else if FStr.Equals CommandType "set_level_visibility" then SetLevelVisibility E Params
  else if FStr.Equals CommandType "create_streaming_level" then CreateStreamingLevel E Params
  else if FStr.Equals CommandType "load_streaming_level" then LoadStreamingLevel E Params
  else if FStr.Equals CommandType "unload_streaming_level" then UnloadStreamingLevel E Params
  else Returned (FStr.TEXT "{'success':false,'error':'Unknown level command'}").
End FUnrealMCPLevelCommands.

Module FUnrealMCPLandscapeCommands.
Record Editor : Type := {
  CreateLandscape : Operation;
  ModifyLandscape : Operation;
  PaintLandscapeLayer : Operation;
  GetLandscapeInfo : Operation
}.

Definition HandleCommand (E : Editor) (CommandType : string)
           (Params : TSharedPtr JsonObject) : Outcome string :=
  if FStr.Equals CommandType "create_landscape" then CreateLandscape E Params
  else if FStr.Equals CommandType "modify_landscape" then ModifyLandscape E Params
  else if FStr.Equals CommandType "paint_landscape_layer" then PaintLandscapeLayer E Params
  else if FStr.Equals CommandType "get_landscape_info" then GetLandscapeInfo E Params
  else Returned (FStr.TEXT "{'success':false,'error':'Unknown landscape command'}").
End FUnrealMCPLandscapeCommands.

Module FUnrealMCPWorldCommands.
Record Editor : Type := {
  GetCurrentLevelInfo : Operation
}.

Definition HandleCommand (E : Editor) (CommandType : string)
           (Params : TSharedPtr JsonObject) : Outcome string :=
  if FStr.Equals CommandType "get_current_level_info" then GetCurrentLevelInfo E Params
  else Returned (FStr.TEXT "{'success':false,'error':'Unknown world command'}").
End FUnrealMCPWorldCommands.

(** The families [HandleCommand] is cited for, under one type, so that a
    statement can range over them. *)
Inductive Family : Type :=
| AssetFamily | ContentBrowserFamily | AssetRegistryFamily
| LevelFamily | LandscapeFamily | WorldFamily.

Definition Recognizes (F : Family) (CommandType : string) : bool :=
  existsb (FStr.Equals CommandType)
    match F with
    | AssetFamily =>
        ["load_asset"; "save_asset"; "duplicate_asset"; "delete_asset";
         "rename_asset"; "move_asset"; "import_asset"; "export_asset"]
    | ContentBrowserFamily => ["list_assets"; "get_asset_metadata"; "search_assets"]
    | AssetRegistryFamily => ["get_asset_references"; "get_asset_dependencies"]
    | LevelFamily =>
        ["create_level"; "save_level"; "load_level"; "set_level_visibility";
         "create_streaming_level"; "load_streaming_level"; "unload_streaming_level"]
    | LandscapeFamily =>
        ["create_landscape"; "modify_landscape"; "paint_landscape_layer";
         "get_landscape_info"]
    | WorldFamily => ["get_current_level_info"]
    end.

Record Editors : Type := {
  AssetEditor : FUnrealMCPAssetCommands.Editor;
  ContentBrowserEditor : FUnrealMCPContentBrowserCommands.Editor;
  AssetRegistryEditor : FUnrealMCPAssetRegistryCommands.Editor;
  LevelEditor : FUnrealMCPLevelCommands.Editor;
  LandscapeEditor : FUnrealMCPLandscapeCommands.Editor;
  WorldEditor : FUnrealMCPWorldCommands.Editor
}.

Definition HandleCommand (F : Family) (E : Editors) (CommandType : string)
           (Params : TSharedPtr JsonObject) : Outcome string :=
  match F with
  | AssetFamily => FUnrealMCPAssetCommands.HandleCommand (AssetEditor E) CommandType Params
  | ContentBrowserFamily =>
      FUnrealMCPContentBrowserCommands.HandleCommand (ContentBrowserEditor E) CommandType Params
  | AssetRegistryFamily =>
      FUnrealMCPAssetRegistryCommands.HandleCommand (AssetRegistryEditor E) CommandType Params
  | LevelFamily => FUnrealMCPLevelCommands.HandleCommand (LevelEditor E) CommandType Params
  | LandscapeFamily =>
      FUnrealMCPLandscapeCommands.HandleCommand (LandscapeEditor E) CommandType Params
  | WorldFamily => FUnrealMCPWorldCommands.HandleCommand (WorldEditor E) CommandType Params
  end.

(** The text a family answers with for a name it does not recognize: the
    last [return] of its [HandleCommand]. *)
Definition UnknownText (F : Family) (CommandType : string) : string :=
  match F with
  | AssetFamily =>
      FStr.Printf1 (FStr.TEXT "{'success':false,'error':'Unknown asset command: ")
                   CommandType (FStr.TEXT "'}")
  | ContentBrowserFamily =>
      FStr.Printf1 (FStr.TEXT "{'success':false,'error':'Unknown content browser command: ")
                   CommandType (FStr.TEXT "'}")
  | AssetRegistryFamily =>
      FStr.Printf1 (FStr.TEXT "{'success':false,'error':'Unknown asset registry command: ")
                   CommandType (FStr.TEXT "'}")
  | LevelFamily => FStr.TEXT "{'success':false,'error':'Unknown level command'}"
  | LandscapeFamily => FStr.TEXT "{'success':false,'error':'Unknown landscape command'}"
  | WorldFamily => FStr.TEXT "{'success':false,'error':'Unknown world command'}"
  end.

(** The error message a reader of that text is meant to find. *)
Definition UnknownMessage (F : Family) (CommandType : string) : string :=
  match F with
  | AssetFamily => "Unknown asset command: " ++ CommandType
  | ContentBrowserFamily => "Unknown content browser command: " ++ CommandType
  | AssetRegistryFamily => "Unknown asset registry command: " ++ CommandType
  | LevelFamily => "Unknown level command"
  | LandscapeFamily => "Unknown landscape command"
  | WorldFamily => "Unknown world command"
  end.

(** Names without a double quote and without a backslash. *)
Definition PlainChar (c : ascii) : bool :=
  negb (Ascii.eqb c FStr.DQ) && negb (Ascii.eqb c FStr.BSL).

Fixpoint Plain (s : string) : bool :=
  match s with
  | EmptyString => true
  | String c r => PlainChar c && Plain r
  end.

End Families.

(* ------------------------------------------------------------------ *)
(** ** The bridge: dispatch on the game thread *)

Module Bridge.
Import Json Families.

(** A handler object of the bridge ([EditorCommands], [BlueprintCommands],
    ...): [HandleCommand(CommandType, Params)] answers with a shared
    pointer to a JSON object. *)
Definition ObjectHandler : Type :=
  string -> TSharedPtr JsonObject -> Outcome (TSharedPtr JsonObject).

Record Handlers : Type := {
  EditorCommands : ObjectHandler;
  BlueprintCommands : ObjectHandler;
  BlueprintNodeCommands : ObjectHandler;
  ProjectCommands : ObjectHandler;
  UMGCommands : ObjectHandler;
  StaticFamilies : Editors
}.

(** The groups of the if/else chain of [ExecuteCommand], in its order. *)
Inductive Group : Type :=
| Ping
| Editor | Blueprint | BlueprintNode | Project | UMG
| Static (F : Family).

Definition GroupNames (g : Group) : list string :=
  match g with
  | Ping => ["ping"]
  | Editor =>
      ["get_actors_in_level"; "find_actors_by_name"; "spawn_actor"; "create_actor";
       "delete_actor"; "set_actor_transform"; "get_actor_properties";
       "set_actor_property"; "spawn_blueprint_actor"; "focus_viewport";
       "take_screenshot"]
  | Blueprint =>
      ["create_blueprint"; "add_component_to_blueprint"; "set_component_property";
       "set_physics_properties"; "compile_blueprint"; "set_blueprint_property";
       "set_static_mesh_properties"; "set_pawn_properties"]
  | BlueprintNode =>
      ["connect_blueprint_nodes"; "add_blueprint_get_self_component_reference";
       "add_blueprint_self_reference"; "find_blueprint_nodes";
       "add_blueprint_event_node"; "add_blueprint_input_action_node";
       "add_blueprint_function_node"; "add_blueprint_get_component_node";
       "add_blueprint_variable"]
  | Project => ["create_input_mapping"]
  | UMG =>
      ["create_umg_widget_blueprint"; "add_text_block_to_widget";
       "add_button_to_widget"; "bind_widget_event"; "set_text_block_binding";
       "add_widget_to_viewport"]
  | Static AssetFamily =>
      ["load_asset"; "save_asset"; "duplicate_asset"; "delete_asset";
       "rename_asset"; "move_asset"; "import_asset"; "export_asset"]
  | Static ContentBrowserFamily =>
      ["list_assets"; "get_asset_metadata"; "search_assets"]
  | Static AssetRegistryFamily =>
      ["get_asset_references"; "get_asset_dependencies"]
  | Static LevelFamily =>
      ["create_level"; "save_level"; "load_level"; "set_level_visibility";
       "create_streaming_level"; "load_streaming_level"; "unload_streaming_level"]
  | Static LandscapeFamily =>
      ["create_landscape"; "modify_landscape"; "paint_landscape_layer";
       "get_landscape_info"]
  | Static WorldFamily => ["get_current_level_info"]
  end.

Definition Chain : list Group :=
  [Ping; Editor; Blueprint; BlueprintNode; Project; UMG;
   Static AssetFamily; Static ContentBrowserFamily; Static AssetRegistryFamily;
   Static LevelFamily; Static LandscapeFamily; Static WorldFamily].

(** One condition of the chain: [CommandType == TEXT(n1) || ...]. *)
Definition Matches (CommandType : string) (g : Group) : bool :=
  existsb (FStr.Equals CommandType) (GroupNames g).

(** The branch the chain takes: the first group with a matching name, or
    nothing, which is the final [else]. *)
Definition Lookup (CommandType : string) : option Group :=
  find (Matches CommandType) Chain.

(** What the chain leaves behind for the code after it. *)
Inductive Routed : Type :=
| UnknownCommand
| Result (ResultJson : TSharedPtr JsonObject)
| Exception (what : string)
| FatalError.

Definition FromObject (o : Outcome (TSharedPtr JsonObject)) : Routed :=
  match o with
  | Returned ptr => Result ptr
  | Threw what => Exception what
  | Fatal => FatalError
  end.

(** A static family answers with text; [FJsonSerializer::Deserialize] reads
    it into [ResultJson], which stays null when the read fails. *)
Definition FromText (o : Outcome string) : Routed :=
  match o with
  | Returned Response => Result (JsonText.Deserialize Response)
  | Threw what => Exception what
  | Fatal => FatalError
  end.

Definition Route (H : Handlers) (CommandType : string)
           (Params : TSharedPtr JsonObject) : Routed :=
  match Lookup CommandType with
  | Some Ping => Result (Some (SetStringField [] "message" "pong"))
  | Some Editor => FromObject (EditorCommands H CommandType Params)
  | Some Blueprint => FromObject (BlueprintCommands H CommandType Params)
  | Some BlueprintNode => FromObject (BlueprintNodeCommands H CommandType Params)
  | Some Project => FromObject (ProjectCommands H CommandType Params)
  | Some UMG => FromObject (UMGCommands H CommandType Params)
  | Some (Static F) =>
      FromText (Families.HandleCommand F (StaticFamilies H) CommandType Params)
  | None => UnknownCommand
  end.

(** The part of the lambda after the chain, on a non-null [ResultJson]:
    it fills the fresh [ResponseJson]. *)
Definition Respond (ResultJson : JsonObject) : JsonObject :=
  let ResponseJson : JsonObject := [] in
  let '(bSuccess, ErrorMessage) :=
    if HasField ResultJson "success" then
      let bSuccess := GetBoolField ResultJson "success" in
      if negb bSuccess && HasField ResultJson "error"
      then (bSuccess, GetStringField ResultJson "error")
      else (bSuccess, EmptyString)
    else (true, EmptyString) in
  if bSuccess then
    SetObjectField (SetStringField ResponseJson "status" "success") "result" ResultJson
  else
    SetStringField (SetStringField ResponseJson "status" "error") "error" ErrorMessage.

Definition UnknownResponse (CommandType : string) : JsonObject :=
  SetStringField (SetStringField [] "status" "error") "error"
    (FStr.Printf1 "Unknown command: " CommandType EmptyString).

Definition ExceptionResponse (what : string) : JsonObject :=
  SetStringField (SetStringField [] "status" "error") "error" what.

(** How the task queued on the game thread ends: it hands [ResponseJson] to
    the promise (as the text [FJsonSerializer::Serialize] writes for it), or
    it takes the process down. *)
Inductive TaskResult : Type :=
| Responded (ResponseJson : JsonObject)
| Crashed.

(** The lambda of [ExecuteCommand]. *)
Definition GameThreadTask (H : Handlers) (CommandType : string)
           (Params : TSharedPtr JsonObject) : TaskResult :=
  match Route H CommandType Params with
  | UnknownCommand => Responded (UnknownResponse CommandType)
  | Result (Some ResultJson) => Responded (Respond ResultJson)
  | Result None => Crashed
  | Exception what => Responded (ExceptionResponse what)
  | FatalError => Crashed
  end.

(** *** What the handlers give back *)

(** What comes back from the call of a handler: a shared pointer to an
    object from one of the five handler objects, a text from a static
    family. *)
Inductive HandlerAnswer : Type :=
| AnsweredObject (Answer : Outcome (TSharedPtr JsonObject))
| AnsweredText (Answer : Outcome string).

(** The call of [HandleCommand] in the branch the chain takes for
    [CommandType]; the branch of [ping] and the final [else] call none. *)
Definition HandlerCall (H : Handlers) (CommandType : string)
           (Params : TSharedPtr JsonObject) : option HandlerAnswer :=
  match Lookup CommandType with
  | Some Editor => Some (AnsweredObject (EditorCommands H CommandType Params))
  | Some Blueprint => Some (AnsweredObject (BlueprintCommands H CommandType Params))
  | Some BlueprintNode =>
      Some (AnsweredObject (BlueprintNodeCommands H CommandType Params))
  | Some Project => Some (AnsweredObject (ProjectCommands H CommandType Params))
  | Some UMG => Some (AnsweredObject (UMGCommands H CommandType Params))
  | Some (Static F) =>
      Some (AnsweredText
              (Families.HandleCommand F (StaticFamilies H) CommandType Params))
  | Some Ping => None
  | None => None
  end.


(** The handler of the command throws an exception with text [what]. *)
Definition HandlerThrows (H : Handlers) (CommandType : string)
           (Params : TSharedPtr JsonObject) (what : string) : Prop :=
  match HandlerCall H CommandType Params with
  | Some (AnsweredObject Answer) => Answer = Threw what
  | Some (AnsweredText Answer) => Answer = Threw what
  | None => False
  end.

(** *** The hand-off to the game thread *)

(** [ENamedThreads::GameThread], and the threads that are not it (the
    server thread of the bridge among them). *)
Inductive NamedThread : Type :=
| GameThread
| OtherThread (n : nat).

Definition IsGameThread (t : NamedThread) : bool :=
  match t with GameThread => true | OtherThread _ => false end.

(** A task queued by [AsyncTask]: the captures of the lambda. *)
Record QueuedTask : Type := {
  TaskCommandType : string;
  TaskParams : TSharedPtr JsonObject;
  TaskPromise : nat
}.

Record TaskGraph : Type := {
  (** tasks waiting for the game thread, oldest first *)
  GameThreadQueue : list QueuedTask;
  (** promises whose value has been set *)
  Fulfilled : list (nat * JsonObject);
  (** promises created so far *)
  PromisesMade : nat;
  (** threads that are inside [Future.Get()] *)
  BlockedInGet : list NamedThread;
  ProcessAlive : bool;
  (** calls of [AsyncTask] so far, and tasks the game thread has run *)
  Submitted : nat;
  Executed : nat
}.

Definition InitialGraph : TaskGraph :=
  {| GameThreadQueue := []; Fulfilled := []; PromisesMade := 0;
     BlockedInGet := []; ProcessAlive := true; Submitted := 0; Executed := 0 |}.

Fixpoint PromiseValue (table : list (nat * JsonObject)) (id : nat) : option JsonObject :=
  match table with
  | [] => None
  | (k, v) :: r => if Nat.eqb k id then Some v else PromiseValue r id
  end.

(** [TPromise<FString> Promise;]: a fresh promise, known by its number. *)
Definition MakePromise (g : TaskGraph) : nat * TaskGraph :=
  (PromisesMade g,
   {| GameThreadQueue := GameThreadQueue g; Fulfilled := Fulfilled g;
      PromisesMade := S (PromisesMade g); BlockedInGet := BlockedInGet g;
      ProcessAlive := ProcessAlive g; Submitted := Submitted g;
      Executed := Executed g |}).

(** [AsyncTask(ENamedThreads::GameThread, ...)]: the task is appended to the
    queue of the game thread, whoever calls. *)
Definition AsyncTask (t : QueuedTask) (g : TaskGraph) : TaskGraph :=
  {| GameThreadQueue := GameThreadQueue g ++ [t]; Fulfilled := Fulfilled g;
     PromisesMade := PromisesMade g; BlockedInGet := BlockedInGet g;
     ProcessAlive := ProcessAlive g; Submitted := S (Submitted g);
     Executed := Executed g |}.

(** One turn of the game thread: it runs its oldest queued task, unless it
    cannot take a turn because it sits in a [Future.Get()] itself (or the
    process is gone). *)
Definition GameThreadTurn (H : Handlers) (g : TaskGraph) : TaskGraph :=
  if negb (ProcessAlive g) || existsb IsGameThread (BlockedInGet g) then g
  else
    match GameThreadQueue g with
    | [] => g
    | t :: rest =>
        match GameThreadTask H (TaskCommandType t) (TaskParams t) with
        | Responded ResponseJson =>
            {| GameThreadQueue := rest;
               Fulfilled := (TaskPromise t, ResponseJson) :: Fulfilled g;
               PromisesMade := PromisesMade g; BlockedInGet := BlockedInGet g;
               ProcessAlive := true; Submitted := Submitted g;
               Executed := S (Executed g) |}
        | Crashed =>
            {| GameThreadQueue := rest; Fulfilled := Fulfilled g;
               PromisesMade := PromisesMade g; BlockedInGet := BlockedInGet g;
               ProcessAlive := false; Submitted := Submitted g;
               Executed := S (Executed g) |}
        end
    end.

(** What the caller of [ExecuteCommand] gets within [fuel] turns of the game
    thread. *)
Inductive CallResult : Type :=
| Returns (Response : JsonObject)
| StillInFutureGet
| ProcessDown.

Definition SameThread (a b : NamedThread) : bool :=
  match a, b with
  | GameThread, GameThread => true
  | OtherThread n, OtherThread m => Nat.eqb n m
  | _, _ => false
  end.

Fixpoint RemoveFirst (t : NamedThread) (l : list NamedThread) : list NamedThread :=
  match l with
  | [] => []
  | x :: r => if SameThread t x then r else x :: RemoveFirst t r
  end.

Definition EnterGet (caller : NamedThread) (g : TaskGraph) : TaskGraph :=
  {| GameThreadQueue := GameThreadQueue g; Fulfilled := Fulfilled g;
     PromisesMade := PromisesMade g; BlockedInGet := caller :: BlockedInGet g;
     ProcessAlive := ProcessAlive g; Submitted := Submitted g;
     Executed := Executed g |}.

Definition LeaveGet (caller : NamedThread) (g : TaskGraph) : TaskGraph :=
  {| GameThreadQueue := GameThreadQueue g; Fulfilled := Fulfilled g;
     PromisesMade := PromisesMade g;
     BlockedInGet := RemoveFirst caller (BlockedInGet g);
     ProcessAlive := ProcessAlive g; Submitted := Submitted g;
     Executed := Executed g |}.

(** The wait of [Future.Get()]: the caller stays blocked until the promise
    has its value; meanwhile only the game thread can bring that about. *)
Fixpoint AwaitPromise (fuel : nat) (H : Handlers) (caller : NamedThread) (id : nat)
         (g : TaskGraph) : CallResult * TaskGraph :=
  match PromiseValue (Fulfilled g) id with
  | Some Response => (Returns Response, LeaveGet caller g)
  | None =>
      if negb (ProcessAlive g) then (ProcessDown, g)
      else match fuel with
           | O => (StillInFutureGet, g)
           | S f => AwaitPromise f H caller id (GameThreadTurn H g)
           end
  end.

Definition FutureGet (fuel : nat) (H : Handlers) (caller : NamedThread) (id : nat)
           (g : TaskGraph) : CallResult * TaskGraph :=
  AwaitPromise fuel H caller id (EnterGet caller g).

(** [UUnrealMCPBridge::ExecuteCommand], called on thread [caller]: make the
    promise, queue the lambda on the game thread, wait on the future.  The
    body has no test of the calling thread. *)
Definition ExecuteCommand (fuel : nat) (H : Handlers) (caller : NamedThread)
           (CommandType : string) (Params : TSharedPtr JsonObject)
           (g : TaskGraph) : CallResult * TaskGraph :=
  let '(Promise, g) := MakePromise g in
  let g := AsyncTask {| TaskCommandType := CommandType; TaskParams := Params;
                        TaskPromise := Promise |} g in
  FutureGet fuel H caller Promise g.

(** A graph with nothing in flight: the state between two requests of the
    single connection the server thread serves. *)
Definition Quiet (g : TaskGraph) : Prop :=
  GameThreadQueue g = [] /\ BlockedInGet g = [] /\ ProcessAlive g = true
  /\ forall id, PromisesMade g <= id -> PromiseValue (Fulfilled g) id = None.

(** The graph after a quiet graph has served one call, and after the task
    of that call took the process down. *)
Definition AfterServing (Response : JsonObject) (g : TaskGraph) : TaskGraph :=
  {| GameThreadQueue := [];
     Fulfilled := (PromisesMade g, Response) :: Fulfilled g;
     PromisesMade := S (PromisesMade g); BlockedInGet := [];
     ProcessAlive := true; Submitted := S (Submitted g);
     Executed := S (Executed g) |}.

Definition AfterCrash (caller : NamedThread) (g : TaskGraph) : TaskGraph :=
  {| GameThreadQueue := []; Fulfilled := Fulfilled g;
     PromisesMade := S (PromisesMade g); BlockedInGet := [caller];
     ProcessAlive := false; Submitted := S (Submitted g);
     Executed := S (Executed g) |}.

(** The graph in which a call made on the game thread sits for good. *)
Definition StuckGraph (CommandType : string) (Params : TSharedPtr JsonObject)
           (g : TaskGraph) : TaskGraph :=
  {| GameThreadQueue :=
       GameThreadQueue g ++ [{| TaskCommandType := CommandType; TaskParams := Params;
                                TaskPromise := PromisesMade g |}];
     Fulfilled := Fulfilled g;
     PromisesMade := S (PromisesMade g);
     BlockedInGet := GameThread :: BlockedInGet g;
     ProcessAlive := ProcessAlive g; Submitted := S (Submitted g);
     Executed := Executed g |}.

(** The wire contract of a response envelope. *)
Definition WireContract (Envelope : JsonObject) : Prop :=
  (Find Envelope "status" = Some (JString "success")
   \/ Find Envelope "status" = Some (JString "error"))
  /\ (HasField Envelope "result" = true
      <-> Find Envelope "status" = Some (JString "success"))
  /\ (HasField Envelope "error" = true
      <-> Find Envelope "status" = Some (JString "error")).

(** *** Handlers to run the bridge on *)

Definition NoOperation : Operation :=
  fun _ => Returned (FStr.TEXT "{'success':true,'result':{}}").

(** An editor with one asset, a static mesh at /Game/Cube. *)
Definition SampleEditors : Editors :=
  {| AssetEditor :=
       {| FUnrealMCPAssetCommands.UEditorAssetLibrary_LoadAsset :=
            fun AssetPath =>
              if String.eqb AssetPath "/Game/Cube" then Some "StaticMesh" else None;
          FUnrealMCPAssetCommands.SaveAsset := NoOperation;
          FUnrealMCPAssetCommands.DuplicateAsset := NoOperation;
          FUnrealMCPAssetCommands.DeleteAsset := NoOperation;
          FUnrealMCPAssetCommands.RenameAsset := NoOperation;
          FUnrealMCPAssetCommands.MoveAsset := NoOperation;
          FUnrealMCPAssetCommands.ImportAsset := NoOperation;
          FUnrealMCPAssetCommands.ExportAsset := NoOperation |};
     ContentBrowserEditor :=
       {| FUnrealMCPContentBrowserCommands.ListAssets := NoOperation;
          FUnrealMCPContentBrowserCommands.GetAssetMetadata := NoOperation;
          FUnrealMCPContentBrowserCommands.SearchAssets := NoOperation |};
     AssetRegistryEditor :=
       {| FUnrealMCPAssetRegistryCommands.GetAssetReferences := NoOperation;
          FUnrealMCPAssetRegistryCommands.GetAssetDependencies := NoOperation |};
     LevelEditor :=
       {| FUnrealMCPLevelCommands.CreateLevel := NoOperation;
          FUnrealMCPLevelCommands.SaveLevel := NoOperation;
          FUnrealMCPLevelCommands.LoadLevel := NoOperation;
          FUnrealMCPLevelCommands.SetLevelVisibility := NoOperation;
          FUnrealMCPLevelCommands.CreateStreamingLevel := NoOperation;
          FUnrealMCPLevelCommands.LoadStreamingLevel := NoOperation;
          FUnrealMCPLevelCommands.UnloadStreamingLevel := NoOperation |};
     LandscapeEditor :=
       {| FUnrealMCPLandscapeCommands.CreateLandscape := NoOperation;
          FUnrealMCPLandscapeCommands.ModifyLandscape := NoOperation;
          FUnrealMCPLandscapeCommands.PaintLandscapeLayer := NoOperation;
          FUnrealMCPLandscapeCommands.GetLandscapeInfo := NoOperation |};
     WorldEditor :=
       {| FUnrealMCPWorldCommands.GetCurrentLevelInfo := NoOperation |} |}.

(** Handler objects that answer a fixed object, fail structurally, or
    throw, by command. *)
Definition SampleObjectHandler : ObjectHandler :=
  fun CommandType _ =>
    if String.eqb CommandType "delete_actor"
    then Returned (Some [("success", JBool false); ("error", JString "Actor not found")])
    else if String.eqb CommandType "take_screenshot"
    then Threw "bad allocation"
    else Returned (Some [("actors", JArray [])]).

Definition SampleHandlers : Handlers :=
  {| EditorCommands := SampleObjectHandler;
     BlueprintCommands := SampleObjectHandler;
     BlueprintNodeCommands := SampleObjectHandler;
     ProjectCommands := SampleObjectHandler;
     UMGCommands := SampleObjectHandler;
     StaticFamilies := SampleEditors |}.


End Bridge.

(* ------------------------------------------------------------------ *)
(** ** The bridge: starting and stopping the server *)

Module Lifecycle.
Import Json.

(** Sockets and threads are known by the handle the platform gave. *)
Definition FSocket : Type := nat.
Definition FRunnableThread : Type := nat.

Inductive Verbosity : Type := Display | Warning | Error.

(** The members of [UUnrealMCPBridge] that [StartServer] and [StopServer]
    touch, followed by the platform's side of the story: the sockets and
    threads made for the bridge and not yet destroyed, the calls to [Bind],
    and the [LogTemp] output. *)
Record UUnrealMCPBridge : Type := {
  bIsRunning : bool;
  ListenerSocket : TSharedPtr FSocket;
  ConnectionSocket : TSharedPtr FSocket;
  ServerThread : option FRunnableThread;
  Port : Z;
  ServerAddress : string;
  OpenSockets : list FSocket;
  RunningThreads : list FRunnableThread;
  BindCalls : nat;
  LogTemp : list (Verbosity * string)
}.

Definition set_bIsRunning (v : bool) (b : UUnrealMCPBridge) : UUnrealMCPBridge :=
  {| bIsRunning := v; ListenerSocket := ListenerSocket b;
     ConnectionSocket := ConnectionSocket b; ServerThread := ServerThread b;
     Port := Port b; ServerAddress := ServerAddress b;
     OpenSockets := OpenSockets b; RunningThreads := RunningThreads b;
     BindCalls := BindCalls b; LogTemp := LogTemp b |}.

Definition set_ListenerSocket (v : TSharedPtr FSocket) (b : UUnrealMCPBridge)
  : UUnrealMCPBridge :=
  {| bIsRunning := bIsRunning b; ListenerSocket := v;
     ConnectionSocket := ConnectionSocket b; ServerThread := ServerThread b;
     Port := Port b; ServerAddress := ServerAddress b;
     OpenSockets := OpenSockets b; RunningThreads := RunningThreads b;
     BindCalls := BindCalls b; LogTemp := LogTemp b |}.

Definition set_ConnectionSocket (v : TSharedPtr FSocket) (b : UUnrealMCPBridge)
  : UUnrealMCPBridge :=
  {| bIsRunning := bIsRunning b; ListenerSocket := ListenerSocket b;
     ConnectionSocket := v; ServerThread := ServerThread b;
     Port := Port b; ServerAddress := ServerAddress b;
     OpenSockets := OpenSockets b; RunningThreads := RunningThreads b;
     BindCalls := BindCalls b; LogTemp := LogTemp b |}.

Definition set_ServerThread (v : option FRunnableThread) (b : UUnrealMCPBridge)
  : UUnrealMCPBridge :=
  {| bIsRunning := bIsRunning b; ListenerSocket := ListenerSocket b;
     ConnectionSocket := ConnectionSocket b; ServerThread := v;
     Port := Port b; ServerAddress := ServerAddress b;
     OpenSockets := OpenSockets b; RunningThreads := RunningThreads b;
     BindCalls := BindCalls b; LogTemp := LogTemp b |}.

Definition set_OpenSockets (v : list FSocket) (b : UUnrealMCPBridge) : UUnrealMCPBridge :=
  {| bIsRunning := bIsRunning b; ListenerSocket := ListenerSocket b;
     ConnectionSocket := ConnectionSocket b; ServerThread := ServerThread b;
     Port := Port b; ServerAddress := ServerAddress b;
     OpenSockets := v; RunningThreads := RunningThreads b;
     BindCalls := BindCalls b; LogTemp := LogTemp b |}.

Definition set_RunningThreads (v : list FRunnableThread) (b : UUnrealMCPBridge)
  : UUnrealMCPBridge :=
  {| bIsRunning := bIsRunning b; ListenerSocket := ListenerSocket b;
     ConnectionSocket := ConnectionSocket b; ServerThread := ServerThread b;
     Port := Port b; ServerAddress := ServerAddress b;
     OpenSockets := OpenSockets b; RunningThreads := v;
     BindCalls := BindCalls b; LogTemp := LogTemp b |}.

Definition set_Port (v : Z) (b : UUnrealMCPBridge) : UUnrealMCPBridge :=
  {| bIsRunning := bIsRunning b; ListenerSocket := ListenerSocket b;
     ConnectionSocket := ConnectionSocket b; ServerThread := ServerThread b;
     Port := v; ServerAddress := ServerAddress b;
     OpenSockets := OpenSockets b; RunningThreads := RunningThreads b;
     BindCalls := BindCalls b; LogTemp := LogTemp b |}.

Definition set_ServerAddress (v : string) (b : UUnrealMCPBridge) : UUnrealMCPBridge :=
  {| bIsRunning := bIsRunning b; ListenerSocket := ListenerSocket b;
     ConnectionSocket := ConnectionSocket b; ServerThread := ServerThread b;
     Port := Port b; ServerAddress := v;
     OpenSockets := OpenSockets b; RunningThreads := RunningThreads b;
     BindCalls := BindCalls b; LogTemp := LogTemp b |}.

Definition count_Bind (b : UUnrealMCPBridge) : UUnrealMCPBridge :=
  {| bIsRunning := bIsRunning b; ListenerSocket := ListenerSocket b;
     ConnectionSocket := ConnectionSocket b; ServerThread := ServerThread b;
     Port := Port b; ServerAddress := ServerAddress b;
     OpenSockets := OpenSockets b; RunningThreads := RunningThreads b;
     BindCalls := S (BindCalls b); LogTemp := LogTemp b |}.

Definition UE_LOG (v : Verbosity) (msg : string) (b : UUnrealMCPBridge)
  : UUnrealMCPBridge :=
  {| bIsRunning := bIsRunning b; ListenerSocket := ListenerSocket b;
     ConnectionSocket := ConnectionSocket b; ServerThread := ServerThread b;
     Port := Port b; ServerAddress := ServerAddress b;
     OpenSockets := OpenSockets b; RunningThreads := RunningThreads b;
     BindCalls := BindCalls b; LogTemp := LogTemp b ++ [(v, msg)] |}.

Fixpoint remove_first (x : nat) (l : list nat) : list nat :=
  match l with
  | [] => []
  | y :: r => if Nat.eqb x y then r else y :: remove_first x r
  end.

(** [ISocketSubsystem::DestroySocket], and the end of a socket whose last
    shared pointer goes out of scope. *)
Definition DestroySocket (s : FSocket) (b : UUnrealMCPBridge) : UUnrealMCPBridge :=
  set_OpenSockets (remove_first s (OpenSockets b)) b.

(** [ServerThread->Kill(true); delete ServerThread;] *)
Definition KillAndDelete (t : FRunnableThread) (b : UUnrealMCPBridge) : UUnrealMCPBridge :=
  set_RunningThreads (remove_first t (RunningThreads b)) b.

(** What the platform answers during one call of [StartServer]. *)
Record Platform : Type := {
  SocketSubsystem : bool;
  CreateSocket : option FSocket;
  Bind : bool;
  Listen : bool;
  CreateThread : option FRunnableThread
}.

Definition Itoa (n : Z) : string :=
  if (n <? 0)%Z then ("-" ++ DecimalOfN (Z.to_N (- n)))%string
  else DecimalOfN (Z.to_N n).

Definition Endpoint (b : UUnrealMCPBridge) : string :=
  (ServerAddress b ++ ":" ++ Itoa (Port b))%string.

(** [UUnrealMCPBridge::StopServer]. *)
Definition StopServer (b : UUnrealMCPBridge) : UUnrealMCPBridge :=
  if negb (bIsRunning b) then b
  else
    let b := set_bIsRunning false b in
    let b := match ServerThread b with
             | Some t => set_ServerThread None (KillAndDelete t b)
             | None => b
             end in
    let b := match ConnectionSocket b with
             | Some s => set_ConnectionSocket None (DestroySocket s b)
             | None => b
             end in
    let b := match ListenerSocket b with
             | Some s => set_ListenerSocket None (DestroySocket s b)
             | None => b
             end in
    UE_LOG Display "UnrealMCPBridge: Server stopped" b.

(** [UUnrealMCPBridge::StartServer].  It returns nothing; what a caller can
    see of the outcome is the bridge after the call. *)
Definition StartServer (P : Platform) (b : UUnrealMCPBridge) : UUnrealMCPBridge :=
  if bIsRunning b then
    UE_LOG Warning "UnrealMCPBridge: Server is already running" b
  else if negb (SocketSubsystem P) then
    UE_LOG Error "UnrealMCPBridge: Failed to get socket subsystem" b
  else
    match CreateSocket P with
    | None => UE_LOG Error "UnrealMCPBridge: Failed to create listener socket" b
    | Some NewListenerSocket =>
        let b := set_OpenSockets (NewListenerSocket :: OpenSockets b) b in
        let b := count_Bind b in
        if negb (Bind P) then
          DestroySocket NewListenerSocket
            (UE_LOG Error
               ("UnrealMCPBridge: Failed to bind listener socket to " ++ Endpoint b) b)
        else if negb (Listen P) then
          DestroySocket NewListenerSocket
            (UE_LOG Error "UnrealMCPBridge: Failed to start listening" b)
        else
          let b := set_ListenerSocket (Some NewListenerSocket) b in
          let b := set_bIsRunning true b in
          let b := UE_LOG Display ("UnrealMCPBridge: Server started on " ++ Endpoint b) b in
          let b := set_ServerThread (CreateThread P) b in
          match CreateThread P with
          | Some t => set_RunningThreads (t :: RunningThreads b) b
          | None =>
              StopServer (UE_LOG Error "UnrealMCPBridge: Failed to create server thread" b)
          end
    end.

Definition MCP_SERVER_HOST : string := "0.0.0.0".
Definition MCP_SERVER_PORT : Z := 55557.

(** The two overrides [Initialize] looks for on the command line:
    [-UnrealMCPBind=] and [-UnrealMCPPort=] (the latter after [Atoi]). *)
Record CommandLine : Type := {
  UnrealMCPBind : option string;
  UnrealMCPPort : option Z
}.

(** What [Initialize] uses and the sources at hand do not hold.
    [FIPv4Address::Parse] is the engine's: it answers with the address it
    wrote, kept here as [ToString] renders it, or with nothing when it
    refuses the text, and then it leaves the address as it was.  The type of
    the member [Port] is declared in the header of the class; [PortOfInt32]
    is the conversion of an [int32] to that type. *)
Record Declarations : Type := {
  FIPv4Address_Parse : string -> option string;
  PortOfInt32 : Z -> Z
}.

(** [FIPv4Address::Parse(text, ServerAddress)], its answer ignored. *)
Definition ParseInto (D : Declarations) (text : string) (b : UUnrealMCPBridge)
  : UUnrealMCPBridge :=
  match FIPv4Address_Parse D text with
  | Some address => set_ServerAddress address b
  | None => b
  end.

(** [UUnrealMCPBridge::Initialize], on the bridge it is called on: the
    members are overwritten, whatever they held, the overrides are read and
    the server is started.  The assignments destroy nothing: the thread is
    held by a plain pointer, and a listener socket is shared with the server
    thread made for it. *)
Definition Initialize (D : Declarations) (C : CommandLine) (P : Platform)
           (b : UUnrealMCPBridge) : UUnrealMCPBridge :=
  let b := UE_LOG Display "UnrealMCPBridge: Initializing" b in
  let b := set_bIsRunning false b in
  let b := set_ListenerSocket None b in
  let b := set_ConnectionSocket None b in
  let b := set_ServerThread None b in
  let b := set_Port (PortOfInt32 D MCP_SERVER_PORT) b in
  let b := ParseInto D MCP_SERVER_HOST b in
  let BindAddress := match UnrealMCPBind C with Some v => v | None => MCP_SERVER_HOST end in
  let BindPort := match UnrealMCPPort C with Some v => v | None => MCP_SERVER_PORT end in
  let b := match UnrealMCPBind C with
           | Some v => UE_LOG Display
                         ("UnrealMCPBridge: Using command line bind address: " ++ v) b
           | None => b
           end in
  let b := match UnrealMCPPort C with
           | Some v => UE_LOG Display
                         ("UnrealMCPBridge: Using command line port: " ++ Itoa v) b
           | None => b
           end in
  let b := set_Port (PortOfInt32 D BindPort) b in
  let b := ParseInto D BindAddress b in
  StartServer P (UE_LOG Display ("UnrealMCPBridge: Will bind to " ++ Endpoint b) b).

(** [UUnrealMCPBridge::Deinitialize]. *)
Definition Deinitialize (b : UUnrealMCPBridge) : UUnrealMCPBridge :=
  StopServer (UE_LOG Display "UnrealMCPBridge: Shutting down" b).

(** An object [Initialize] has not been called on yet: the platform has
    made no socket and no thread for it. *)
Definition NewObject (b : UUnrealMCPBridge) : Prop :=
  OpenSockets b = [] /\ RunningThreads b = [].

(** The bridges that the code of the module can produce: [Initialize] is
    called on a new object, once, and the other three follow in any order. *)
Inductive Reachable : UUnrealMCPBridge -> Prop :=
| reach_Initialize : forall D C P b, NewObject b -> Reachable (Initialize D C P b)
| reach_StartServer : forall P b, Reachable b -> Reachable (StartServer P b)
| reach_StopServer : forall b, Reachable b -> Reachable (StopServer b)
| reach_Deinitialize : forall b, Reachable b -> Reachable (Deinitialize b).

(** Nothing is held: no thread, no socket, on either side. *)
Definition HoldsNothing (b : UUnrealMCPBridge) : Prop :=
  ServerThread b = None /\ ConnectionSocket b = None /\ ListenerSocket b = None
  /\ OpenSockets b = [] /\ RunningThreads b = [].

Definition held {A : Type} (p : option A) : list A :=
  match p with Some x => [x] | None => [] end.

(** What the bridge holds is what the platform made for it: while it runs,
    the open sockets are the connection socket, if any, and the listener
    socket, and the running thread is the server thread; while it does not
    run, nothing is held. *)
Definition Accounted (b : UUnrealMCPBridge) : Prop :=
  if bIsRunning b
  then OpenSockets b = held (ConnectionSocket b) ++ held (ListenerSocket b)
       /\ RunningThreads b = held (ServerThread b)
  else HoldsNothing b.

(** *** Platforms to run the bridge on *)

Definition NoOverrides : CommandLine :=
  {| UnrealMCPBind := None; UnrealMCPPort := None |}.

(** A parse that knows two addresses, and a member [Port] that is an
    [int32] itself. *)
Definition SampleDeclarations : Declarations :=
  {| FIPv4Address_Parse :=
       fun text =>
         if String.eqb text "0.0.0.0" || String.eqb text "127.0.0.1"
         then Some text else None;
     PortOfInt32 := fun v => v |}.

(** A new object: nothing set, nothing made, nothing logged. *)
Definition NewBridge : UUnrealMCPBridge :=
  {| bIsRunning := false; ListenerSocket := None; ConnectionSocket := None;
     ServerThread := None; Port := 0; ServerAddress := EmptyString;
     OpenSockets := []; RunningThreads := []; BindCalls := 0; LogTemp := [] |}.

(** Everything works: socket 3, thread 1. *)
Definition WorkingPlatform : Platform :=
  {| SocketSubsystem := true; CreateSocket := Some 3; Bind := true;
     Listen := true; CreateThread := Some 1 |}.

(** The port is taken: [Bind] fails. *)
Definition PortTakenPlatform : Platform :=
  {| SocketSubsystem := true; CreateSocket := Some 3; Bind := false;
     Listen := true; CreateThread := Some 1 |}.

End Lifecycle.

(* ------------------------------------------------------------------ *)
(** ** The bridge: more of its tables and of its use *)

Module BridgeMore.
Import Json Families Bridge.

Definition FamilyEqb (a b : Family) : bool :=
  match a, b with
  | AssetFamily, AssetFamily | ContentBrowserFamily, ContentBrowserFamily
  | AssetRegistryFamily, AssetRegistryFamily | LevelFamily, LevelFamily
  | LandscapeFamily, LandscapeFamily | WorldFamily, WorldFamily => true
  | _, _ => false
  end.

Definition GroupEqb (a b : Group) : bool :=
  match a, b with
  | Ping, Ping | Editor, Editor | Blueprint, Blueprint
  | BlueprintNode, BlueprintNode | Project, Project | UMG, UMG => true
  | Static F, Static G => FamilyEqb F G
  | _, _ => false
  end.

(** No name of one condition of the chain equals, as [FString]s are equal,
    a name of the other. *)
Definition NoCommonName (a b : Group) : bool :=
  forallb (fun n => forallb (fun m => negb (FStr.Equals n m)) (GroupNames b))
          (GroupNames a).

Definition ChainIsDisjoint : bool :=
  forallb (fun a => forallb (fun b => GroupEqb a b || NoCommonName a b) Chain) Chain.

(** Editors whose every body brings the process down: what a router
    answers over them shows whether it called a body. *)
Definition CrashingEditors : Editors :=
  let Crash : Operation := fun _ => Fatal in
  {| AssetEditor :=
       {| FUnrealMCPAssetCommands.UEditorAssetLibrary_LoadAsset := fun _ => None;
          FUnrealMCPAssetCommands.SaveAsset := Crash;
          FUnrealMCPAssetCommands.DuplicateAsset := Crash;
          FUnrealMCPAssetCommands.DeleteAsset := Crash;
          FUnrealMCPAssetCommands.RenameAsset := Crash;
          FUnrealMCPAssetCommands.MoveAsset := Crash;
          FUnrealMCPAssetCommands.ImportAsset := Crash;
          FUnrealMCPAssetCommands.ExportAsset := Crash |};
     ContentBrowserEditor :=
       {| FUnrealMCPContentBrowserCommands.ListAssets := Crash;
          FUnrealMCPContentBrowserCommands.GetAssetMetadata := Crash;
          FUnrealMCPContentBrowserCommands.SearchAssets := Crash |};
     AssetRegistryEditor :=
       {| FUnrealMCPAssetRegistryCommands.GetAssetReferences := Crash;
          FUnrealMCPAssetRegistryCommands.GetAssetDependencies := Crash |};
     LevelEditor :=
       {| FUnrealMCPLevelCommands.CreateLevel := Crash;
          FUnrealMCPLevelCommands.SaveLevel := Crash;
          FUnrealMCPLevelCommands.LoadLevel := Crash;
          FUnrealMCPLevelCommands.SetLevelVisibility := Crash;
          FUnrealMCPLevelCommands.CreateStreamingLevel := Crash;
          FUnrealMCPLevelCommands.LoadStreamingLevel := Crash;
          FUnrealMCPLevelCommands.UnloadStreamingLevel := Crash |};
     LandscapeEditor :=
       {| FUnrealMCPLandscapeCommands.CreateLandscape := Crash;
          FUnrealMCPLandscapeCommands.ModifyLandscape := Crash;
          FUnrealMCPLandscapeCommands.PaintLandscapeLayer := Crash;
          FUnrealMCPLandscapeCommands.GetLandscapeInfo := Crash |};
     WorldEditor :=
       {| FUnrealMCPWorldCommands.GetCurrentLevelInfo := Crash |} |}.

(** One request after another, each by its own call of [ExecuteCommand] on
    the graph the call before left: what a thread that serves a connection
    does with the requests it reads. *)
Fixpoint ExecuteCommands (fuel : nat) (H : Handlers) (caller : NamedThread)
         (requests : list (string * TSharedPtr JsonObject)) (g : TaskGraph)
  : list CallResult * TaskGraph :=
  match requests with
  | [] => ([], g)
  | (CommandType, Params) :: rest =>
      let '(r, g1) := ExecuteCommand fuel H caller CommandType Params g in
      let '(rs, g2) := ExecuteCommands fuel H caller rest g1 in
      (r :: rs, g2)
  end.

(** The answers the tasks of those requests give, when every one of them
    gives one. *)
Fixpoint Responses (H : Handlers) (requests : list (string * TSharedPtr JsonObject))
  : option (list JsonObject) :=
  match requests with
  | [] => Some []
  | (CommandType, Params) :: rest =>
      match GameThreadTask H CommandType Params, Responses H rest with
      | Responded r, Some rs => Some (r :: rs)
      | _, _ => None
      end
  end.

End BridgeMore.

(* ------------------------------------------------------------------ *)
(** ** The bridge: more on starting and stopping *)

Module LifecycleMore.
Import Lifecycle.

(** The bridge holds one listener socket and one server thread, and the
    platform has made just these for it. *)
Definition HoldsOneOfEach (b : UUnrealMCPBridge) : Prop :=
  exists s t,
    ListenerSocket b = Some s /\ ServerThread b = Some t
    /\ ConnectionSocket b = None
    /\ OpenSockets b = [s] /\ RunningThreads b = [t].

Definition Consistent (b : UUnrealMCPBridge) : Prop :=
  if bIsRunning b then HoldsOneOfEach b else HoldsNothing b.

(** A platform on which every step of [StartServer] succeeds, giving socket
    [s] and thread [t]. *)
Definition AllSucceed (P : Platform) (s : FSocket) (t : FRunnableThread) : Prop :=
  SocketSubsystem P = true /\ CreateSocket P = Some s /\ Bind P = true
  /\ Listen P = true /\ CreateThread P = Some t.

(** A platform on which only the making of the thread fails. *)
Definition OnlyThreadFails (P : Platform) (s : FSocket) : Prop :=
  SocketSubsystem P = true /\ CreateSocket P = Some s /\ Bind P = true
  /\ Listen P = true /\ CreateThread P = None.

Definition NoThreadPlatform : Platform :=
  {| SocketSubsystem := true; CreateSocket := Some 3; Bind := true;
     Listen := true; CreateThread := None |}.

(** The bridges the code of the module can produce from one call of
    [Initialize] on the object [b0], with declarations [D] and command line
    [C]. *)
Inductive ReachableWith (D : Declarations) (C : CommandLine) (b0 : UUnrealMCPBridge)
  : UUnrealMCPBridge -> Prop :=
| with_Initialize : forall P, ReachableWith D C b0 (Initialize D C P b0)
| with_StartServer : forall P b,
    ReachableWith D C b0 b -> ReachableWith D C b0 (StartServer P b)
| with_StopServer : forall b,
    ReachableWith D C b0 b -> ReachableWith D C b0 (StopServer b)
| with_Deinitialize : forall b,
    ReachableWith D C b0 b -> ReachableWith D C b0 (Deinitialize b).

(** The port [Initialize] reads: the override, or else the default. *)
Definition BindPortOf (C : CommandLine) : Z :=
  match UnrealMCPPort C with Some v => v | None => MCP_SERVER_PORT end.

(** The address the two calls of [FIPv4Address::Parse] in [Initialize]
    leave in the object [b0]: that of the override when there is one and it
    parses; else that of the default; else, when even the default is
    refused, the address the object had. *)
Definition DefaultAddressOf (D : Declarations) (b0 : UUnrealMCPBridge) : string :=
  match FIPv4Address_Parse D MCP_SERVER_HOST with
  | Some address => address
  | None => ServerAddress b0
  end.

Definition SettledAddress (D : Declarations) (C : CommandLine) (b0 : UUnrealMCPBridge)
  : string :=
  match UnrealMCPBind C with
  | Some v =>
      match FIPv4Address_Parse D v with
      | Some address => address
      | None => DefaultAddressOf D b0
      end
  | None => DefaultAddressOf D b0
  end.

End LifecycleMore.

(* ------------------------------------------------------------------ *)
(** ** What the bodies of the commands use *)

Module Editing.
Import Json Families.

(** [FJsonObject::TryGetStringField] and [TryGetBoolField]: the field must
    be there and must convert; nothing is written to the out parameter
    otherwise. *)
Definition TryGetStringField (o : JsonObject) (FieldName : string) : option string :=
  match Find o FieldName with Some v => TryGetString v | None => None end.

Definition TryGetBoolField (o : JsonObject) (FieldName : string) : option bool :=
  match Find o FieldName with Some v => TryGetBool v | None => None end.

(** [FString::StartsWith], which by default ignores case, and
    [FString::RightChop]. *)
Fixpoint StartsWith (s prefix : string) : bool :=
  match prefix, s with
  | EmptyString, _ => true
  | String p prefix', String c s' =>
      Ascii.eqb (FStr.ToLower c) (FStr.ToLower p) && StartsWith s' prefix'
  | String _ _, EmptyString => false
  end.

Fixpoint RightChop (n : nat) (s : string) : string :=
  match n, s with
  | O, _ => s
  | S n', String _ s' => RightChop n' s'
  | S _, EmptyString => EmptyString
  end.

(** A body runs in the editor, whose state it may change; like every call
    it returns, throws or brings the process down. *)
Definition Run (Ed A : Type) : Type := Ed -> Outcome A * Ed.

Definition ret {Ed A : Type} (a : A) : Run Ed A := fun e => (Returned a, e).

Definition bind {Ed A B : Type} (m : Run Ed A) (k : A -> Run Ed B) : Run Ed B :=
  fun e =>
    match m e with
    | (Returned a, e1) => k a e1
    | (Threw what, e1) => (Threw what, e1)
    | (Fatal, e1) => (Fatal, e1)
    end.

(** The use of a null pointer. *)
Definition crash {Ed A : Type} : Run Ed A := fun e => (Fatal, e).

(** [try { body } catch (const std::exception& e) { return handler(e.what()); }] *)
Definition try_catch {Ed A : Type} (body : Run Ed A) (handler : string -> A) : Run Ed A :=
  fun e =>
    match body e with
    | (Threw what, e1) => (Returned (handler what), e1)
    | r => r
    end.

(** The two shapes of an answer a body gives, once read: [success] is true
    and there is a result, or [success] is false and there is an error
    text. *)
Definition Succeeds (result : JsonValue) (o : JsonObject) : Prop :=
  Find o "success" = Some (JBool true)
  /\ Find o "result" = Some result
  /\ Find o "error" = None.

Definition FailsWith (message : string) (o : JsonObject) : Prop :=
  Find o "success" = Some (JBool false)
  /\ Find o "error" = Some (JString message)
  /\ Find o "result" = None.

(** What an answer says of its success, for a reader of its text: the
    boolean under [success], when the call returned a text that reads as an
    object with one. *)
Definition Verdict (answer : Outcome string) : option bool :=
  match answer with
  | Returned text =>
      match JsonText.Deserialize text with
      | Some o => match Find o "success" with
                  | Some (JBool b) => Some b
                  | _ => None
                  end
      | None => None
      end
  | _ => None
  end.

(** The boolean an engine call returned, if it returned. *)
Definition Flag (answer : Outcome bool) : option bool :=
  match answer with Returned b => Some b | _ => None end.

Declare Scope run_scope.
Delimit Scope run_scope with run.
Notation "x <- m ;; k" := (bind m (fun x => k))
  (at level 61, m at next level, right associativity) : run_scope.

End Editing.

(* ------------------------------------------------------------------ *)
(** ** The bodies of the asset commands *)

Module AssetOperations.
Import Json Families Editing.
Local Open Scope run_scope.

(** [GetAssetTypeName], the same in the asset, content browser and asset
    registry families; the class it is given is known by its name, or is
    null. *)
Definition GetAssetTypeName (AssetClass : option string) : string :=
  match AssetClass with
  | None => "Unknown"
  | Some ClassName =>
      if StartsWith ClassName "U" then RightChop 1 ClassName
      else if StartsWith ClassName "A" then RightChop 1 ClassName
      else ClassName
  end.

Section Library.
(** The state of the editor. *)
Variable Ed : Type.

(** What the bodies ask of the engine: [UEditorAssetLibrary], [FindPackage],
    [FPackageName] and [FPaths]. *)
Record EditorAssetLibrary : Type := {
  (** the class name of the loaded asset, or nothing for a null result *)
  Library_LoadAsset : string -> Run Ed (option string);
  Library_SaveAsset : string -> bool -> Run Ed bool;
  (** whether the duplicate was made (the result is not null) *)
  Library_DuplicateAsset : string -> string -> Run Ed bool;
  Library_DeleteAsset : string -> Run Ed bool;
  Library_RenameAsset : string -> string -> Run Ed bool;
  (** whether [FindPackage(nullptr, Name)] finds the package *)
  FindPackage : string -> Run Ed bool;
  ObjectPathToPackageName : string -> string;
  GetPath : string -> string;
  Combine : string -> string -> string
}.

Variable L : EditorAssetLibrary.

Definition Body : Type := TSharedPtr JsonObject -> Run Ed string.

Definition SaveAsset : Body := fun Params =>
  match Params with
  | None => crash
  | Some P =>
      let AssetPath := GetStringField P "asset_path" in
      let bOnlyIfDirty :=
        match TryGetBoolField P "only_if_dirty" with Some b => b | None => true end in
      bSuccess <- Library_SaveAsset L AssetPath bOnlyIfDirty ;;
      if negb bSuccess then
        ret (FStr.Printf1 (FStr.TEXT "{'success':false,'error':'Failed to save asset: ")
                          AssetPath (FStr.TEXT "'}"))
      else
        ret (FStr.Printf1 (FStr.TEXT "{'success':true,'result':{'asset_path':'")
                          AssetPath (FStr.TEXT "','saved':true}}"))
  end.

Definition DuplicateAsset : Body := fun Params =>
  match Params with
  | None => crash
  | Some P =>
      let SourcePath := GetStringField P "source_path" in
      let DestinationPath := GetStringField P "destination_path" in
      DuplicatedAsset <- Library_DuplicateAsset L SourcePath DestinationPath ;;
      if negb DuplicatedAsset then
        ret (FStr.TEXT "{'success':false,'error':'Failed to duplicate asset from "
             ++ SourcePath ++ " to " ++ DestinationPath ++ FStr.TEXT "'}")%string
      else
        ret (FStr.TEXT "{'success':true,'result':{'source':'"
             ++ SourcePath ++ FStr.TEXT "','destination':'" ++ DestinationPath
             ++ FStr.TEXT "','duplicated':true}}")%string
  end.

Definition DeleteAsset : Body := fun Params =>
  match Params with
  | None => crash
  | Some P =>
      let AssetPath := GetStringField P "asset_path" in
      bSuccess <- Library_DeleteAsset L AssetPath ;;
      if negb bSuccess then
        ret (FStr.Printf1 (FStr.TEXT "{'success':false,'error':'Failed to delete asset: ")
                          AssetPath (FStr.TEXT "'}"))
      else
        ret (FStr.Printf1 (FStr.TEXT "{'success':true,'result':{'asset_path':'")
                          AssetPath (FStr.TEXT "','deleted':true}}"))
  end.

Definition RenameAsset : Body := fun Params =>
  match Params with
  | None => crash
  | Some P =>
      let SourcePath := GetStringField P "source_path" in
      let NewName := GetStringField P "new_name" in
      let Directory := GetPath L SourcePath in
      let NewPath := Combine L Directory NewName in
      bSuccess <- Library_RenameAsset L SourcePath NewPath ;;
      if negb bSuccess then
        ret (FStr.TEXT "{'success':false,'error':'Failed to rename asset from "
             ++ SourcePath ++ " to " ++ NewPath ++ FStr.TEXT "'}")%string
      else
        ret (FStr.TEXT "{'success':true,'result':{'old_path':'"
             ++ SourcePath ++ FStr.TEXT "','new_path':'" ++ NewPath
             ++ FStr.TEXT "'}}")%string
  end.

Definition MoveAsset : Body := fun Params =>
  match Params with
  | None => crash
  | Some P =>
      let SourcePath := GetStringField P "source_path" in
      let DestinationPath := GetStringField P "destination_path" in
      bSuccess <- Library_RenameAsset L SourcePath DestinationPath ;;
      if negb bSuccess then
        ret (FStr.TEXT "{'success':false,'error':'Failed to move asset from "
             ++ SourcePath ++ " to " ++ DestinationPath ++ FStr.TEXT "'}")%string
      else
        ret (FStr.TEXT "{'success':true,'result':{'source':'"
             ++ SourcePath ++ FStr.TEXT "','destination':'" ++ DestinationPath
             ++ FStr.TEXT "','moved':true}}")%string
  end.

Definition ExportAsset : Body := fun Params =>
  match Params with
  | None => crash
  | Some P =>
      let AssetPath := GetStringField P "asset_path" in
      let ExportPath := GetStringField P "export_path" in
      Asset <- Library_LoadAsset L AssetPath ;;
      match Asset with
      | None =>
          ret (FStr.Printf1 (FStr.TEXT "{'success':false,'error':'Asset not found: ")
                            AssetPath (FStr.TEXT "'}"))
      | Some _ =>
          let AssetPackagePath := ObjectPathToPackageName L AssetPath in
          Package <- FindPackage L AssetPackagePath ;;
          bSuccess <- (if Package then Library_SaveAsset L AssetPath false
                       else ret false) ;;
          if negb bSuccess then
            ret (FStr.TEXT "{'success':false,'error':'Failed to export asset "
                 ++ AssetPath ++ " to " ++ ExportPath ++ FStr.TEXT "'}")%string
          else
            ret (FStr.TEXT "{'success':true,'result':{'asset_path':'"
                 ++ AssetPath ++ FStr.TEXT "','export_path':'" ++ ExportPath
                 ++ FStr.TEXT "'}}")%string
      end
  end.

(** The bodies above, by the command [HandleCommand] calls them for. *)
Definition AssetBodies : list (string * Body) :=
  [("save_asset", SaveAsset); ("duplicate_asset", DuplicateAsset);
   ("delete_asset", DeleteAsset); ("rename_asset", RenameAsset);
   ("move_asset", MoveAsset); ("export_asset", ExportAsset)].

(** Every string these bodies splice into an answer is plain: the
    parameters they read, and the path [RenameAsset] puts together. *)
Definition PlainAssetParams (P : JsonObject) : bool :=
  Plain (GetStringField P "asset_path")
  && Plain (GetStringField P "source_path")
  && Plain (GetStringField P "destination_path")
  && Plain (GetStringField P "export_path")
  && Plain (Combine L (GetPath L (GetStringField P "source_path"))
                    (GetStringField P "new_name")).

(** The asset family as the router sees it while the editor is in state
    [e]: each body run from [e], its answer kept. *)
Definition AssetEditorAt (e : Ed) (Load : string -> option string) (Import : Operation)
  : FUnrealMCPAssetCommands.Editor :=
  {| FUnrealMCPAssetCommands.UEditorAssetLibrary_LoadAsset := Load;
     FUnrealMCPAssetCommands.SaveAsset := fun Params => fst (SaveAsset Params e);
     FUnrealMCPAssetCommands.DuplicateAsset := fun Params => fst (DuplicateAsset Params e);
     FUnrealMCPAssetCommands.DeleteAsset := fun Params => fst (DeleteAsset Params e);
     FUnrealMCPAssetCommands.RenameAsset := fun Params => fst (RenameAsset Params e);
     FUnrealMCPAssetCommands.MoveAsset := fun Params => fst (MoveAsset Params e);
     FUnrealMCPAssetCommands.ImportAsset := Import;
     FUnrealMCPAssetCommands.ExportAsset := fun Params => fst (ExportAsset Params e) |}.

End Library.

Arguments Library_LoadAsset {Ed}.
Arguments Library_SaveAsset {Ed}.
Arguments Library_DuplicateAsset {Ed}.
Arguments Library_DeleteAsset {Ed}.
Arguments Library_RenameAsset {Ed}.
Arguments FindPackage {Ed}.
Arguments ObjectPathToPackageName {Ed}.
Arguments GetPath {Ed}.
Arguments Combine {Ed}.
Arguments SaveAsset {Ed}.
Arguments DuplicateAsset {Ed}.
Arguments DeleteAsset {Ed}.
Arguments RenameAsset {Ed}.
Arguments MoveAsset {Ed}.
Arguments ExportAsset {Ed}.
Arguments AssetBodies {Ed}.
Arguments PlainAssetParams {Ed}.
Arguments AssetEditorAt {Ed}.

(** An asset library over a set of paths: the state of the editor is the
    list of the assets there are. *)
Definition ListLibrary : EditorAssetLibrary (list string) :=
  {| Library_LoadAsset := fun p e =>
       (Returned (if existsb (String.eqb p) e then Some "StaticMesh" else None), e);
     Library_SaveAsset := fun p _ e => (Returned (existsb (String.eqb p) e), e);
     Library_DuplicateAsset := fun s d e =>
       if existsb (String.eqb s) e && negb (existsb (String.eqb d) e)
       then (Returned true, d :: e) else (Returned false, e);
     Library_DeleteAsset := fun p e =>
       (Returned (existsb (String.eqb p) e),
        filter (fun q => negb (String.eqb p q)) e);
     Library_RenameAsset := fun s d e =>
       if existsb (String.eqb s) e && negb (existsb (String.eqb d) e)
       then (Returned true, d :: filter (fun q => negb (String.eqb s q)) e)
       else (Returned false, e);
     FindPackage := fun p e => (Returned (existsb (String.eqb p) e), e);
     ObjectPathToPackageName := fun p => p;
     GetPath := fun _ => "/Game";
     Combine := fun a b => (a ++ "/" ++ b)%string |}.

End AssetOperations.

(* ------------------------------------------------------------------ *)
(** ** The bodies of the level commands *)

Module LevelOperations.
Import Json Families Editing.
Local Open Scope run_scope.

(** A streaming level, as far as the bodies look at it: the package name of
    its world asset and whether it should be visible. *)
Record ULevelStreaming : Type := {
  WorldAssetPackageName : string;
  bShouldBeVisible : bool
}.

(** [ULevelStreaming::SetShouldBeVisible]. *)
Definition SetShouldBeVisible (v : bool) (l : ULevelStreaming) : ULevelStreaming :=
  {| WorldAssetPackageName := WorldAssetPackageName l; bShouldBeVisible := v |}.

(** A world: its streaming levels, in the order of [GetStreamingLevels()];
    an entry may be null. *)
Record UWorld : Type := {
  StreamingLevels : list (option ULevelStreaming)
}.

(** The test of both loops: the entry is not null and its package name is
    [LevelName]. *)
Definition IsLevel (LevelName : string) (entry : option ULevelStreaming) : bool :=
  match entry with
  | Some l => FStr.Equals (WorldAssetPackageName l) LevelName
  | None => false
  end.

(** The loop of [SetLevelVisibility]: from the front, the first entry that
    passes the test is set and the loop ends; nothing when none passes. *)
Fixpoint SetFirstVisible (LevelName : string) (bVisible : bool)
         (levels : list (option ULevelStreaming))
  : option (list (option ULevelStreaming)) :=
  match levels with
  | [] => None
  | entry :: rest =>
      if IsLevel LevelName entry then
        Some (option_map (SetShouldBeVisible bVisible) entry :: rest)
      else
        match SetFirstVisible LevelName bVisible rest with
        | Some rest' => Some (entry :: rest')
        | None => None
        end
  end.

(** The loop of [UnloadStreamingLevel]: from the back, the first entry that
    passes the test is removed and the loop ends. *)
Fixpoint RemoveLastLevel (LevelName : string) (levels : list (option ULevelStreaming))
  : option (list (option ULevelStreaming)) :=
  match levels with
  | [] => None
  | entry :: rest =>
      match RemoveLastLevel LevelName rest with
      | Some rest' => Some (entry :: rest')
      | None => if IsLevel LevelName entry then Some rest else None
      end
  end.

(** [World->AddStreamingLevel]. *)
Definition AddStreamingLevel (l : ULevelStreaming) (w : UWorld) : UWorld :=
  {| StreamingLevels := StreamingLevels w ++ [Some l] |}.

Section Editor.
(** What there is to the editor besides its world. *)
Variable Elsewhere : Type.

(** The editor: [GEditor->GetEditorWorldContext().World()], which may be
    null, and the rest. *)
Record FEditor : Type := {
  World : option UWorld;
  Rest : Elsewhere
}.

Definition SetWorld (w : UWorld) (e : FEditor) : FEditor :=
  {| World := Some w; Rest := Rest e |}.

Record ULevelEditorSubsystem : Type := {
  NewLevel : string -> Run FEditor bool;
  LoadLevel_ : string -> Run FEditor bool
}.

(** What the bodies ask of the engine. *)
Record Engine : Type := {
  (** [GEditor->GetEditorSubsystem<ULevelEditorSubsystem>()], which may be
      null *)
  LevelEditorSubsystem : FEditor -> option ULevelEditorSubsystem;
  (** [NewObject<ULevelStreaming>(World, StreamingClass)], which may be
      null *)
  NewStreamingLevel : FEditor -> Outcome (option ULevelStreaming);
  (** the package name a streaming level reports after
      [SetWorldAssetByPackageName(FName(LevelPath))] *)
  PackageNameOf : string -> string;
  (** the text [FJsonSerializer::Serialize] writes for [LevelToJson] of
      the persistent level of a world *)
  PersistentLevelText : UWorld -> string
}.

Variable E : Engine.

Definition Body : Type := TSharedPtr JsonObject -> Run FEditor string.

(** [!Params->TryGetStringField(Key, Value) || Value.IsEmpty()], turned
    around: the value when the parameter is there, converts to a string and
    is not empty. *)
Definition Required (P : JsonObject) (Key : string) : option string :=
  match TryGetStringField P Key with
  | Some Value => if FStr.IsEmpty Value then None else Some Value
  | None => None
  end.

Definition ExceptionText (Function what : string) : string :=
  (FStr.TEXT "{'success':false,'error':'Exception in " ++ Function ++ ": "
   ++ what ++ FStr.TEXT "'}")%string.

Definition NoSubsystemText : string :=
  FStr.TEXT "{'success':false,'error':'Failed to get LevelEditorSubsystem'}".

Definition NoWorldText : string :=
  FStr.TEXT "{'success':false,'error':'No active world found'}".

Definition CreateLevel : Body := fun Params =>
  try_catch
    match Params with
    | None => crash
    | Some P =>
        match Required P "level_name" with
        | None => ret (FStr.TEXT "{'success':false,'error':'level_name parameter is required'}")
        | Some LevelName =>
            let LevelPath := ("/Game/" ++ LevelName)%string in
            fun e =>
              match LevelEditorSubsystem E e with
              | None => ret NoSubsystemText e
              | Some Subsystem =>
                  (bSuccess <- NewLevel Subsystem LevelPath ;;
                   if negb bSuccess then
                     ret (FStr.Printf1
                            (FStr.TEXT "{'success':false,'error':'Failed to create level: ")
                            LevelName (FStr.TEXT "'}"))
                   else
                     fun e1 =>
                       match World e1 with
                       | None =>
                           ret (FStr.Printf1
                                  (FStr.TEXT "{'success':false,'error':'Failed to create level: ")
                                  LevelName (FStr.TEXT "'}")) e1
                       | Some NewWorld =>
                           ret (FStr.Printf1 (FStr.TEXT "{'success':true,'result':")
                                             (PersistentLevelText E NewWorld) "}") e1
                       end) e
              end
        end
    end
    (ExceptionText "CreateLevel").

Definition LoadLevel : Body := fun Params =>
  try_catch
    match Params with
    | None => crash
    | Some P =>
        match Required P "level_path" with
        | None => ret (FStr.TEXT "{'success':false,'error':'level_path parameter is required'}")
        | Some LevelPath =>
            fun e =>
              match LevelEditorSubsystem E e with
              | None => ret NoSubsystemText e
              | Some Subsystem =>
                  (bLoaded <- LoadLevel_ Subsystem LevelPath ;;
                   if negb bLoaded then
                     ret (FStr.Printf1
                            (FStr.TEXT "{'success':false,'error':'Failed to load level: ")
                            LevelPath (FStr.TEXT "'}"))
                   else
                     ret (FStr.Printf1
                            (FStr.TEXT "{'success':true,'result':'Level loaded: ")
                            LevelPath (FStr.TEXT "'}"))) e
              end
        end
    end
    (ExceptionText "LoadLevel").

Definition SetLevelVisibility : Body := fun Params =>
  try_catch
    match Params with
    | None => crash
    | Some P =>
        match Required P "level_name" with
        | None => ret (FStr.TEXT "{'success':false,'error':'level_name parameter is required'}")
        | Some LevelName =>
            let bVisible :=
              match TryGetBoolField P "visible" with Some b => b | None => true end in
            fun e =>
              match World e with
              | None => ret NoWorldText e
              | Some W =>
                  match SetFirstVisible LevelName bVisible (StreamingLevels W) with
                  | None =>
                      ret (FStr.Printf1
                             (FStr.TEXT "{'success':false,'error':'Failed to set visibility for level: ")
                             LevelName (FStr.TEXT "'}")) e
                  | Some levels =>
                      ret (FStr.TEXT "{'success':true,'result':'Set level "
                           ++ LevelName ++ " visibility to "
                           ++ (if bVisible then "visible" else "hidden")
                           ++ FStr.TEXT "'}")%string
                          (SetWorld {| StreamingLevels := levels |} e)
                  end
              end
        end
    end
    (ExceptionText "SetLevelVisibility").

Definition CreateStreamingLevel : Body := fun Params =>
  try_catch
    match Params with
    | None => crash
    | Some P =>
        match Required P "level_path" with
        | None => ret (FStr.TEXT "{'success':false,'error':'level_path parameter is required'}")
        | Some LevelPath =>
            fun e =>
              match World e with
              | None => ret NoWorldText e
              | Some W =>
                  match NewStreamingLevel E e with
                  | Threw what => (Threw what, e)
                  | Fatal => (Fatal, e)
                  | Returned None =>
                      ret (FStr.Printf1
                             (FStr.TEXT "{'success':false,'error':'Failed to create streaming level: ")
                             LevelPath (FStr.TEXT "'}")) e
                  | Returned (Some StreamingLevel) =>
                      let StreamingLevel :=
                        {| WorldAssetPackageName := PackageNameOf E LevelPath;
                           bShouldBeVisible := bShouldBeVisible StreamingLevel |} in
                      ret (FStr.Printf1
                             (FStr.TEXT "{'success':true,'result':'Created streaming level: ")
                             LevelPath (FStr.TEXT "'}"))
                          (SetWorld (AddStreamingLevel StreamingLevel W) e)
                  end
              end
        end
    end
    (ExceptionText "CreateStreamingLevel").

Definition LoadStreamingLevel : Body := fun Params =>
  try_catch
    match Params with
    | None => crash
    | Some P =>
        match Required P "level_name" with
        | None => ret (FStr.TEXT "{'success':false,'error':'level_name parameter is required'}")
        | Some LevelName =>
            fun e =>
              match LevelEditorSubsystem E e with
              | None => ret NoSubsystemText e
              | Some Subsystem =>
                  (bLoaded <- LoadLevel_ Subsystem LevelName ;;
                   if negb bLoaded then
                     ret (FStr.Printf1
                            (FStr.TEXT "{'success':false,'error':'Failed to load streaming level: ")
                            LevelName (FStr.TEXT "'}"))
                   else
                     ret (FStr.Printf1
                            (FStr.TEXT "{'success':true,'result':'Loaded streaming level: ")
                            LevelName (FStr.TEXT "'}"))) e
              end
        end
    end
    (ExceptionText "LoadStreamingLevel").

Definition UnloadStreamingLevel : Body := fun Params =>
  try_catch
    match Params with
    | None => crash
    | Some P =>
        match Required P "level_name" with
        | None => ret (FStr.TEXT "{'success':false,'error':'level_name parameter is required'}")
        | Some LevelName =>
            fun e =>
              match World e with
              | None => ret NoWorldText e
              | Some W =>
                  match RemoveLastLevel LevelName (StreamingLevels W) with
                  | None =>
                      ret (FStr.Printf1
                             (FStr.TEXT "{'success':false,'error':'Failed to unload streaming level: ")
                             LevelName (FStr.TEXT "'}")) e
                  | Some levels =>
                      ret (FStr.Printf1
                             (FStr.TEXT "{'success':true,'result':'Unloaded streaming level: ")
                             LevelName (FStr.TEXT "'}"))
                          (SetWorld {| StreamingLevels := levels |} e)
                  end
              end
        end
    end
    (ExceptionText "UnloadStreamingLevel").

(** The bodies above: the name of the function, the parameter it
    requires, the body. *)
Definition LevelBodies : list (string * string * Body) :=
  [("CreateLevel", "level_name", CreateLevel);
   ("LoadLevel", "level_path", LoadLevel);
   ("SetLevelVisibility", "level_name", SetLevelVisibility);
   ("CreateStreamingLevel", "level_path", CreateStreamingLevel);
   ("LoadStreamingLevel", "level_name", LoadStreamingLevel);
   ("UnloadStreamingLevel", "level_name", UnloadStreamingLevel)].

(** The level family as the router sees it while the editor is in state
    [e]. *)
Definition LevelEditorAt (e : FEditor) (Save : Operation)
  : FUnrealMCPLevelCommands.Editor :=
  {| FUnrealMCPLevelCommands.CreateLevel := fun Params => fst (CreateLevel Params e);
     FUnrealMCPLevelCommands.SaveLevel := Save;
     FUnrealMCPLevelCommands.LoadLevel := fun Params => fst (LoadLevel Params e);
     FUnrealMCPLevelCommands.SetLevelVisibility :=
       fun Params => fst (SetLevelVisibility Params e);
     FUnrealMCPLevelCommands.CreateStreamingLevel :=
       fun Params => fst (CreateStreamingLevel Params e);
     FUnrealMCPLevelCommands.LoadStreamingLevel :=
       fun Params => fst (LoadStreamingLevel Params e);
     FUnrealMCPLevelCommands.UnloadStreamingLevel :=
       fun Params => fst (UnloadStreamingLevel Params e) |}.

End Editor.

Arguments World {Elsewhere}.
Arguments Rest {Elsewhere}.
Arguments SetWorld {Elsewhere}.
Arguments NewLevel {Elsewhere}.
Arguments LoadLevel_ {Elsewhere}.
Arguments LevelEditorSubsystem {Elsewhere}.
Arguments NewStreamingLevel {Elsewhere}.
Arguments PackageNameOf {Elsewhere}.
Arguments PersistentLevelText {Elsewhere}.
Arguments CreateLevel {Elsewhere}.
Arguments LoadLevel {Elsewhere}.
Arguments SetLevelVisibility {Elsewhere}.
Arguments CreateStreamingLevel {Elsewhere}.
Arguments LoadStreamingLevel {Elsewhere}.
Arguments UnloadStreamingLevel {Elsewhere}.
Arguments LevelBodies {Elsewhere}.
Arguments LevelEditorAt {Elsewhere}.

(** An engine whose level editor subsystem is there, loads the levels
    under /Game and makes streaming levels that report the path they were
    given. *)
Definition SampleSubsystem : ULevelEditorSubsystem unit :=
  {| NewLevel := fun path e => (Returned true, e);
     LoadLevel_ := fun path e => (Returned (StartsWith path "/Game/"), e) |}.

Definition SampleEngine : Engine unit :=
  {| LevelEditorSubsystem := fun _ => Some SampleSubsystem;
     NewStreamingLevel := fun _ =>
       Returned (Some {| WorldAssetPackageName := EmptyString;
                         bShouldBeVisible := false |});
     PackageNameOf := fun path => path;
     PersistentLevelText := fun _ => FStr.TEXT "{'name':'PersistentLevel'}" |}.

(** An editor whose world streams two levels. *)
Definition SampleWorld : UWorld :=
  {| StreamingLevels :=
       [Some {| WorldAssetPackageName := "/Game/Cave"; bShouldBeVisible := false |};
        None;
        Some {| WorldAssetPackageName := "/Game/Town"; bShouldBeVisible := true |}] |}.

Definition SampleLevelEditor : FEditor unit :=
  {| World := Some SampleWorld; Rest := tt |}.

End LevelOperations.

(* ------------------------------------------------------------------ *)
(** ** The bridge over the bodies *)

Module Served.
Import Json Families Bridge.

(** Handlers whose asset family is [A]. *)
Definition WithAssetEditor (A : FUnrealMCPAssetCommands.Editor) (H : Handlers)
  : Handlers :=
  {| EditorCommands := EditorCommands H;
     BlueprintCommands := BlueprintCommands H;
     BlueprintNodeCommands := BlueprintNodeCommands H;
     ProjectCommands := ProjectCommands H;
     UMGCommands := UMGCommands H;
     StaticFamilies :=
       {| AssetEditor := A;
          ContentBrowserEditor := ContentBrowserEditor (StaticFamilies H);
          AssetRegistryEditor := AssetRegistryEditor (StaticFamilies H);
          LevelEditor := LevelEditor (StaticFamilies H);
          LandscapeEditor := LandscapeEditor (StaticFamilies H);
          WorldEditor := WorldEditor (StaticFamilies H) |} |}.

(** The sample handlers over an editor that holds the asset /Game/Cube. *)
Definition CubeHandlers : Handlers :=
  WithAssetEditor
    (AssetOperations.AssetEditorAt AssetOperations.ListLibrary ["/Game/Cube"]
       (fun _ => None) NoOperation)
    SampleHandlers.

(** The sample handlers over an asset registry family whose
    [GetAssetReferences], a body without a catch of its own, throws. *)
Definition ThrowingHandlers : Handlers :=
  {| EditorCommands := EditorCommands SampleHandlers;
     BlueprintCommands := BlueprintCommands SampleHandlers;
     BlueprintNodeCommands := BlueprintNodeCommands SampleHandlers;
     ProjectCommands := ProjectCommands SampleHandlers;
     UMGCommands := UMGCommands SampleHandlers;
     StaticFamilies :=
       {| AssetEditor := AssetEditor SampleEditors;
          ContentBrowserEditor := ContentBrowserEditor SampleEditors;
          AssetRegistryEditor :=
            {| FUnrealMCPAssetRegistryCommands.GetAssetReferences :=
                 fun _ => Threw "bad allocation";
               FUnrealMCPAssetRegistryCommands.GetAssetDependencies := NoOperation |};
          LevelEditor := LevelEditor SampleEditors;
          LandscapeEditor := LandscapeEditor SampleEditors;
          WorldEditor := WorldEditor SampleEditors |} |}.

End Served.

(* ------------------------------------------------------------------ *)
(** ** The text of a value *)

(** The bodies write their answers with [FString::Printf].  To say what such
    a text reads as, this module writes a value compactly, the way the format
    strings of the bodies do: booleans, strings as they stand, and objects of
    these. *)
Module JsonWrite.
Import Json Families.

Definition WriteString (s : string) (rest : list ascii) : list ascii :=
  FStr.DQ :: list_ascii_of_string s ++ FStr.DQ :: rest.

Section Members.
Variable WriteValue : JsonValue -> list ascii -> list ascii.

Fixpoint WriteMembers (fields : list (string * JsonValue)) (rest : list ascii)
  : list ascii :=
  match fields with
  | [] => rest
  | (k, v) :: more =>
      WriteString k
        (":"%char :: WriteValue v
                       match more with
                       | [] => rest
                       | _ => ","%char :: WriteMembers more rest
                       end)
  end.
End Members.

(** The text of [v] followed by [rest]; [depth] bounds the nesting of
    objects. *)
Fixpoint Write (depth : nat) (v : JsonValue) (rest : list ascii) : list ascii :=
  match v with
  | JBool true => "t"%char :: "r"%char :: "u"%char :: "e"%char :: rest
  | JBool false => "f"%char :: "a"%char :: "l"%char :: "s"%char :: "e"%char :: rest
  | JString s => WriteString s rest
  | JObject fields =>
      match depth with
      | O => rest
      | S d =>
          "{"%char :: match fields with
                      | [] => "}"%char :: rest
                      | _ => WriteMembers (Write d) fields ("}"%char :: rest)
                      end
      end
  | _ => rest
  end.

(** No two keys of the object are equal as [FString]s. *)
Fixpoint DistinctKeys (fields : list (string * JsonValue)) : bool :=
  match fields with
  | [] => true
  | (k, _) :: more =>
      forallb (fun kv => negb (FStr.Equals k (fst kv))) more && DistinctKeys more
  end.

(** The values [Write] is meant for: keys and strings are plain, keys are
    distinct, objects nest no deeper than [depth]. *)
Fixpoint Writable (depth : nat) (v : JsonValue) : bool :=
  match v with
  | JBool _ => true
  | JString s => Plain s
  | JObject fields =>
      match depth with
      | O => false
      | S d =>
          forallb (fun kv => Plain (fst kv) && Writable d (snd kv)) fields
          && DistinctKeys fields
      end
  | _ => false
  end.

(** What may follow a value in a text: nothing, or a character that does
    not continue a word. *)
Definition Ends (rest : list ascii) : bool :=
  match rest with
  | [] => true
  | c :: _ => negb (JsonText.IsAlnum c)
  end.

End JsonWrite.

(* ------------------------------------------------------------------ *)
(** * Properties *)

Import Json Families Bridge.

(** ** Strings and objects *)

Section StringFacts.
Import FStr.

Lemma Equals_refl : forall a, Equals a a = true.
Proof.
  induction a as [|c a IH]; simpl; [reflexivity|].
  now rewrite Ascii.eqb_refl, IH.
Qed.

Lemma Equals_sym : forall a b, Equals a b = Equals b a.
Proof.
  induction a as [|x a IH]; destruct b as [|y b]; simpl; try reflexivity.
  now rewrite IH, Ascii.eqb_sym.
Qed.

Lemma Equals_trans : forall a b c,
    Equals a b = true -> Equals b c = true -> Equals a c = true.
Proof.
  induction a as [|x a IH]; destruct b as [|y b]; destruct c as [|z c];
    simpl; try congruence.
  intros H1 H2.
  apply andb_true_iff in H1 as [Hxy Hab].
  apply andb_true_iff in H2 as [Hyz Hbc].
  apply Ascii.eqb_eq in Hxy. apply Ascii.eqb_eq in Hyz.
  rewrite Hxy, Hyz, Ascii.eqb_refl. simpl. eauto.
Qed.

End StringFacts.

Section ObjectFacts.

Lemma Find_SetField_same : forall o k v, Find (SetField o k v) k = Some v.
Proof.
  induction o as [|[k' w] r IH]; intros k v; simpl.
  - now rewrite Equals_refl.
  - destruct (FStr.Equals k' k) eqn:E; simpl.
    + now rewrite Equals_refl.
    + rewrite E. apply IH.
Qed.

Lemma Find_SetField_other : forall o k k' v,
    FStr.Equals k k' = false -> Find (SetField o k v) k' = Find o k'.
Proof.
  induction o as [|[k0 w] r IH]; intros k k' v Hne; simpl.
  - now rewrite Hne.
  - destruct (FStr.Equals k0 k) eqn:E; simpl.
    + rewrite Hne.
      destruct (FStr.Equals k0 k') eqn:E'; [|reflexivity].
      rewrite Equals_sym in E.
      now rewrite (Equals_trans _ _ _ E E') in Hne.
    + destruct (FStr.Equals k0 k'); [reflexivity|]. now apply IH.
Qed.

End ObjectFacts.

(** ** One call on a quiet graph *)

Section OneCall.
Variable H : Handlers.

Lemma SameThread_refl : forall t, SameThread t t = true.
Proof. destruct t; simpl; [reflexivity | apply Nat.eqb_refl]. Qed.

Lemma AwaitPromise_ready : forall fuel caller id g Response,
    PromiseValue (Fulfilled g) id = Some Response ->
    AwaitPromise fuel H caller id g = (Returns Response, LeaveGet caller g).
Proof. intros [|fuel] caller id g Response E; simpl; now rewrite E. Qed.

Lemma AwaitPromise_down : forall fuel caller id g,
    PromiseValue (Fulfilled g) id = None -> ProcessAlive g = false ->
    AwaitPromise fuel H caller id g = (ProcessDown, g).
Proof. intros [|fuel] caller id g E A; simpl; now rewrite E, A. Qed.

(** A thread other than the game thread, calling on a quiet graph, gets the
    response of its own task after one turn of the game thread. *)
Lemma ExecuteCommand_quiet : forall fuel caller CommandType Params g,
    Quiet g -> IsGameThread caller = false ->
    ExecuteCommand (S fuel) H caller CommandType Params g =
    match GameThreadTask H CommandType Params with
    | Responded ResponseJson => (Returns ResponseJson, AfterServing ResponseJson g)
    | Crashed => (ProcessDown, AfterCrash caller g)
    end.
Proof.
  intros fuel caller c p [q f n bl al su ex] (Hq & Hb & Ha & Hf) Hc.
  simpl in *. subst q bl al.
  unfold ExecuteCommand, MakePromise, AsyncTask, FutureGet, EnterGet. simpl.
  rewrite (Hf n (le_n n)). unfold GameThreadTurn. simpl. rewrite Hc. simpl.
  destruct (GameThreadTask H c p) as [R|].
  - rewrite (AwaitPromise_ready _ _ _ _ R) by (simpl; now rewrite Nat.eqb_refl).
    unfold LeaveGet, AfterServing. simpl. now rewrite SameThread_refl.
  - rewrite AwaitPromise_down; [reflexivity | simpl; apply Hf; lia | reflexivity].
Qed.

Lemma InitialGraph_Quiet : Quiet InitialGraph.
Proof. repeat split. Defined.

(** Serving a call leaves the graph quiet: the next call finds the game
    thread at work as before. *)
Lemma AfterServing_Quiet : forall Response g,
    Quiet g -> Quiet (AfterServing Response g).
Proof.
  intros R g (Hq & Hb & Ha & Hf). repeat split.
  simpl. intros id Hid.
  destruct (Nat.eqb (PromisesMade g) id) eqn:E.
  - apply Nat.eqb_eq in E. lia.
  - apply Hf. lia.
Qed.

(** The game thread takes no turn while it is in [Future.Get()]. *)
Lemma GameThreadTurn_blocked : forall g,
    existsb IsGameThread (BlockedInGet g) = true -> GameThreadTurn H g = g.
Proof.
  intros g E. unfold GameThreadTurn. rewrite E.
  now rewrite orb_true_r.
Qed.

Lemma AwaitPromise_game_thread : forall fuel id g,
    PromiseValue (Fulfilled g) id = None -> ProcessAlive g = true ->
    existsb IsGameThread (BlockedInGet g) = true ->
    AwaitPromise fuel H GameThread id g = (StillInFutureGet, g).
Proof.
  induction fuel as [|fuel IH]; intros id g E A B; simpl; rewrite E, A; simpl.
  - reflexivity.
  - rewrite GameThreadTurn_blocked by assumption. now apply IH.
Qed.

(** A call made on the game thread itself: the task is queued, the thread
    waits, and no number of turns ends the wait. *)
Lemma ExecuteCommand_on_game_thread : forall fuel CommandType Params g,
    ProcessAlive g = true ->
    PromiseValue (Fulfilled g) (PromisesMade g) = None ->
    ExecuteCommand fuel H GameThread CommandType Params g =
    (StillInFutureGet, StuckGraph CommandType Params g).
Proof.
  intros fuel c p g A F.
  unfold ExecuteCommand, MakePromise, AsyncTask, FutureGet, EnterGet. simpl.
  now rewrite AwaitPromise_game_thread.
Qed.

End OneCall.

(** ** The response the lambda builds *)

Section ResponseFacts.

Lemma Respond_cases : forall ResultJson,
    Respond ResultJson =
    match Find ResultJson "success" with
    | None => [("status", JString "success"); ("result", JObject ResultJson)]
    | Some v =>
        if AsBool v
        then [("status", JString "success"); ("result", JObject ResultJson)]
        else [("status", JString "error");
              ("error", JString (GetStringField ResultJson "error"))]
    end.
Proof.
  intros R. unfold Respond, HasField, GetBoolField.
  destruct (Find R "success") as [v|]; [|reflexivity].
  destruct (AsBool v); simpl; [reflexivity|].
  unfold GetStringField.
  destruct (Find R "error"); reflexivity.
Qed.

Lemma Respond_WireContract : forall ResultJson, WireContract (Respond ResultJson).
Proof.
  intros R. rewrite Respond_cases. unfold WireContract, HasField.
  destruct (Find R "success") as [v|]; [destruct (AsBool v)|]; simpl;
    repeat split; auto; intros; try discriminate; try reflexivity;
    try (left; reflexivity); try (right; reflexivity).
Qed.

Lemma UnknownResponse_WireContract : forall c, WireContract (UnknownResponse c).
Proof.
  intros c. unfold WireContract, HasField. simpl.
  repeat split; auto; intros; try discriminate; reflexivity.
Qed.

Lemma ExceptionResponse_WireContract : forall w, WireContract (ExceptionResponse w).
Proof.
  intros c. unfold WireContract, HasField. simpl.
  repeat split; auto; intros; try discriminate; reflexivity.
Qed.

Lemma GameThreadTask_WireContract : forall H c p Envelope,
    GameThreadTask H c p = Responded Envelope -> WireContract Envelope.
Proof.
  intros H c p E. unfold GameThreadTask.
  destruct (Route H c p) as [|[R|]|w|]; intros Eq; inversion Eq; subst.
  - apply UnknownResponse_WireContract.
  - apply Respond_WireContract.
  - apply ExceptionResponse_WireContract.
Qed.

End ResponseFacts.

(** ** Dispatch *)


Lemma Route_HandlerThrows : forall H CommandType Params what,
    HandlerThrows H CommandType Params what ->
    Route H CommandType Params = Exception what.
Proof.
  intros H c p w. unfold HandlerThrows, HandlerCall, Route.
  destruct (Lookup c) as [[| | | | | |F]|]; try contradiction;
    intros ->; reflexivity.
Qed.




(** C9.  The request text of the scenario names the command [ping] with an
    empty parameter object; [ExecuteCommand] answers [ping], whatever the
    parameters, with the envelope that the response text of the scenario
    denotes: status success and the result object with message pong. *)
Theorem ping_answers_pong :
  forall H fuel caller Params g,
    Quiet g -> IsGameThread caller = false ->
    let Request := FStr.TEXT "{'type':'ping','params':{}}" in
    let Response := FStr.TEXT "{'status':'success','result':{'message':'pong'}}" in
    exists Envelope,
      JsonText.Deserialize Request = Some [("type", JString "ping"); ("params", JObject [])]
      /\ ExecuteCommand (S fuel) H caller "ping" Params g
         = (Returns Envelope, AfterServing Envelope g)
      /\ Envelope = [("status", JString "success");
                     ("result", JObject [("message", JString "pong")])]
      /\ JsonText.Deserialize Response = Some Envelope.
Proof.
  intros H fuel caller p g Hq Hc Request Response.
  exists [("status", JString "success"); ("result", JObject [("message", JString "pong")])].
  split; [vm_compute; reflexivity|].
  split; [|split; [reflexivity | vm_compute; reflexivity]].
  rewrite ExecuteCommand_quiet by assumption. reflexivity.
Qed.

Lemma ping_answers_pong_witness :
  fst (ExecuteCommand 1 SampleHandlers (OtherThread 0) "ping" (Some []) InitialGraph)
  = Returns [("status", JString "success");
             ("result", JObject [("message", JString "pong")])].
Proof.
  destruct (ping_answers_pong SampleHandlers 0 (OtherThread 0) (Some []) InitialGraph
              InitialGraph_Quiet eq_refl) as (E & _ & Hrun & HE & _).
  rewrite Hrun. simpl. rewrite HE. reflexivity.
Defined.

(** C6.  Whatever [ExecuteCommand] returns, on the unknown-command path, the
    normal path and the caught-exception path alike, is an envelope whose
    status is success or error, with a [result] field exactly when the status
    is success and an [error] field exactly when it is error. *)
Theorem returned_envelope_meets_wire_contract :
  forall H fuel caller CommandType Params g Envelope g',
    Quiet g ->
    ExecuteCommand fuel H caller CommandType Params g = (Returns Envelope, g') ->
    WireContract Envelope.
Proof.
  intros H fuel caller c p g E g' Hq Hrun.
  destruct caller as [|n].
  - destruct Hq as (_ & _ & Ha & Hf).
    rewrite ExecuteCommand_on_game_thread in Hrun; auto. discriminate.
  - destruct fuel as [|fuel].
    + destruct Hq as (Hqq & Hb & Ha & Hf).
      unfold ExecuteCommand, MakePromise, AsyncTask, FutureGet, EnterGet in Hrun.
      simpl in Hrun. rewrite (Hf _ (le_n _)), Ha in Hrun. discriminate.
    + rewrite ExecuteCommand_quiet in Hrun by auto.
      destruct (GameThreadTask H c p) as [R|] eqn:T; inversion Hrun; subst.
      eapply GameThreadTask_WireContract; eauto.
Qed.

Lemma returned_envelope_meets_wire_contract_witness :
  WireContract [("status", JString "error");
                ("error", JString "Unknown command: does_not_exist")].
Proof.
  apply (returned_envelope_meets_wire_contract
           SampleHandlers 1 (OtherThread 0) "does_not_exist" (Some []) InitialGraph
           _ (AfterServing (UnknownResponse "does_not_exist") InitialGraph)
           InitialGraph_Quiet).
  reflexivity.
Defined.

(** C4.  A command whose handler throws (an exception derived from
    [std::exception], with text [what]), be it one of the handler objects
    or a static family: the lambda catches it on the game thread, the caller
    gets the envelope with status error and [what] as its error, and the
    game thread is left alive and ready for the next task. *)
Theorem handler_exception_becomes_error_envelope :
  forall H fuel caller CommandType Params g what,
    Quiet g -> IsGameThread caller = false ->
    HandlerThrows H CommandType Params what ->
    let Envelope := [("status", JString "error"); ("error", JString what)] in
    ExecuteCommand (S fuel) H caller CommandType Params g
    = (Returns Envelope, AfterServing Envelope g)
    /\ ProcessAlive (AfterServing Envelope g) = true
    /\ Quiet (AfterServing Envelope g).
Proof.
  intros H fuel caller c p g w Hq Hc HT Envelope.
  pose proof (Route_HandlerThrows H c p w HT) as HR.
  rewrite ExecuteCommand_quiet by assumption.
  unfold GameThreadTask. rewrite HR.
  split; [reflexivity|]. split; [reflexivity|].
  now apply AfterServing_Quiet.
Qed.

Lemma handler_exception_becomes_error_envelope_witness :
  fst (ExecuteCommand 1 SampleHandlers (OtherThread 0) "take_screenshot" None InitialGraph)
  = Returns [("status", JString "error"); ("error", JString "bad allocation")]
  /\ fst (ExecuteCommand 1 Served.ThrowingHandlers (OtherThread 0) "get_asset_references" None
            InitialGraph)
     = Returns [("status", JString "error"); ("error", JString "bad allocation")].
Proof.
  split.
  - destruct (handler_exception_becomes_error_envelope
                SampleHandlers 0 (OtherThread 0) "take_screenshot" None InitialGraph
                "bad allocation" InitialGraph_Quiet eq_refl eq_refl) as (Hrun & _).
    rewrite Hrun. reflexivity.
  - destruct (handler_exception_becomes_error_envelope
                Served.ThrowingHandlers 0 (OtherThread 0) "get_asset_references" None InitialGraph
                "bad allocation" InitialGraph_Quiet eq_refl eq_refl) as (Hrun & _).
    rewrite Hrun. reflexivity.
Defined.

(** C5, as stated, fails: the envelope for a loaded asset carries the
    handler's own [success] and [result] fields under its [result]. *)
Lemma load_asset_envelope_nests_status :
  fst (ExecuteCommand 1 SampleHandlers (OtherThread 0) "load_asset"
         (Some [("asset_path", JString "/Game/Cube")]) InitialGraph)
  = Returns
      [("status", JString "success");
       ("result",
        JObject [("success", JBool true);
                 ("result",
                  JObject [("asset_path", JString "/Game/Cube");
                           ("loaded", JBool true);
                           ("class", JString "StaticMesh")])])].
Proof. vm_compute. reflexivity. Qed.

(** C5, amended.  A handler result with a [success] field of its own: when
    the field reads false, the envelope is exactly status error plus the
    handler's [error] field as a string (empty when there is none), with no
    [result] and nothing of the handler's object nested; when it reads true,
    the whole object of the handler, its [success] field included, is the
    [result] of a success envelope. *)
Theorem nested_status_is_flattened_on_failure_only :
  forall H fuel caller CommandType Params g ResultJson v,
    Quiet g -> IsGameThread caller = false ->
    Route H CommandType Params = Result (Some ResultJson) ->
    Find ResultJson "success" = Some v ->
    (AsBool v = false ->
     ExecuteCommand (S fuel) H caller CommandType Params g
     = (Returns [("status", JString "error");
                 ("error", JString (GetStringField ResultJson "error"))],
        AfterServing [("status", JString "error");
                      ("error", JString (GetStringField ResultJson "error"))] g)
     /\ (forall m, Find ResultJson "error" = Some (JString m) ->
                   GetStringField ResultJson "error" = m)
     /\ (Find ResultJson "error" = None ->
         GetStringField ResultJson "error" = EmptyString))
    /\ (AsBool v = true ->
        ExecuteCommand (S fuel) H caller CommandType Params g
        = (Returns [("status", JString "success"); ("result", JObject ResultJson)],
           AfterServing [("status", JString "success");
                         ("result", JObject ResultJson)] g)).
Proof.
  intros H fuel caller c p g R v Hq Hc HR Hv.
  rewrite ExecuteCommand_quiet by assumption.
  unfold GameThreadTask. rewrite HR, Respond_cases, Hv.
  split; intros B; rewrite B.
  - split; [reflexivity|]. unfold GetStringField.
    split; [intros m Hm | intros Hm]; now rewrite Hm.
  - reflexivity.
Qed.

Lemma nested_status_is_flattened_on_failure_only_witness :
  fst (ExecuteCommand 1 SampleHandlers (OtherThread 0) "delete_actor" None InitialGraph)
  = Returns [("status", JString "error"); ("error", JString "Actor not found")].
Proof.
  destruct (nested_status_is_flattened_on_failure_only
              SampleHandlers 0 (OtherThread 0) "delete_actor" None InitialGraph
              [("success", JBool false); ("error", JString "Actor not found")]
              (JBool false) InitialGraph_Quiet eq_refl eq_refl eq_refl)
    as (Hfail & _).
  destruct (Hfail eq_refl) as (Hrun & _ & _).
  rewrite Hrun. reflexivity.
Defined.

(** C2, as stated, fails: the call for a name the chain does not know has
    queued a task for the game thread, and the game thread has run it. *)
Lemma unknown_command_is_submitted :
  Lookup "does_not_exist" = None
  /\ Submitted InitialGraph = 0
  /\ Submitted (snd (ExecuteCommand 1 SampleHandlers (OtherThread 0) "does_not_exist"
                       (Some []) InitialGraph)) = 1
  /\ Executed (snd (ExecuteCommand 1 SampleHandlers (OtherThread 0) "does_not_exist"
                      (Some []) InitialGraph)) = 1.
Proof. vm_compute. repeat split. Qed.

(** C2, amended.  For a name that no condition of the chain matches,
    [ExecuteCommand] returns the envelope with status error and the error
    text Unknown command followed by the name, and calls no handler; the name
    is looked up inside the task, so the call does queue one task on the game
    thread and waits for the game thread to run it. *)
Theorem unknown_command_is_answered_on_the_game_thread :
  forall H fuel caller CommandType Params g,
    Quiet g -> IsGameThread caller = false ->
    Lookup CommandType = None ->
    let Envelope := [("status", JString "error");
                     ("error", JString ("Unknown command: " ++ CommandType))] in
    ExecuteCommand (S fuel) H caller CommandType Params g
    = (Returns Envelope, AfterServing Envelope g)
    /\ Route H CommandType Params = UnknownCommand
    /\ Submitted (AfterServing Envelope g) = S (Submitted g)
    /\ Executed (AfterServing Envelope g) = S (Executed g)
    /\ ExecuteCommand 0 H caller CommandType Params g
       = (StillInFutureGet,
          EnterGet caller
            (AsyncTask {| TaskCommandType := CommandType; TaskParams := Params;
                          TaskPromise := PromisesMade g |}
                       (snd (MakePromise g)))).
Proof.
  intros H fuel caller c p g Hq Hc HL Envelope.
  assert (HR : Route H c p = UnknownCommand) by (unfold Route; now rewrite HL).
  rewrite ExecuteCommand_quiet by assumption.
  unfold GameThreadTask. rewrite HR.
  unfold UnknownResponse, FStr.Printf1. simpl.
  assert (Hs : forall s : string, (s ++ EmptyString)%string = s)
    by (induction s as [|a s IH]; simpl; [reflexivity | now rewrite IH]).
  rewrite Hs.
  repeat split.
  destruct Hq as (_ & _ & Ha & Hf).
  unfold ExecuteCommand, MakePromise, AsyncTask, FutureGet, EnterGet. simpl.
  now rewrite (Hf _ (le_n _)), Ha.
Qed.

Lemma unknown_command_is_answered_on_the_game_thread_witness :
  fst (ExecuteCommand 1 SampleHandlers (OtherThread 0) "does_not_exist" (Some [])
         InitialGraph)
  = Returns [("status", JString "error");
             ("error", JString "Unknown command: does_not_exist")].
Proof.
  destruct (unknown_command_is_answered_on_the_game_thread
              SampleHandlers 0 (OtherThread 0) "does_not_exist" (Some []) InitialGraph
              InitialGraph_Quiet eq_refl eq_refl) as (Hrun & _).
  rewrite Hrun. reflexivity.
Defined.

(** C3, as stated, fails: a call made on the game thread is not turned
    away; it has queued its task and sits in [Future.Get()], and a thousand
    turns later it still does. *)
Lemma game_thread_call_enters_the_wait :
  ExecuteCommand 1000 SampleHandlers GameThread "ping" (Some []) InitialGraph
  = (StillInFutureGet,
     {| GameThreadQueue := [{| TaskCommandType := "ping"; TaskParams := Some [];
                               TaskPromise := 0 |}];
        Fulfilled := []; PromisesMade := 1; BlockedInGet := [GameThread];
        ProcessAlive := true; Submitted := 1; Executed := 0 |}).
Proof. vm_compute. reflexivity. Qed.

(** C3, amended.  [ExecuteCommand] does not look at the thread it is called
    on.  Called on the game thread it does what it does on any thread, queue
    the task and wait on the future; as the game thread cannot run its queue
    while it waits, the wait does not end, however many turns are allowed,
    and the task stays queued and unrun. *)
Theorem game_thread_call_blocks_forever :
  forall H fuel CommandType Params g,
    ProcessAlive g = true ->
    PromiseValue (Fulfilled g) (PromisesMade g) = None ->
    ExecuteCommand fuel H GameThread CommandType Params g
    = (StillInFutureGet, StuckGraph CommandType Params g)
    /\ Submitted (StuckGraph CommandType Params g) = S (Submitted g)
    /\ Executed (StuckGraph CommandType Params g) = Executed g
    /\ In GameThread (BlockedInGet (StuckGraph CommandType Params g)).
Proof.
  intros H fuel c p g Ha Hf.
  rewrite ExecuteCommand_on_game_thread by assumption.
  repeat split. simpl. now left.
Qed.

Lemma game_thread_call_blocks_forever_witness :
  fst (ExecuteCommand 7 SampleHandlers GameThread "ping" (Some []) InitialGraph)
  = StillInFutureGet.
Proof.
  destruct (game_thread_call_blocks_forever
              SampleHandlers 7 "ping" (Some []) InitialGraph eq_refl eq_refl)
    as (Hrun & _).
  rewrite Hrun. reflexivity.
Defined.

(** ** Starting and stopping *)

Import Lifecycle.

(** Reading a member through the setters. *)
Ltac members :=
  cbn [bIsRunning ListenerSocket ConnectionSocket ServerThread Port ServerAddress
       OpenSockets RunningThreads BindCalls LogTemp
       set_bIsRunning set_ListenerSocket set_ConnectionSocket set_ServerThread
       set_OpenSockets set_RunningThreads set_Port set_ServerAddress count_Bind
       UE_LOG DestroySocket KillAndDelete negb].

Section LifecycleFacts.

Lemma remove_first_head : forall x l, remove_first x (x :: l) = l.
Proof. intros x l. simpl. now rewrite Nat.eqb_refl. Qed.

Lemma StopServer_when_stopped : forall b, bIsRunning b = false -> StopServer b = b.
Proof. intros b E. unfold StopServer. now rewrite E. Qed.

Lemma StopServer_stops : forall b, bIsRunning (StopServer b) = false.
Proof.
  intros b. unfold StopServer.
  destruct (bIsRunning b) eqn:E; simpl; [|exact E].
  destruct (ServerThread b); simpl;
    destruct (ConnectionSocket b); simpl;
    destruct (ListenerSocket b); reflexivity.
Qed.

Lemma StopServer_idempotent : forall b, StopServer (StopServer b) = StopServer b.
Proof. intros b. apply StopServer_when_stopped, StopServer_stops. Qed.

Lemma StopServer_clears_members : forall b,
    bIsRunning b = true ->
    ServerThread (StopServer b) = None
    /\ ConnectionSocket (StopServer b) = None
    /\ ListenerSocket (StopServer b) = None.
Proof.
  intros [run ls cs st po ad os rt bc lg]. simpl. intros ->.
  unfold StopServer. simpl.
  destruct st, cs, ls; simpl; repeat split.
Qed.

Lemma Accounted_UE_LOG : forall v msg b, Accounted b -> Accounted (UE_LOG v msg b).
Proof. intros v msg b A. exact A. Qed.

Lemma Accounted_StopServer : forall b, Accounted b -> Accounted (StopServer b).
Proof.
  intros [run ls cs st po ad os rt bc lg]. unfold Accounted, StopServer. simpl.
  destruct run; simpl; [|tauto].
  intros (Hos & Hrt). subst os rt.
  destruct st as [t|]; destruct cs as [c|]; destruct ls as [l|];
    unfold HoldsNothing; simpl; rewrite ?Nat.eqb_refl; simpl;
    rewrite ?Nat.eqb_refl; repeat split.
Qed.

Lemma Accounted_StartServer : forall P b, Accounted b -> Accounted (StartServer P b).
Proof.
  intros [ss cr bi li ct] [run ls cs st po ad os rt bc lg].
  unfold Accounted, StartServer. simpl.
  destruct run; simpl; [tauto|].
  intros (Hst & Hcs & Hls & Hos & Hrt). simpl in *. subst st cs ls os rt.
  destruct ss; [|repeat split].
  destruct cr as [s|]; [|repeat split].
  destruct bi; [|unfold HoldsNothing; simpl; rewrite ?Nat.eqb_refl; repeat split].
  destruct li; [|unfold HoldsNothing; simpl; rewrite ?Nat.eqb_refl; repeat split].
  destruct ct as [t|]; simpl; [repeat split|].
  unfold StopServer, HoldsNothing. simpl. rewrite ?Nat.eqb_refl. repeat split.
Qed.

Lemma Accounted_set_Port : forall v b, Accounted b -> Accounted (set_Port v b).
Proof. intros v b A. exact A. Qed.

Lemma Accounted_ParseInto : forall D text b, Accounted b -> Accounted (ParseInto D text b).
Proof.
  intros D text b A. unfold ParseInto.
  destruct (FIPv4Address_Parse D text); exact A.
Qed.

Lemma Accounted_Initialize : forall D C P b,
    NewObject b -> Accounted (Initialize D C P b).
Proof.
  intros D [bind port] P b [Hos Hrt]. unfold Initialize. cbv zeta.
  apply Accounted_StartServer, Accounted_UE_LOG, Accounted_ParseInto, Accounted_set_Port.
  assert (A : Accounted
                (ParseInto D MCP_SERVER_HOST
                   (set_Port (PortOfInt32 D MCP_SERVER_PORT)
                      (set_ServerThread None
                         (set_ConnectionSocket None
                            (set_ListenerSocket None
                               (set_bIsRunning false
                                  (UE_LOG Display "UnrealMCPBridge: Initializing" b)))))))).
  { apply Accounted_ParseInto, Accounted_set_Port.
    unfold Accounted, HoldsNothing. members. auto. }
  cbn [UnrealMCPBind UnrealMCPPort].
  destruct bind, port; repeat apply Accounted_UE_LOG; exact A.
Qed.

Lemma Reachable_Accounted : forall b, Reachable b -> Accounted b.
Proof.
  induction 1 as [D C P b N | P b _ IH | b _ IH | b _ IH].
  - now apply Accounted_Initialize.
  - now apply Accounted_StartServer.
  - now apply Accounted_StopServer.
  - unfold Deinitialize. now apply Accounted_StopServer, Accounted_UE_LOG.
Qed.

Lemma Accounted_stopped_HoldsNothing : forall b,
    Accounted b -> bIsRunning b = false -> HoldsNothing b.
Proof. intros b A E. unfold Accounted in A. now rewrite E in A. Qed.

End LifecycleFacts.

(** C7.  [StopServer] can be called twice in a row: the second call changes
    nothing.  On a bridge that is not running, one that never started
    included, it does nothing at all.  On a running bridge it clears the
    thread and both socket members, whatever they held, and when the open
    sockets and running threads are those members (a connection socket
    included) none is left open or running.  Every bridge the code can have
    produced is of that kind, so after [StopServer] has returned the bridge
    is stopped and holds no thread, no connection socket and no listening
    socket; a start followed by a stop leaves nothing behind, however often
    it is repeated. *)
Theorem StopServer_is_idempotent_and_releases_everything :
  (forall b, StopServer (StopServer b) = StopServer b)
  /\ (forall b, bIsRunning b = false -> StopServer b = b)
  /\ (forall D C P b, bIsRunning (Initialize D C P b) = false ->
                      StopServer (Initialize D C P b) = Initialize D C P b)
  /\ (forall b, bIsRunning b = true ->
                ServerThread (StopServer b) = None
                /\ ConnectionSocket (StopServer b) = None
                /\ ListenerSocket (StopServer b) = None)
  /\ (forall b, Accounted b -> HoldsNothing (StopServer b))
  /\ (forall b, Reachable b ->
                Accounted b
                /\ bIsRunning (StopServer b) = false /\ HoldsNothing (StopServer b))
  /\ (forall b P, Reachable b ->
                  HoldsNothing (StopServer (StartServer P b))
                  /\ HoldsNothing (StopServer (StopServer (StartServer P b)))).
Proof.
  assert (Hacc : forall b, Accounted b -> HoldsNothing (StopServer b)).
  { intros b A.
    apply Accounted_stopped_HoldsNothing; [|apply StopServer_stops].
    now apply Accounted_StopServer. }
  assert (Hrel : forall b, Reachable b ->
                           Accounted b
                           /\ bIsRunning (StopServer b) = false
                           /\ HoldsNothing (StopServer b)).
  { intros b R. pose proof (Reachable_Accounted b R) as A.
    split; [exact A|]. split; [apply StopServer_stops | now apply Hacc]. }
  split; [exact StopServer_idempotent|].
  split; [exact StopServer_when_stopped|].
  split; [intros D C P b; apply StopServer_when_stopped|].
  split; [exact StopServer_clears_members|].
  split; [exact Hacc|].
  split; [exact Hrel|].
  intros b P R. rewrite StopServer_idempotent.
  split; apply Hrel; now constructor.
Qed.

Lemma StopServer_is_idempotent_and_releases_everything_witness :
  StopServer (Initialize SampleDeclarations NoOverrides PortTakenPlatform NewBridge)
  = Initialize SampleDeclarations NoOverrides PortTakenPlatform NewBridge
  /\ HoldsNothing (StopServer
    (Initialize SampleDeclarations NoOverrides WorkingPlatform
       NewBridge))
  /\ HoldsNothing
       (StopServer (StartServer WorkingPlatform
                      (StopServer
                        (Initialize SampleDeclarations NoOverrides WorkingPlatform
                           NewBridge)))).
Proof.
  destruct StopServer_is_idempotent_and_releases_everything
    as (_ & _ & Hnever & _ & _ & Hrel & Hcycle).
  split; [apply Hnever; reflexivity|].
  split; [apply Hrel; apply reach_Initialize; split; reflexivity|].
  apply Hcycle. apply reach_StopServer, reach_Initialize. split; reflexivity.
Defined.

Section StartFacts.

Lemma StartServer_gives_up_on_bind_or_listen : forall P b NewListenerSocket,
    bIsRunning b = false ->
    SocketSubsystem P = true ->
    CreateSocket P = Some NewListenerSocket ->
    Bind P = false \/ Listen P = false ->
    StartServer P b
    = DestroySocket NewListenerSocket
        (UE_LOG Error
           (if Bind P then "UnrealMCPBridge: Failed to start listening"
            else ("UnrealMCPBridge: Failed to bind listener socket to " ++ Endpoint b)%string)
           (count_Bind (set_OpenSockets (NewListenerSocket :: OpenSockets b) b))).
Proof.
  intros P b s Hb Hss Hcr Hfail. unfold StartServer.
  rewrite Hb, Hss, Hcr. members.
  destruct (Bind P); members; [|reflexivity].
  destruct Hfail as [Hf|Hf]; [discriminate|]. rewrite Hf. reflexivity.
Qed.

Lemma StartServer_runs_iff_all_succeeded : forall P b,
    bIsRunning b = false ->
    (bIsRunning (StartServer P b) = true
     <-> SocketSubsystem P = true /\ CreateSocket P <> None /\ Bind P = true
         /\ Listen P = true /\ CreateThread P <> None).
Proof.
  intros P b Hb. unfold StartServer. rewrite Hb.
  destruct (SocketSubsystem P); members;
    [|rewrite Hb; split; [discriminate | intros (? & _); discriminate]].
  destruct (CreateSocket P) as [s|]; members;
    [|rewrite Hb; split; [discriminate | intros (_ & ? & _); congruence]].
  destruct (Bind P); members;
    [|rewrite Hb; split; [discriminate | intros (_ & _ & ? & _); discriminate]].
  destruct (Listen P); members;
    [|rewrite Hb; split; [discriminate | intros (_ & _ & _ & ? & _); discriminate]].
  destruct (CreateThread P) as [t|]; members.
  - split; [intros _; repeat split; discriminate | reflexivity].
  - rewrite StopServer_stops.
    split; [discriminate | intros (_ & _ & _ & _ & ?); congruence].
Qed.

End StartFacts.

(** C8.  When [Bind] or [Listen] fails, [StartServer] gives up at once:
    [Bind] has been called once and is not called again, the failure is
    written to the log as an error, the new socket is closed again, no thread
    is made, and the bridge is as it was, not running.  The call returns like
    any other (the function returns nothing), so whoever called goes on; what
    the caller can read off the bridge is the running flag, which after a
    call on a stopped bridge is set exactly when every step succeeded. *)
Theorem StartServer_reports_bind_or_listen_failure :
  (forall P b NewListenerSocket,
      bIsRunning b = false ->
      SocketSubsystem P = true ->
      CreateSocket P = Some NewListenerSocket ->
      Bind P = false \/ Listen P = false ->
      bIsRunning (StartServer P b) = false
      /\ ListenerSocket (StartServer P b) = ListenerSocket b
      /\ ConnectionSocket (StartServer P b) = ConnectionSocket b
      /\ ServerThread (StartServer P b) = ServerThread b
      /\ OpenSockets (StartServer P b) = OpenSockets b
      /\ RunningThreads (StartServer P b) = RunningThreads b
      /\ BindCalls (StartServer P b) = S (BindCalls b)
      /\ exists msg,
          LogTemp (StartServer P b) = LogTemp b ++ [(Error, msg)]
          /\ (msg = ("UnrealMCPBridge: Failed to bind listener socket to " ++ Endpoint b)%string
              \/ msg = "UnrealMCPBridge: Failed to start listening"))
  /\ (forall P b,
         bIsRunning b = false ->
         (bIsRunning (StartServer P b) = true
          <-> SocketSubsystem P = true /\ CreateSocket P <> None /\ Bind P = true
              /\ Listen P = true /\ CreateThread P <> None)).
Proof.
  split; [|exact StartServer_runs_iff_all_succeeded].
  intros P b s Hb Hss Hcr Hfail.
  rewrite (StartServer_gives_up_on_bind_or_listen P b s Hb Hss Hcr Hfail).
  members. rewrite remove_first_head.
  repeat split; try assumption.
  eexists. split; [reflexivity|].
  destruct (Bind P); [right | left]; reflexivity.
Qed.

Lemma StartServer_reports_bind_or_listen_failure_witness :
  bIsRunning
    (Initialize SampleDeclarations NoOverrides PortTakenPlatform
       NewBridge) = false
  /\ LogTemp (Initialize SampleDeclarations NoOverrides PortTakenPlatform NewBridge)
     = [(Display, "UnrealMCPBridge: Initializing");
        (Display, "UnrealMCPBridge: Will bind to 0.0.0.0:55557");
        (Error, "UnrealMCPBridge: Failed to bind listener socket to 0.0.0.0:55557")]
  /\ BindCalls
    (Initialize SampleDeclarations NoOverrides PortTakenPlatform
       NewBridge) = 1.
Proof.
  destruct StartServer_reports_bind_or_listen_failure as (Hfail & _).
  destruct (Hfail PortTakenPlatform
              (UE_LOG Display "UnrealMCPBridge: Will bind to 0.0.0.0:55557"
                 {| bIsRunning := false; ListenerSocket := None; ConnectionSocket := None;
                    ServerThread := None; Port := MCP_SERVER_PORT;
                    ServerAddress := MCP_SERVER_HOST;
                    OpenSockets := []; RunningThreads := []; BindCalls := 0;
                    LogTemp := [(Display, "UnrealMCPBridge: Initializing")] |})
              3 eq_refl eq_refl eq_refl (or_introl eq_refl))
    as (Hrun & _ & _ & _ & _ & _ & Hbind & _).
  split; [exact Hrun|]. split; [reflexivity | exact Hbind].
Defined.

(** ** The routers of the static families *)

Section RouterFacts.

(** A name the family does not recognize falls through every test of its
    [HandleCommand] to the last [return]. *)
Lemma HandleCommand_unrecognized : forall F E CommandType Params,
    Recognizes F CommandType = false ->
    Families.HandleCommand F E CommandType Params = Returned (UnknownText F CommandType).
Proof.
  intros F E c p HR. unfold Recognizes in HR.
  destruct F; simpl in HR;
    repeat (apply orb_false_iff in HR; destruct HR as [?E HR]);
    unfold Families.HandleCommand, UnknownText,
      FUnrealMCPAssetCommands.HandleCommand,
      FUnrealMCPContentBrowserCommands.HandleCommand,
      FUnrealMCPAssetRegistryCommands.HandleCommand,
      FUnrealMCPLevelCommands.HandleCommand,
      FUnrealMCPLandscapeCommands.HandleCommand,
      FUnrealMCPWorldCommands.HandleCommand;
    repeat match goal with
           | Eq : FStr.Equals c _ = false |- _ => rewrite Eq; clear Eq
           end;
    reflexivity.
Qed.

(** The families whose last [return] is a fixed text answer with a JSON
    object that says success false and carries a message. *)
Lemma fixed_unknown_text_reads_as_error : forall F CommandType,
    F = LevelFamily \/ F = LandscapeFamily \/ F = WorldFamily ->
    JsonText.Deserialize (UnknownText F CommandType)
    = Some [("success", JBool false); ("error", JString (UnknownMessage F CommandType))].
Proof.
  intros F c [-> | [-> | ->]]; vm_compute; reflexivity.
Qed.

(** The chain of the bridge sends a family only names that the family
    recognizes. *)
Lemma routed_names_are_recognized : forall F CommandType,
    Lookup CommandType = Some (Static F) -> Recognizes F CommandType = true.
Proof.
  intros F c HL. unfold Lookup in HL.
  apply find_some in HL as [_ HM].
  destruct F; exact HM.
Qed.

End RouterFacts.

Section PlainNames.

Lemma list_ascii_of_string_app : forall a b : string,
    list_ascii_of_string (a ++ b)
    = list_ascii_of_string a ++ list_ascii_of_string b.
Proof.
  induction a as [|c a IH]; intros b; simpl; [reflexivity | now rewrite IH].
Qed.

Lemma Plain_app : forall a b, Plain a = true -> Plain b = true -> Plain (a ++ b) = true.
Proof.
  induction a as [|c a IH]; intros b Ha Hb; simpl in *; [exact Hb|].
  apply andb_true_iff in Ha as [Hc Ha]. rewrite Hc. simpl. now apply IH.
Qed.

(** A string token whose characters need no escape is read up to its
    closing quote, as it stands. *)
Lemma ParseStringToken_plain : forall (s : string) (rest acc : list ascii),
    Plain s = true ->
    JsonText.ParseStringToken (list_ascii_of_string s ++ FStr.DQ :: rest) acc
    = Some (string_of_list_ascii (rev acc ++ list_ascii_of_string s), rest).
Proof.
  induction s as [|c s IH]; intros rest acc HP.
  - simpl. now rewrite app_nil_r.
  - simpl in HP. apply andb_true_iff in HP as [Hc Hs].
    unfold PlainChar in Hc. apply andb_true_iff in Hc as [Hq Hb].
    apply negb_true_iff in Hq, Hb.
    change (list_ascii_of_string (String c s) ++ FStr.DQ :: rest)
      with (c :: (list_ascii_of_string s ++ FStr.DQ :: rest)).
    cbn [JsonText.ParseStringToken]. rewrite Hq, Hb.
    rewrite IH by assumption. simpl. now rewrite <- app_assoc.
Qed.

Lemma ReadValue_string : forall f m rest,
    Plain m = true ->
    JsonText.ReadValue (S f) (FStr.DQ :: list_ascii_of_string m ++ FStr.DQ :: rest)
    = Some (JString m, rest).
Proof.
  intros f m rest HP.
  cbn -[JsonText.ParseStringToken].
  rewrite ParseStringToken_plain by assumption.
  simpl. now rewrite string_of_list_ascii_of_string.
Qed.

Lemma ReadValue_false : forall f rest,
    JsonText.ReadValue (S f)
      ("f"%char :: "a"%char :: "l"%char :: "s"%char :: "e"%char :: ","%char :: rest)
    = Some (JBool false, ","%char :: rest).
Proof. reflexivity. Qed.

Section Members.
Variable pv : list ascii -> option (JsonValue * list ascii).

Lemma ReadMembers_member : forall n acc key v rest r3,
    Plain key = true ->
    pv rest = Some (v, r3) ->
    JsonText.ReadMembers pv (S n) acc
      (FStr.DQ :: list_ascii_of_string key ++ FStr.DQ :: ":"%char :: rest)
    = match JsonText.ParseWhiteSpace r3 with
      | ","%char :: r4 => JsonText.ReadMembers pv n (SetField acc key v) r4
      | "}"%char :: r4 => Some (SetField acc key v, r4)
      | _ => None
      end.
Proof.
  intros n acc key v rest r3 HP Hv.
  cbn -[JsonText.ParseStringToken JsonText.ParseWhiteSpace].
  change (JsonText.ParseWhiteSpace
            (FStr.DQ :: list_ascii_of_string key ++ FStr.DQ :: ":"%char :: rest))
    with (FStr.DQ :: list_ascii_of_string key ++ FStr.DQ :: ":"%char :: rest).
  cbn -[JsonText.ParseStringToken JsonText.ParseWhiteSpace].
  rewrite ParseStringToken_plain by assumption.
  change (JsonText.ParseWhiteSpace (":"%char :: rest)) with (":"%char :: rest).
  cbn -[JsonText.ParseWhiteSpace]. rewrite Hv.
  now rewrite string_of_list_ascii_of_string.
Qed.
End Members.

Lemma ReadValue_object_open : forall f rest,
    JsonText.ReadValue (S f) ("{"%char :: FStr.DQ :: rest)
    = match JsonText.ReadMembers (JsonText.ReadValue f) (S (List.length rest)) []
              (FStr.DQ :: rest) with
      | Some (o, r') => Some (JObject o, r')
      | None => None
      end.
Proof. reflexivity. Qed.

(** The text of a structural failure, with a plain message. *)
Lemma ReadValue_error_object : forall fuel m,
    Plain m = true -> 2 <= fuel ->
    JsonText.ReadValue fuel
      ("{"%char :: FStr.DQ :: list_ascii_of_string "success"
         ++ FStr.DQ :: ":"%char
         :: "f"%char :: "a"%char :: "l"%char :: "s"%char :: "e"%char :: ","%char
         :: FStr.DQ :: list_ascii_of_string "error"
         ++ FStr.DQ :: ":"%char
         :: FStr.DQ :: list_ascii_of_string m ++ FStr.DQ :: ["}"%char])
    = Some (JObject [("success", JBool false); ("error", JString m)], []).
Proof.
  intros [|[|f]] m HP Hf; try lia.
  rewrite ReadValue_object_open.
  rewrite (ReadMembers_member (JsonText.ReadValue (S f)) _ [] "success" (JBool false)
             _ _ eq_refl (ReadValue_false f _)).
  change (JsonText.ParseWhiteSpace (","%char :: ?x)) with (","%char :: x).
  cbv iota.
  match goal with
  | |- context [JsonText.ReadMembers _ (List.length ?r)] =>
      let n := eval cbn [List.length app list_ascii_of_string] in (List.length r) in
      change (List.length r) with n
  end.
  rewrite (ReadMembers_member (JsonText.ReadValue (S f)) _ _ "error" (JString m)
             _ _ eq_refl (ReadValue_string f m ["}"%char] HP)).
  reflexivity.
Qed.

Lemma error_object_text_reads : forall m,
    Plain m = true ->
    JsonText.Deserialize (FStr.TEXT "{'success':false,'error':'" ++ m ++ FStr.TEXT "'}")
    = Some [("success", JBool false); ("error", JString m)].
Proof.
  intros m HP. unfold JsonText.Deserialize.
  rewrite !list_ascii_of_string_app.
  change (list_ascii_of_string (FStr.TEXT "'}")) with (FStr.DQ :: ["}"%char]).
  set (tail := list_ascii_of_string m ++ FStr.DQ :: ["}"%char]).
  change (list_ascii_of_string (FStr.TEXT "{'success':false,'error':'") ++ tail)
    with ("{"%char :: FStr.DQ :: list_ascii_of_string "success"
            ++ FStr.DQ :: ":"%char
            :: "f"%char :: "a"%char :: "l"%char :: "s"%char :: "e"%char :: ","%char
            :: FStr.DQ :: list_ascii_of_string "error"
            ++ FStr.DQ :: ":"%char :: FStr.DQ :: tail).
  subst tail.
  rewrite ReadValue_error_object; [reflexivity | assumption | simpl; lia].
Qed.

(** With a plain name, every family answers an unrecognized name with a
    JSON object that says success false and carries its message. *)
Lemma plain_unknown_text_reads_as_error : forall F CommandType,
    Plain CommandType = true ->
    JsonText.Deserialize (UnknownText F CommandType)
    = Some [("success", JBool false); ("error", JString (UnknownMessage F CommandType))].
Proof.
  intros F c HP.
  destruct F; try (apply fixed_unknown_text_reads_as_error; tauto).
  - apply (error_object_text_reads ("Unknown asset command: " ++ c)).
    now apply Plain_app.
  - apply (error_object_text_reads ("Unknown content browser command: " ++ c)).
    now apply Plain_app.
  - apply (error_object_text_reads ("Unknown asset registry command: " ++ c)).
    now apply Plain_app.
Qed.

(** ... and the rule of the dispatcher turns that object into an error
    envelope with the same message. *)
Lemma plain_unknown_text_is_flattened : forall F CommandType,
    Plain CommandType = true ->
    FromText (Returned (UnknownText F CommandType))
    = Result (Some [("success", JBool false);
                    ("error", JString (UnknownMessage F CommandType))])
    /\ Respond [("success", JBool false);
                ("error", JString (UnknownMessage F CommandType))]
       = [("status", JString "error");
          ("error", JString (UnknownMessage F CommandType))].
Proof.
  intros F c HP. split; [|reflexivity].
  unfold FromText. now rewrite plain_unknown_text_reads_as_error.
Qed.

(** A name can also be chosen so that the text is JSON of another shape:
    the spliced name closes the message and adds a second [success] member,
    and the object read from the text says success true. *)
Lemma spliced_name_can_claim_success :
  let CommandType := FStr.TEXT "','success':true,'x':'" in
  Recognizes AssetFamily CommandType = false
  /\ JsonText.Deserialize (UnknownText AssetFamily CommandType)
     = Some [("success", JBool true);
             ("error", JString "Unknown asset command: ");
             ("x", JString EmptyString)].
Proof. vm_compute. split; reflexivity. Qed.

End PlainNames.

(** C10.  The code at the failing input: the asset family, and the content
    browser family likewise, called with the unrecognized name made of an x,
    a double quote and a y, answer with a text in which the name is spliced
    unescaped (in the texts below the apostrophe between x and y is that
    double quote, like every other apostrophe); that text is not JSON, and
    reading it leaves the result pointer of the dispatcher null. *)
Theorem unknown_command_text_with_quote_is_not_json :
  forall E Params,
    let CommandType := String "x" (String FStr.DQ "y") in
    Recognizes AssetFamily CommandType = false
    /\ Families.HandleCommand AssetFamily E CommandType Params
       = Returned (FStr.TEXT "{'success':false,'error':'Unknown asset command: x'y'}")
    /\ JsonText.Deserialize
         (FStr.TEXT "{'success':false,'error':'Unknown asset command: x'y'}") = None
    /\ FromText (Families.HandleCommand AssetFamily E CommandType Params) = Result None
    /\ Recognizes ContentBrowserFamily CommandType = false
    /\ Families.HandleCommand ContentBrowserFamily E CommandType Params
       = Returned (FStr.TEXT "{'success':false,'error':'Unknown content browser command: x'y'}")
    /\ JsonText.Deserialize
         (FStr.TEXT "{'success':false,'error':'Unknown content browser command: x'y'}")
       = None.
Proof.
  intros E p c.
  split; [reflexivity|].
  split; [rewrite HandleCommand_unrecognized by reflexivity; reflexivity|].
  split; [vm_compute; reflexivity|].
  split; [rewrite HandleCommand_unrecognized by reflexivity; vm_compute; reflexivity|].
  split; [reflexivity|].
  split; [rewrite HandleCommand_unrecognized by reflexivity; reflexivity|].
  vm_compute; reflexivity.
Qed.

(* ------------------------------------------------------------------ *)
(** * Further properties of the bridge *)

Import BridgeMore.

Section ChainFacts.

Lemma Matches_names : forall c g,
    Matches c g = true <-> exists n, In n (GroupNames g) /\ FStr.Equals c n = true.
Proof. intros c g. unfold Matches. apply existsb_exists. Qed.

Lemma FamilyEqb_eq : forall a b, FamilyEqb a b = true -> a = b.
Proof. destruct a, b; simpl; congruence. Qed.

Lemma GroupEqb_eq : forall a b, GroupEqb a b = true -> a = b.
Proof.
  destruct a, b; simpl; try congruence.
  intros E. now rewrite (FamilyEqb_eq _ _ E).
Qed.

Lemma ChainIsDisjoint_holds : ChainIsDisjoint = true.
Proof. vm_compute. reflexivity. Qed.

(** Two conditions of the chain never hold of the same name. *)
Lemma chain_conditions_exclude : forall c a b,
    In a Chain -> In b Chain ->
    Matches c a = true -> Matches c b = true -> a = b.
Proof.
  intros c a b Ha Hb Ma Mb.
  pose proof ChainIsDisjoint_holds as D. unfold ChainIsDisjoint in D.
  rewrite forallb_forall in D. specialize (D a Ha).
  rewrite forallb_forall in D. specialize (D b Hb).
  apply orb_true_iff in D as [E|N]; [now apply GroupEqb_eq|].
  exfalso.
  apply Matches_names in Ma as (n & Hn & En).
  apply Matches_names in Mb as (m & Hm & Em).
  unfold NoCommonName in N.
  rewrite forallb_forall in N. specialize (N n Hn).
  rewrite forallb_forall in N. specialize (N m Hm).
  apply negb_true_iff in N.
  rewrite Equals_sym in En.
  now rewrite (Equals_trans _ _ _ En Em) in N.
Qed.

Lemma find_the_only_one : forall (p : Group -> bool) (l : list Group) (x : Group),
    In x l -> p x = true ->
    (forall y, In y l -> p y = true -> y = x) ->
    find p l = Some x.
Proof.
  induction l as [|y l IH]; intros x Hin Hp Hu; [contradiction|].
  simpl. destruct (p y) eqn:Py.
  - f_equal. apply Hu; [now left | exact Py].
  - destruct Hin as [->|Hin]; [congruence|].
    apply IH; auto. intros z Hz. apply Hu. now right.
Qed.

Lemma Lookup_of_match : forall c g,
    In g Chain -> Matches c g = true -> Lookup c = Some g.
Proof.
  intros c g Hg Mg. unfold Lookup.
  apply find_the_only_one; auto.
  intros y Hy My. now apply (chain_conditions_exclude c).
Qed.

Lemma Static_in_Chain : forall F, In (Static F) Chain.
Proof. destruct F; simpl; tauto. Qed.

Lemma Matches_Static : forall F c, Matches c (Static F) = Recognizes F c.
Proof. destruct F; reflexivity. Qed.

End ChainFacts.

Section FamilyRouterFacts.

(** A router that has a test for the name calls a body. *)
Lemma HandleCommand_recognized : forall F CommandType,
    Recognizes F CommandType = true ->
    Families.HandleCommand F CrashingEditors CommandType None = Fatal.
Proof.
  intros F c HR. unfold Recognizes in HR.
  destruct F; cbn [existsb] in HR;
    unfold Families.HandleCommand,
      FUnrealMCPAssetCommands.HandleCommand,
      FUnrealMCPContentBrowserCommands.HandleCommand,
      FUnrealMCPAssetRegistryCommands.HandleCommand,
      FUnrealMCPLevelCommands.HandleCommand,
      FUnrealMCPLandscapeCommands.HandleCommand,
      FUnrealMCPWorldCommands.HandleCommand;
    repeat match goal with
           | |- context [FStr.Equals c ?n] =>
               let E := fresh "E" in
               destruct (FStr.Equals c n) eqn:E; [reflexivity|]
           end;
    repeat match goal with
           | E : FStr.Equals _ _ = false |- _ => rewrite E in HR; clear E
           end;
    discriminate.
Qed.

Lemma not_routed_is_not_recognized : forall F CommandType,
    Lookup CommandType <> Some (Static F) -> Recognizes F CommandType = false.
Proof.
  intros F c HL. destruct (Recognizes F c) eqn:HR; [|reflexivity].
  exfalso. apply HL. apply Lookup_of_match; [apply Static_in_Chain|].
  now rewrite Matches_Static.
Qed.

End FamilyRouterFacts.

(** X1.  The names tested by the conditions of the chain of [ExecuteCommand]
    do not overlap, so a name takes the branch of whichever condition holds
    of it.  And the chain and the routers of the static families agree on
    the names: the chain sends a name to a family exactly when the
    [HandleCommand] of that family does something else with it, for some
    editor and parameters, than give its answer for an unknown command; a
    name the chain does not send there gets that answer from the family
    always. *)
Theorem chain_and_family_routers_agree :
  (forall CommandType g,
      In g Chain -> Matches CommandType g = true -> Lookup CommandType = Some g)
  /\ (forall F CommandType,
         Lookup CommandType = Some (Static F)
         <-> exists E Params,
               Families.HandleCommand F E CommandType Params
               <> Returned (UnknownText F CommandType))
  /\ (forall F CommandType,
         Lookup CommandType <> Some (Static F) ->
         forall E Params,
           Families.HandleCommand F E CommandType Params
           = Returned (UnknownText F CommandType)).
Proof.
  split; [exact Lookup_of_match|].
  assert (Hnot : forall F c,
             Lookup c <> Some (Static F) ->
             forall E p, Families.HandleCommand F E c p = Returned (UnknownText F c)).
  { intros F c HL E p. apply HandleCommand_unrecognized.
    now apply not_routed_is_not_recognized. }
  split; [|exact Hnot].
  intros F c. split.
  - intros HL. exists CrashingEditors, None.
    rewrite HandleCommand_recognized; [discriminate|].
    unfold Lookup in HL. apply find_some in HL as [_ HM].
    now rewrite Matches_Static in HM.
  - intros (E & p & Hne).
    destruct (Recognizes F c) eqn:HR.
    + apply Lookup_of_match; [apply Static_in_Chain|]. now rewrite Matches_Static.
    + exfalso. apply Hne. now apply HandleCommand_unrecognized.
Qed.

Lemma chain_and_family_routers_agree_witness :
  Lookup "save_level" = Some (Static LevelFamily)
  /\ Families.HandleCommand AssetFamily SampleEditors "save_level" None
     = Returned (UnknownText AssetFamily "save_level").
Proof.
  destruct chain_and_family_routers_agree as (Hfirst & _ & Hnot).
  split.
  - apply Hfirst; [simpl; tauto | reflexivity].
  - apply Hnot. intros E. vm_compute in E. discriminate.
Defined.

Section NameFacts.

Lemma Equals_congruent : forall a b n,
    FStr.Equals a b = true -> FStr.Equals a n = FStr.Equals b n.
Proof.
  intros a b n E.
  destruct (FStr.Equals a n) eqn:A, (FStr.Equals b n) eqn:B; try reflexivity.
  - rewrite Equals_sym in E. now rewrite (Equals_trans _ _ _ E A) in B.
  - now rewrite (Equals_trans _ _ _ E B) in A.
Qed.

Lemma Matches_congruent : forall a b g,
    FStr.Equals a b = true -> Matches a g = Matches b g.
Proof.
  intros a b g E. unfold Matches.
  induction (GroupNames g) as [|n l IH]; simpl; [reflexivity|].
  now rewrite IH, (Equals_congruent a b n E).
Qed.

Lemma Lookup_congruent : forall a b,
    FStr.Equals a b = true -> Lookup a = Lookup b.
Proof.
  intros a b E. unfold Lookup.
  induction Chain as [|g l IH]; simpl; [reflexivity|].
  now rewrite IH, (Matches_congruent a b g E).
Qed.

End NameFacts.

(** X2.  Command names are compared the way [FString]s are, without regard
    to the case of letters: two spellings of a name take the same branch of
    the chain, and every spelling of ping is answered with pong. *)
Theorem command_names_ignore_case :
  forall a b,
    FStr.Equals a b = true ->
    Lookup a = Lookup b
    /\ (FStr.Equals b "ping" = true ->
        forall H Params,
          GameThreadTask H a Params
          = Responded [("status", JString "success");
                       ("result", JObject [("message", JString "pong")])]).
Proof.
  intros a b E. split; [now apply Lookup_congruent|].
  intros Eb H p.
  assert (Ea : FStr.Equals a "ping" = true) by (eapply Equals_trans; eauto).
  unfold GameThreadTask, Route.
  now rewrite (Lookup_congruent a "ping" Ea).
Qed.

Lemma command_names_ignore_case_witness :
  Lookup "Load_Asset" = Lookup "load_asset"
  /\ GameThreadTask SampleHandlers "PING" None
     = Responded [("status", JString "success");
                  ("result", JObject [("message", JString "pong")])].
Proof.
  split.
  - apply (command_names_ignore_case "Load_Asset" "load_asset" eq_refl).
  - apply (command_names_ignore_case "PING" "ping" eq_refl). reflexivity.
Defined.

(** X3.  A static family whose text is not a JSON object: [Deserialize]
    leaves [ResultJson] null and the lambda goes on to call [HasField]
    through it.  The promise never gets a value; the caller gets no envelope
    and the process is gone. *)
Theorem unreadable_family_text_takes_the_process_down :
  forall H fuel caller CommandType Params g F Response,
    Quiet g -> IsGameThread caller = false ->
    Lookup CommandType = Some (Static F) ->
    Families.HandleCommand F (StaticFamilies H) CommandType Params = Returned Response ->
    JsonText.Deserialize Response = None ->
    GameThreadTask H CommandType Params = Crashed
    /\ ExecuteCommand (S fuel) H caller CommandType Params g
       = (ProcessDown, AfterCrash caller g)
    /\ PromiseValue (Fulfilled (AfterCrash caller g)) (PromisesMade g) = None
    /\ ProcessAlive (AfterCrash caller g) = false.
Proof.
  intros H fuel caller c p g F R Hq Hc HL HR HD.
  assert (T : GameThreadTask H c p = Crashed).
  { unfold GameThreadTask, Route. rewrite HL, HR. simpl. now rewrite HD. }
  split; [exact T|].
  rewrite ExecuteCommand_quiet by assumption. rewrite T.
  repeat split. simpl. destruct Hq as (_ & _ & _ & Hf). apply Hf. lia.
Qed.

Lemma unreadable_family_text_takes_the_process_down_witness :
  fst (ExecuteCommand 1 SampleHandlers (OtherThread 0) "load_asset"
         (Some [("asset_path", JString (String FStr.DQ EmptyString))]) InitialGraph)
  = ProcessDown.
Proof.
  destruct (unreadable_family_text_takes_the_process_down
              SampleHandlers 0 (OtherThread 0) "load_asset"
              (Some [("asset_path", JString (String FStr.DQ EmptyString))])
              InitialGraph AssetFamily
              (FStr.TEXT "{'success':false,'error':'Failed to load asset: ''}")
              InitialGraph_Quiet eq_refl eq_refl eq_refl eq_refl)
    as (_ & Hrun & _).
  rewrite Hrun. reflexivity.
Defined.

(** X4.  Requests served one after another, each by its own call from a
    thread other than the game thread: when the task of every request gives
    an answer, every call returns the answer to its own request, in order;
    the game thread has run one task per request and nothing is left in
    flight. *)
Theorem requests_in_sequence_get_their_own_answers :
  forall H fuel caller requests answers g,
    Quiet g -> IsGameThread caller = false ->
    Responses H requests = Some answers ->
    exists g',
      ExecuteCommands (S fuel) H caller requests g = (map Returns answers, g')
      /\ Quiet g'
      /\ Submitted g' = Submitted g + List.length requests
      /\ Executed g' = Executed g + List.length requests
      /\ List.length answers = List.length requests.
Proof.
  intros H fuel caller requests.
  induction requests as [|[c p] rest IH]; intros answers g Hq Hc HR.
  - simpl in HR. inversion HR; subst. exists g. simpl.
    split; [reflexivity|]. split; [assumption|]. repeat split; lia.
  - simpl in HR.
    destruct (GameThreadTask H c p) as [r|] eqn:T; [|discriminate].
    destruct (Responses H rest) as [rs|] eqn:R; [|discriminate].
    inversion HR; subst. clear HR.
    destruct (IH rs (AfterServing r g) (AfterServing_Quiet r g Hq) Hc eq_refl)
      as (g' & Hrun & Hq' & Hs & He & Hl).
    exists g'. cbn [ExecuteCommands].
    rewrite ExecuteCommand_quiet by assumption. rewrite T, Hrun.
    simpl in Hs, He. simpl.
    split; [reflexivity|]. split; [assumption|]. repeat split; lia.
Qed.

Lemma requests_in_sequence_get_their_own_answers_witness :
  fst (ExecuteCommands 1 SampleHandlers (OtherThread 0)
         [("ping", None); ("nope", None); ("delete_actor", None)] InitialGraph)
  = [Returns [("status", JString "success");
              ("result", JObject [("message", JString "pong")])];
     Returns [("status", JString "error"); ("error", JString "Unknown command: nope")];
     Returns [("status", JString "error"); ("error", JString "Actor not found")]].
Proof.
  destruct (requests_in_sequence_get_their_own_answers
              SampleHandlers 0 (OtherThread 0)
              [("ping", None); ("nope", None); ("delete_actor", None)]
              [[("status", JString "success");
                ("result", JObject [("message", JString "pong")])];
               [("status", JString "error"); ("error", JString "Unknown command: nope")];
               [("status", JString "error"); ("error", JString "Actor not found")]]
              InitialGraph InitialGraph_Quiet eq_refl eq_refl)
    as (g' & Hrun & _).
  rewrite Hrun. reflexivity.
Defined.

(* ------------------------------------------------------------------ *)
(** * Further properties of starting and stopping *)

Import LifecycleMore.

Section StartStopFacts.

Lemma StartServer_all_succeed : forall P b s t,
    bIsRunning b = false -> AllSucceed P s t ->
    StartServer P b
    = set_RunningThreads (t :: RunningThreads b)
        (set_ServerThread (Some t)
           (UE_LOG Display
              ("UnrealMCPBridge: Server started on " ++ Endpoint b)
              (set_bIsRunning true
                 (set_ListenerSocket (Some s)
                    (count_Bind (set_OpenSockets (s :: OpenSockets b) b)))))).
Proof.
  intros P b s t Hb (Hss & Hcr & Hbi & Hli & Hct). unfold StartServer.
  rewrite Hb, Hss, Hcr, Hbi, Hli, Hct. reflexivity.
Qed.

Lemma StartServer_only_thread_fails : forall P b s,
    bIsRunning b = false -> OnlyThreadFails P s ->
    StartServer P b
    = StopServer
        (UE_LOG Error "UnrealMCPBridge: Failed to create server thread"
           (set_ServerThread None
              (UE_LOG Display
                 ("UnrealMCPBridge: Server started on " ++ Endpoint b)
                 (set_bIsRunning true
                    (set_ListenerSocket (Some s)
                       (count_Bind (set_OpenSockets (s :: OpenSockets b) b))))))).
Proof.
  intros P b s Hb (Hss & Hcr & Hbi & Hli & Hct). unfold StartServer.
  rewrite Hb, Hss, Hcr, Hbi, Hli, Hct. reflexivity.
Qed.

Lemma Consistent_StopServer : forall b, Consistent b -> Consistent (StopServer b).
Proof.
  intros b C. unfold Consistent. rewrite StopServer_stops.
  unfold Consistent in C. destruct (bIsRunning b) eqn:E.
  - destruct C as (s & t & Hl & Ht & Hc & Hos & Hrt).
    destruct b as [run ls cs st po ad os rt bc lg]. simpl in *. subst.
    unfold StopServer, HoldsNothing. members. cbn [remove_first].
    rewrite !Nat.eqb_refl. repeat split.
  - now rewrite StopServer_when_stopped.
Qed.

Lemma Consistent_StartServer : forall P b, Consistent b -> Consistent (StartServer P b).
Proof.
  intros P b C. unfold Consistent in C. destruct (bIsRunning b) eqn:E.
  - unfold StartServer. rewrite E. unfold Consistent. members. now rewrite E.
  - destruct C as (Hst & Hcs & Hls & Hos & Hrt).
    destruct b as [run ls cs st po ad os rt bc lg]. simpl in *. subst.
    unfold StartServer, Consistent. members.
    destruct (SocketSubsystem P); members; [|repeat split].
    destruct (CreateSocket P) as [s|]; members; [|repeat split].
    destruct (Bind P); members;
      [|unfold HoldsNothing; members; cbn [remove_first];
        rewrite Nat.eqb_refl; repeat split].
    destruct (Listen P); members;
      [|unfold HoldsNothing; members; cbn [remove_first];
        rewrite Nat.eqb_refl; repeat split].
    destruct (CreateThread P) as [t|]; members.
    + exists s, t. repeat split.
    + unfold StopServer, HoldsNothing. members. cbn [remove_first].
      rewrite Nat.eqb_refl. repeat split.
Qed.

(** [Initialize] on a new object: what it hands to [StartServer] is not
    running, holds nothing, and has the endpoint settled. *)
Lemma Initialize_ready : forall D C P b,
    NewObject b ->
    exists b1,
      Initialize D C P b = StartServer P b1
      /\ bIsRunning b1 = false /\ HoldsNothing b1.
Proof.
  intros D [bind port] P [run ls cs st po ad os rt bc lg] [Hos Hrt].
  cbn [OpenSockets RunningThreads] in Hos, Hrt. subst os rt.
  eexists. split; [unfold Initialize; cbv zeta; reflexivity|].
  unfold ParseInto, HoldsNothing. cbn [UnrealMCPBind UnrealMCPPort].
  destruct (FIPv4Address_Parse D MCP_SERVER_HOST);
    destruct bind as [v|]; destruct port;
    try destruct (FIPv4Address_Parse D v);
    try destruct (FIPv4Address_Parse D MCP_SERVER_HOST);
    members; repeat split.
Qed.

Lemma Reachable_Consistent : forall b, Reachable b -> Consistent b.
Proof.
  induction 1 as [D C P b N | P b _ IH | b _ IH | b _ IH].
  - destruct (Initialize_ready D C P b N) as (b1 & -> & Hrun & Hnothing).
    apply Consistent_StartServer. unfold Consistent. now rewrite Hrun.
  - now apply Consistent_StartServer.
  - now apply Consistent_StopServer.
  - unfold Deinitialize. apply Consistent_StopServer. exact IH.
Qed.

End StartStopFacts.

(** X5.  After [Initialize] has been called on a new object, once, and
    whatever calls of [StartServer], [StopServer] and [Deinitialize] have
    followed: a bridge that is running holds its listener socket and its
    server thread, these are the only socket and thread made for it that
    still exist, and these functions have given it no connection socket; a
    bridge that is not running holds nothing. *)
Theorem running_bridge_holds_one_socket_and_one_thread :
  forall b,
    Reachable b ->
    (bIsRunning b = true ->
     exists s t,
       ListenerSocket b = Some s /\ ServerThread b = Some t
       /\ ConnectionSocket b = None
       /\ OpenSockets b = [s] /\ RunningThreads b = [t])
    /\ (bIsRunning b = false -> HoldsNothing b).
Proof.
  intros b R. pose proof (Reachable_Consistent b R) as C.
  unfold Consistent in C.
  split; intros E; rewrite E in C; exact C.
Qed.

Lemma running_bridge_holds_one_socket_and_one_thread_witness :
  exists s t,
    ListenerSocket
      (StartServer WorkingPlatform
         (StartServer WorkingPlatform
           (Initialize SampleDeclarations NoOverrides WorkingPlatform
              NewBridge)))
    = Some s
    /\ OpenSockets
         (StartServer WorkingPlatform
            (StartServer WorkingPlatform
              (Initialize SampleDeclarations NoOverrides WorkingPlatform
                 NewBridge)))
       = [s]
    /\ RunningThreads
         (StartServer WorkingPlatform
            (StartServer WorkingPlatform
              (Initialize SampleDeclarations NoOverrides WorkingPlatform
                 NewBridge)))
       = [t].
Proof.
  destruct (running_bridge_holds_one_socket_and_one_thread
              (StartServer WorkingPlatform
                 (StartServer WorkingPlatform
                   (Initialize SampleDeclarations NoOverrides WorkingPlatform
                      NewBridge))))
    as (Hrun & _).
  { apply reach_StartServer, reach_StartServer, reach_Initialize.
    split; reflexivity. }
  destruct (Hrun eq_refl) as (s & t & Hl & _ & _ & Hos & Hrt).
  exists s, t. auto.
Defined.

(** X6.  When everything succeeds up to the making of the thread and the
    thread cannot be made, [StartServer] undoes what it did by calling
    [StopServer]: a bridge that held nothing before holds nothing after and
    is not running, [Bind] has been called once, and the log has gained the
    line that the server started, the error, and the line that it
    stopped. *)
Theorem StartServer_without_thread_stops_again :
  forall P b s,
    bIsRunning b = false -> HoldsNothing b -> OnlyThreadFails P s ->
    bIsRunning (StartServer P b) = false
    /\ HoldsNothing (StartServer P b)
    /\ BindCalls (StartServer P b) = S (BindCalls b)
    /\ LogTemp (StartServer P b)
       = LogTemp b
         ++ [(Display, ("UnrealMCPBridge: Server started on " ++ Endpoint b)%string);
             (Error, "UnrealMCPBridge: Failed to create server thread");
             (Display, "UnrealMCPBridge: Server stopped")].
Proof.
  intros P b s Hb (Hst & Hcs & Hls & Hos & Hrt) HP.
  rewrite (StartServer_only_thread_fails P b s Hb HP).
  split; [apply StopServer_stops|].
  unfold StopServer, HoldsNothing. members.
  rewrite Hcs. members. rewrite Hos, Hrt. cbn [remove_first]. rewrite Nat.eqb_refl.
  repeat split; try reflexivity; try assumption. now rewrite <- !app_assoc.
Qed.

Lemma StartServer_without_thread_stops_again_witness :
  bIsRunning
    (Initialize SampleDeclarations NoOverrides NoThreadPlatform
       NewBridge) = false
  /\ HoldsNothing (Initialize SampleDeclarations NoOverrides NoThreadPlatform NewBridge).
Proof.
  destruct (StartServer_without_thread_stops_again NoThreadPlatform
              (UE_LOG Display "UnrealMCPBridge: Will bind to 0.0.0.0:55557"
                 {| bIsRunning := false; ListenerSocket := None; ConnectionSocket := None;
                    ServerThread := None; Port := MCP_SERVER_PORT;
                    ServerAddress := MCP_SERVER_HOST;
                    OpenSockets := []; RunningThreads := []; BindCalls := 0;
                    LogTemp := [(Display, "UnrealMCPBridge: Initializing")] |})
              3 eq_refl)
    as (Hrun & Hnothing & _).
  - repeat split.
  - repeat split.
  - split; assumption.
Defined.

(** X7.  After [StopServer], a [StartServer] on which every step succeeds
    brings the bridge up again: it is running and holds the new socket and
    the new thread and nothing else, after one more call of [Bind]. *)
Theorem server_starts_again_after_stop :
  forall b P s t,
    Reachable b -> AllSucceed P s t ->
    bIsRunning (StartServer P (StopServer b)) = true
    /\ ListenerSocket (StartServer P (StopServer b)) = Some s
    /\ ServerThread (StartServer P (StopServer b)) = Some t
    /\ ConnectionSocket (StartServer P (StopServer b)) = None
    /\ OpenSockets (StartServer P (StopServer b)) = [s]
    /\ RunningThreads (StartServer P (StopServer b)) = [t]
    /\ BindCalls (StartServer P (StopServer b)) = S (BindCalls b).
Proof.
  intros b P s t R HP.
  assert (Hs : bIsRunning (StopServer b) = false) by apply StopServer_stops.
  assert (C : Consistent (StopServer b))
    by (apply Consistent_StopServer, Reachable_Consistent, R).
  unfold Consistent in C. rewrite Hs in C.
  destruct C as (Hst & Hcs & Hls & Hos & Hrt).
  rewrite (StartServer_all_succeed P (StopServer b) s t Hs HP). members.
  rewrite Hcs, Hos, Hrt.
  repeat split.
  unfold StopServer. destruct (bIsRunning b); members; [|reflexivity].
  destruct (ServerThread b); members;
    destruct (ConnectionSocket b); members;
    destruct (ListenerSocket b); members; reflexivity.
Qed.

Lemma server_starts_again_after_stop_witness :
  bIsRunning (StartServer WorkingPlatform
                (StopServer
                  (Initialize SampleDeclarations NoOverrides WorkingPlatform
                     NewBridge))) = true
  /\ OpenSockets (StartServer WorkingPlatform
                    (StopServer
                      (Initialize SampleDeclarations NoOverrides WorkingPlatform
                         NewBridge))) = [3].
Proof.
  destruct (server_starts_again_after_stop
              (Initialize SampleDeclarations NoOverrides WorkingPlatform NewBridge) WorkingPlatform 3 1
              (reach_Initialize SampleDeclarations NoOverrides WorkingPlatform NewBridge
                 (conj eq_refl eq_refl)))
    as (Hrun & _ & _ & _ & Hos & _).
  - repeat split.
  - split; assumption.
Defined.

(* ------------------------------------------------------------------ *)
(** * Reading back what was written *)

Import JsonWrite.

Section ReadWrite.

Lemma ParseWord_stop : forall rest acc,
    Ends rest = true ->
    JsonText.ParseWord rest acc = (string_of_list_ascii (rev acc), rest).
Proof.
  intros [|c rest] acc E; simpl in *; [reflexivity|].
  apply negb_true_iff in E. now rewrite E.
Qed.

Lemma ReadValue_bool : forall f d b rest,
    Ends rest = true ->
    JsonText.ReadValue (S f) (Write d (JBool b) rest) = Some (JBool b, rest).
Proof.
  intros f d b rest E.
  destruct b; destruct d; cbn -[JsonText.ParseWord];
    cbn [JsonText.ParseWord]; cbn -[JsonText.ParseWord];
    rewrite (ParseWord_stop rest _ E); reflexivity.
Qed.

Lemma SetField_fresh : forall acc k v,
    forallb (fun a => negb (FStr.Equals (fst a) k)) acc = true ->
    SetField acc k v = acc ++ [(k, v)].
Proof.
  induction acc as [|[k0 v0] acc IH]; intros k v F; simpl in *; [reflexivity|].
  apply andb_true_iff in F as [F1 F2]. apply negb_true_iff in F1.
  rewrite F1. now rewrite IH.
Qed.

Lemma DistinctKeys_fresh : forall acc k v fields,
    DistinctKeys (acc ++ (k, v) :: fields) = true ->
    forallb (fun a => negb (FStr.Equals (fst a) k)) acc = true.
Proof.
  induction acc as [|[k0 v0] acc IH]; intros k v fields D; simpl in *; [reflexivity|].
  apply andb_true_iff in D as [D1 D2].
  rewrite forallb_app in D1. apply andb_true_iff in D1 as [_ D1].
  simpl in D1. apply andb_true_iff in D1 as [D1 _].
  rewrite D1. simpl. now apply (IH k v fields).
Qed.

Lemma SetFields_distinct : forall fields acc,
    DistinctKeys (acc ++ fields) = true ->
    fold_left (fun a kv => SetField a (fst kv) (snd kv)) fields acc = acc ++ fields.
Proof.
  induction fields as [|[k v] fields IH]; intros acc D.
  - simpl. now rewrite app_nil_r.
  - simpl. rewrite (SetField_fresh acc k v (DistinctKeys_fresh acc k v fields D)).
    rewrite IH; rewrite <- app_assoc; [reflexivity | exact D].
Qed.

Section Members.
Variable pv : list ascii -> option (JsonValue * list ascii).
Variable W : JsonValue -> list ascii -> list ascii.

Lemma WriteMembers_length :
  (forall v r, List.length r <= List.length (W v r)) ->
  forall fields rest,
    List.length fields + List.length rest <= List.length (WriteMembers W fields rest).
Proof.
  intros HW. induction fields as [|[k v] more IH]; intros rest; [simpl; lia|].
  cbn [WriteMembers]. unfold WriteString. cbn [List.length].
  rewrite length_app. cbn [List.length].
  destruct more as [|kv more'].
  - pose proof (HW v rest). simpl. lia.
  - pose proof (HW v (","%char :: WriteMembers W (kv :: more') rest)) as H1.
    pose proof (IH rest) as H2. cbn [List.length] in *. lia.
Qed.

(** Members written one after another are read one after another. *)
Lemma ReadMembers_WriteMembers : forall fields,
    (forall k v, In (k, v) fields ->
                 Plain k = true
                 /\ forall rest, Ends rest = true -> pv (W v rest) = Some (v, rest)) ->
    fields <> [] ->
    forall n acc rest,
      List.length fields <= n ->
      JsonText.ReadMembers pv n acc (WriteMembers W fields ("}"%char :: rest))
      = Some (fold_left (fun a kv => SetField a (fst kv) (snd kv)) fields acc, rest).
Proof.
  induction fields as [|[k v] more IH]; intros Hall Hne n acc rest Hn; [congruence|].
  destruct n as [|n]; [simpl in Hn; lia|].
  destruct (Hall k v (or_introl eq_refl)) as [Hk Hv].
  cbn [WriteMembers]. unfold WriteString.
  destruct more as [|kv more'].
  - rewrite (ReadMembers_member pv n acc k v _ ("}"%char :: rest) Hk
               (Hv ("}"%char :: rest) eq_refl)).
    reflexivity.
  - rewrite (ReadMembers_member pv n acc k v _
               (","%char :: WriteMembers W (kv :: more') ("}"%char :: rest))
               Hk (Hv (","%char :: WriteMembers W (kv :: more') ("}"%char :: rest))
                      eq_refl)).
    change (JsonText.ParseWhiteSpace (","%char :: ?x)) with (","%char :: x).
    cbv iota.
    rewrite IH; [reflexivity | | discriminate | simpl in *; lia].
    intros k' v' Hin. apply Hall. now right.
Qed.

End Members.

Lemma Write_length : forall d v rest,
    List.length rest <= List.length (Write d v rest).
Proof.
  induction d as [|d IH]; intros v rest; destruct v as [|[]| | | |fields];
    cbn [Write WriteString List.length]; try lia;
    try (rewrite length_app; cbn [List.length]; lia).
  destruct fields as [|kv more]; cbn [List.length]; [lia|].
  pose proof (WriteMembers_length (Write d) IH (kv :: more) ("}"%char :: rest)).
  cbn [List.length] in *. lia.
Qed.

Lemma ReadValue_object_members : forall f W k v more R,
    JsonText.ReadValue (S f) ("{"%char :: WriteMembers W ((k, v) :: more) R)
    = match JsonText.ReadMembers (JsonText.ReadValue f)
              (List.length (WriteMembers W ((k, v) :: more) R)) []
              (WriteMembers W ((k, v) :: more) R) with
      | Some (o, r') => Some (JObject o, r')
      | None => None
      end.
Proof. reflexivity. Qed.

(** The reader reads a written value back, and stops where the value
    ends. *)
Lemma ReadValue_Write : forall d v,
    Writable d v = true ->
    forall f rest,
      d <= f -> Ends rest = true ->
      JsonText.ReadValue (S f) (Write d v rest) = Some (v, rest).
Proof.
  induction d as [|d IH]; intros v HW f rest Hf He;
    destruct v as [|b|q|s|items|fields]; try discriminate.
  - now apply ReadValue_bool.
  - now apply ReadValue_string.
  - now apply ReadValue_bool.
  - now apply ReadValue_string.
  - destruct f as [|f]; [lia|].
    cbn [Writable] in HW. apply andb_true_iff in HW as [HA HD].
    destruct fields as [|[k v] more]; [reflexivity|].
    cbn [Write]. rewrite ReadValue_object_members.
    rewrite (ReadMembers_WriteMembers (JsonText.ReadValue (S f)) (Write d)
               ((k, v) :: more)).
    + rewrite (SetFields_distinct ((k, v) :: more) [] HD). reflexivity.
    + intros k' v' Hin. rewrite forallb_forall in HA.
      specialize (HA (k', v') Hin). cbn [fst snd] in HA.
      apply andb_true_iff in HA as [Hk Hv]. split; [exact Hk|].
      intros rest' He'. apply IH; [exact Hv | lia | exact He'].
    + discriminate.
    + pose proof (WriteMembers_length (Write d) (Write_length d) ((k, v) :: more)
                    ("}"%char :: rest)). lia.
Qed.

(** A text that is the writing of an object reads as that object. *)
Lemma Deserialize_Write : forall d o text,
    Writable d (JObject o) = true ->
    list_ascii_of_string text = Write d (JObject o) [] ->
    d <= String.length text ->
    JsonText.Deserialize text = Some o.
Proof.
  intros d o text HW Ht Hd. unfold JsonText.Deserialize.
  rewrite Ht.
  rewrite ReadValue_Write; [reflexivity | exact HW | | reflexivity].
  rewrite <- Ht.
  clear -Hd. revert d Hd.
  induction text as [|c text IH]; intros d Hd; simpl in *; [exact Hd|].
  destruct d; [lia|]. apply le_n_S. apply IH. lia.
Qed.

End ReadWrite.

(* ------------------------------------------------------------------ *)
(** ** The endpoint of the server *)

Section EndpointFacts.

Lemma StopServer_keeps_endpoint : forall b,
    ServerAddress (StopServer b) = ServerAddress b /\ Port (StopServer b) = Port b.
Proof.
  intros [run ls cs st po ad os rt bc lg]. unfold StopServer. members.
  destruct run; members; [|split; reflexivity].
  destruct st, cs, ls; members; split; reflexivity.
Qed.

Lemma StartServer_keeps_endpoint : forall P b,
    ServerAddress (StartServer P b) = ServerAddress b /\ Port (StartServer P b) = Port b.
Proof.
  intros P [run ls cs st po ad os rt bc lg]. unfold StartServer. members.
  destruct run; members; [split; reflexivity|].
  destruct (SocketSubsystem P); members; [|split; reflexivity].
  destruct (CreateSocket P) as [s|]; members; [|split; reflexivity].
  destruct (Bind P); members; [|split; reflexivity].
  destruct (Listen P); members; [|split; reflexivity].
  destruct (CreateThread P) as [t|]; members; [split; reflexivity|].
  match goal with
  | |- ServerAddress (StopServer ?x) = _ /\ _ =>
      destruct (StopServer_keeps_endpoint x) as [-> ->]
  end.
  members. split; reflexivity.
Qed.

Lemma ParseInto_keeps_port : forall D text b, Port (ParseInto D text b) = Port b.
Proof.
  intros D text b. unfold ParseInto. now destruct (FIPv4Address_Parse D text).
Qed.

Lemma Initialize_sets_endpoint : forall D C P b0,
    Port (Initialize D C P b0) = PortOfInt32 D (BindPortOf C)
    /\ ServerAddress (Initialize D C P b0) = SettledAddress D C b0.
Proof.
  intros D [bind port] P b0. unfold Initialize. cbv zeta.
  rewrite (proj1 (StartServer_keeps_endpoint P _)),
    (proj2 (StartServer_keeps_endpoint P _)).
  unfold SettledAddress, DefaultAddressOf, BindPortOf.
  cbn [UnrealMCPBind UnrealMCPPort].
  split.
  - members. rewrite ParseInto_keeps_port. members. reflexivity.
  - unfold ParseInto. members.
    destruct bind as [v|].
    + destruct (FIPv4Address_Parse D v); [reflexivity|].
      destruct port; members;
        destruct (FIPv4Address_Parse D MCP_SERVER_HOST); reflexivity.
    + destruct (FIPv4Address_Parse D MCP_SERVER_HOST) eqn:E; members;
        rewrite ?E; destruct port; reflexivity.
Qed.

End EndpointFacts.

(** X8.  [Initialize] settles the endpoint of the server.  The port is the
    override of the command line, or else 55557, converted to the type of
    the member.  The address is the one [FIPv4Address::Parse] reads from the
    override; when there is no override or the parse refuses it, it is the
    one read from the default 0.0.0.0.  No later call of [StartServer],
    [StopServer] or [Deinitialize] changes either, whatever the platform
    answers: a server that is started again asks for the same endpoint. *)
Theorem endpoint_is_settled_by_Initialize :
  forall D C b0 b,
    ReachableWith D C b0 b ->
    Port b = PortOfInt32 D (BindPortOf C)
    /\ ServerAddress b = SettledAddress D C b0.
Proof.
  intros D C b0 b R.
  induction R as [P | P b _ [IHp IHa] | b _ [IHp IHa] | b _ [IHp IHa]].
  - apply Initialize_sets_endpoint.
  - destruct (StartServer_keeps_endpoint P b) as [-> ->]. now split.
  - destruct (StopServer_keeps_endpoint b) as [-> ->]. now split.
  - unfold Deinitialize.
    rewrite (proj1 (StopServer_keeps_endpoint _)), (proj2 (StopServer_keeps_endpoint _)).
    members. now split.
Qed.

Lemma endpoint_is_settled_by_Initialize_witness :
  Port
    (StartServer WorkingPlatform
       (StopServer
          (Initialize SampleDeclarations
             {| UnrealMCPBind := Some "localhost"; UnrealMCPPort := Some 8080%Z |}
             PortTakenPlatform NewBridge)))
  = 8080%Z
  /\ ServerAddress
       (StartServer WorkingPlatform
          (StopServer
             (Initialize SampleDeclarations
                {| UnrealMCPBind := Some "localhost"; UnrealMCPPort := Some 8080%Z |}
                PortTakenPlatform NewBridge)))
     = "0.0.0.0".
Proof.
  apply (endpoint_is_settled_by_Initialize SampleDeclarations
           {| UnrealMCPBind := Some "localhost"; UnrealMCPPort := Some 8080%Z |}
           NewBridge).
  apply with_StartServer, with_StopServer, with_Initialize.
Defined.

(* ------------------------------------------------------------------ *)
(** ** The bodies of the asset commands *)

Import Editing AssetOperations.

Section AnswerTexts.

Lemma string_app_assoc : forall a b c : string,
    ((a ++ b) ++ c)%string = (a ++ (b ++ c))%string.
Proof.
  induction a as [|x a IH]; intros b c; simpl; [reflexivity | now rewrite IH].
Qed.

Lemma length_list_ascii_of_string : forall s,
    List.length (list_ascii_of_string s) = String.length s.
Proof. induction s as [|c s IH]; simpl; [reflexivity | now rewrite IH]. Qed.

Lemma success_text_reads : forall text r,
    Writable 2 (JObject [("success", JBool true); ("result", r)]) = true ->
    list_ascii_of_string text
    = Write 2 (JObject [("success", JBool true); ("result", r)]) [] ->
    JsonText.Deserialize text = Some [("success", JBool true); ("result", r)].
Proof.
  intros text r HW Ht.
  apply (Deserialize_Write 2 _ text HW Ht).
  rewrite <- length_list_ascii_of_string, Ht. destruct r; cbn; lia.
Qed.

Lemma Succeeds_shape : forall r, Succeeds r [("success", JBool true); ("result", r)].
Proof. intros r. repeat split. Qed.

Lemma FailsWith_shape : forall m,
    FailsWith m [("success", JBool false); ("error", JString m)].
Proof. intros m. repeat split. Qed.

End AnswerTexts.

(** The text in the goal is a failure with message [m]. *)
Ltac failure_reads m :=
  let Ho := fresh "Ho" in
  assert (Ho := error_object_text_reads m);
  rewrite !string_app_assoc in Ho;
  apply Ho;
  repeat (apply Plain_app; [try reflexivity; try assumption|]);
  try reflexivity; try assumption.

(** The text in the goal is a success with result [r]. *)
Ltac success_reads r :=
  apply (success_text_reads _ r);
  [ cbn [Writable forallb fst snd DistinctKeys andb negb];
    repeat match goal with H : Plain _ = true |- _ => rewrite H end;
    reflexivity
  | unfold FStr.Printf1; cbn [Write WriteMembers]; unfold WriteString;
    repeat (cbn [list_ascii_of_string List.app];
            rewrite ?list_ascii_of_string_app, <- ?app_assoc);
    reflexivity ].

Section AssetFacts.
Context {Ed : Type}.
Variable L : EditorAssetLibrary Ed.

Lemma PlainAssetParams_parts : forall P,
    PlainAssetParams L P = true ->
    Plain (GetStringField P "asset_path") = true
    /\ Plain (GetStringField P "source_path") = true
    /\ Plain (GetStringField P "destination_path") = true
    /\ Plain (GetStringField P "export_path") = true
    /\ Plain (Combine L (GetPath L (GetStringField P "source_path"))
                      (GetStringField P "new_name")) = true.
Proof.
  intros P H. unfold PlainAssetParams in H.
  repeat (apply andb_true_iff in H as [H ?]). tauto.
Qed.

(** What each body answers, by what the engine returned. *)

Lemma SaveAsset_reads : forall P e b e1,
    Plain (GetStringField P "asset_path") = true ->
    Library_SaveAsset L (GetStringField P "asset_path")
      match TryGetBoolField P "only_if_dirty" with Some v => v | None => true end e
    = (Returned b, e1) ->
    exists t,
      SaveAsset L (Some P) e = (Returned t, e1)
      /\ JsonText.Deserialize t
         = Some (if b
                 then [("success", JBool true);
                       ("result", JObject [("asset_path",
                                            JString (GetStringField P "asset_path"));
                                           ("saved", JBool true)])]
                 else [("success", JBool false);
                       ("error", JString ("Failed to save asset: "
                                          ++ GetStringField P "asset_path"))]).
Proof.
  intros P e b e1 Ha H. unfold SaveAsset, bind. rewrite H.
  set (a := GetStringField P "asset_path") in *.
  destruct b; cbn [negb]; eexists; (split; [reflexivity|]).
  - success_reads (JObject [("asset_path", JString a); ("saved", JBool true)]).
  - failure_reads ("Failed to save asset: " ++ a)%string.
Qed.

Lemma DuplicateAsset_reads : forall P e b e1,
    Plain (GetStringField P "source_path") = true ->
    Plain (GetStringField P "destination_path") = true ->
    Library_DuplicateAsset L (GetStringField P "source_path")
      (GetStringField P "destination_path") e = (Returned b, e1) ->
    exists t,
      DuplicateAsset L (Some P) e = (Returned t, e1)
      /\ JsonText.Deserialize t
         = Some (if b
                 then [("success", JBool true);
                       ("result", JObject [("source",
                                            JString (GetStringField P "source_path"));
                                           ("destination",
                                            JString (GetStringField P "destination_path"));
                                           ("duplicated", JBool true)])]
                 else [("success", JBool false);
                       ("error", JString ("Failed to duplicate asset from "
                                          ++ GetStringField P "source_path" ++ " to "
                                          ++ GetStringField P "destination_path"))]).
Proof.
  intros P e b e1 Hs Hd H. unfold DuplicateAsset, bind. rewrite H.
  set (s := GetStringField P "source_path") in *.
  set (d := GetStringField P "destination_path") in *.
  destruct b; cbn [negb]; eexists; (split; [reflexivity|]).
  - success_reads (JObject [("source", JString s); ("destination", JString d);
                            ("duplicated", JBool true)]).
  - failure_reads ("Failed to duplicate asset from " ++ s ++ " to " ++ d)%string.
Qed.

Lemma DeleteAsset_reads : forall P e b e1,
    Plain (GetStringField P "asset_path") = true ->
    Library_DeleteAsset L (GetStringField P "asset_path") e = (Returned b, e1) ->
    exists t,
      DeleteAsset L (Some P) e = (Returned t, e1)
      /\ JsonText.Deserialize t
         = Some (if b
                 then [("success", JBool true);
                       ("result", JObject [("asset_path",
                                            JString (GetStringField P "asset_path"));
                                           ("deleted", JBool true)])]
                 else [("success", JBool false);
                       ("error", JString ("Failed to delete asset: "
                                          ++ GetStringField P "asset_path"))]).
Proof.
  intros P e b e1 Ha H. unfold DeleteAsset, bind. rewrite H.
  set (a := GetStringField P "asset_path") in *.
  destruct b; cbn [negb]; eexists; (split; [reflexivity|]).
  - success_reads (JObject [("asset_path", JString a); ("deleted", JBool true)]).
  - failure_reads ("Failed to delete asset: " ++ a)%string.
Qed.

Lemma RenameAsset_reads : forall P e b e1,
    Plain (GetStringField P "source_path") = true ->
    Plain (Combine L (GetPath L (GetStringField P "source_path"))
                   (GetStringField P "new_name")) = true ->
    Library_RenameAsset L (GetStringField P "source_path")
      (Combine L (GetPath L (GetStringField P "source_path"))
               (GetStringField P "new_name")) e = (Returned b, e1) ->
    exists t,
      RenameAsset L (Some P) e = (Returned t, e1)
      /\ JsonText.Deserialize t
         = Some (if b
                 then [("success", JBool true);
                       ("result",
                        JObject [("old_path", JString (GetStringField P "source_path"));
                                 ("new_path",
                                  JString (Combine L
                                             (GetPath L (GetStringField P "source_path"))
                                             (GetStringField P "new_name")))])]
                 else [("success", JBool false);
                       ("error",
                        JString ("Failed to rename asset from "
                                 ++ GetStringField P "source_path" ++ " to "
                                 ++ Combine L (GetPath L (GetStringField P "source_path"))
                                            (GetStringField P "new_name")))]).
Proof.
  intros P e b e1 Hs Hn H. unfold RenameAsset, bind. rewrite H.
  set (s := GetStringField P "source_path") in *.
  set (n := Combine L (GetPath L s) (GetStringField P "new_name")) in *.
  destruct b; cbn [negb]; eexists; (split; [reflexivity|]).
  - success_reads (JObject [("old_path", JString s); ("new_path", JString n)]).
  - failure_reads ("Failed to rename asset from " ++ s ++ " to " ++ n)%string.
Qed.

Lemma MoveAsset_reads : forall P e b e1,
    Plain (GetStringField P "source_path") = true ->
    Plain (GetStringField P "destination_path") = true ->
    Library_RenameAsset L (GetStringField P "source_path")
      (GetStringField P "destination_path") e = (Returned b, e1) ->
    exists t,
      MoveAsset L (Some P) e = (Returned t, e1)
      /\ JsonText.Deserialize t
         = Some (if b
                 then [("success", JBool true);
                       ("result", JObject [("source",
                                            JString (GetStringField P "source_path"));
                                           ("destination",
                                            JString (GetStringField P "destination_path"));
                                           ("moved", JBool true)])]
                 else [("success", JBool false);
                       ("error", JString ("Failed to move asset from "
                                          ++ GetStringField P "source_path" ++ " to "
                                          ++ GetStringField P "destination_path"))]).
Proof.
  intros P e b e1 Hs Hd H. unfold MoveAsset, bind. rewrite H.
  set (s := GetStringField P "source_path") in *.
  set (d := GetStringField P "destination_path") in *.
  destruct b; cbn [negb]; eexists; (split; [reflexivity|]).
  - success_reads (JObject [("source", JString s); ("destination", JString d);
                            ("moved", JBool true)]).
  - failure_reads ("Failed to move asset from " ++ s ++ " to " ++ d)%string.
Qed.

Lemma ExportAsset_not_found : forall P e e1,
    Plain (GetStringField P "asset_path") = true ->
    Library_LoadAsset L (GetStringField P "asset_path") e = (Returned None, e1) ->
    exists t,
      ExportAsset L (Some P) e = (Returned t, e1)
      /\ JsonText.Deserialize t
         = Some [("success", JBool false);
                 ("error", JString ("Asset not found: "
                                    ++ GetStringField P "asset_path"))].
Proof.
  intros P e e1 Ha H. unfold ExportAsset, bind. rewrite H.
  set (a := GetStringField P "asset_path") in *.
  eexists; (split; [reflexivity|]).
  failure_reads ("Asset not found: " ++ a)%string.
Qed.

Lemma ExportAsset_reads : forall P e c e1 Package e2 b e3,
    Plain (GetStringField P "asset_path") = true ->
    Plain (GetStringField P "export_path") = true ->
    Library_LoadAsset L (GetStringField P "asset_path") e = (Returned (Some c), e1) ->
    FindPackage L (ObjectPathToPackageName L (GetStringField P "asset_path")) e1
    = (Returned Package, e2) ->
    (if Package then Library_SaveAsset L (GetStringField P "asset_path") false e2
     else (Returned false, e2)) = (Returned b, e3) ->
    exists t,
      ExportAsset L (Some P) e = (Returned t, e3)
      /\ JsonText.Deserialize t
         = Some (if b
                 then [("success", JBool true);
                       ("result", JObject [("asset_path",
                                            JString (GetStringField P "asset_path"));
                                           ("export_path",
                                            JString (GetStringField P "export_path"))])]
                 else [("success", JBool false);
                       ("error", JString ("Failed to export asset "
                                          ++ GetStringField P "asset_path" ++ " to "
                                          ++ GetStringField P "export_path"))]).
Proof.
  intros P e c e1 pk e2 b e3 Ha Hx Hl Hp Hs. unfold ExportAsset, bind.
  rewrite Hl, Hp.
  set (a := GetStringField P "asset_path") in *.
  set (x := GetStringField P "export_path") in *.
  assert (E : (if pk then Library_SaveAsset L a false else ret false) e2
              = (Returned b, e3)) by (destruct pk; exact Hs).
  rewrite E.
  destruct b; cbn [negb]; eexists; (split; [reflexivity|]).
  - success_reads (JObject [("asset_path", JString a); ("export_path", JString x)]).
  - failure_reads ("Failed to export asset " ++ a ++ " to " ++ x)%string.
Qed.

Lemma asset_answers_read : forall name body P e t e',
    In (name, body) (AssetBodies L) ->
    PlainAssetParams L P = true ->
    body (Some P) e = (Returned t, e') ->
    exists o, JsonText.Deserialize t = Some o
              /\ ((exists r, Succeeds (JObject r) o) \/ (exists m, FailsWith m o)).
Proof.
  intros name body P e t e' Hin HP Hrun.
  apply PlainAssetParams_parts in HP as (Ha & Hs & Hd & Hx & Hn).
  cbn [AssetBodies In] in Hin.
  repeat (destruct Hin as [Hin | Hin]; [injection Hin as <- <- |]);
    try contradiction.
  - destruct (Library_SaveAsset L (GetStringField P "asset_path")
                match TryGetBoolField P "only_if_dirty" with
                | Some v => v | None => true end e) as [[b|w|] e1] eqn:E;
      [| unfold SaveAsset, bind in Hrun; rewrite E in Hrun; discriminate ..].
    destruct (SaveAsset_reads P e b e1 Ha E) as (t' & R & D).
    rewrite R in Hrun. injection Hrun as <- <-.
    eexists. split; [exact D|].
    destruct b; [left | right]; eexists; [apply Succeeds_shape | apply FailsWith_shape].
  - destruct (Library_DuplicateAsset L (GetStringField P "source_path")
                (GetStringField P "destination_path") e) as [[b|w|] e1] eqn:E;
      [| unfold DuplicateAsset, bind in Hrun; rewrite E in Hrun; discriminate ..].
    destruct (DuplicateAsset_reads P e b e1 Hs Hd E) as (t' & R & D).
    rewrite R in Hrun. injection Hrun as <- <-.
    eexists. split; [exact D|].
    destruct b; [left | right]; eexists; [apply Succeeds_shape | apply FailsWith_shape].
  - destruct (Library_DeleteAsset L (GetStringField P "asset_path") e)
      as [[b|w|] e1] eqn:E;
      [| unfold DeleteAsset, bind in Hrun; rewrite E in Hrun; discriminate ..].
    destruct (DeleteAsset_reads P e b e1 Ha E) as (t' & R & D).
    rewrite R in Hrun. injection Hrun as <- <-.
    eexists. split; [exact D|].
    destruct b; [left | right]; eexists; [apply Succeeds_shape | apply FailsWith_shape].
  - destruct (Library_RenameAsset L (GetStringField P "source_path")
                (Combine L (GetPath L (GetStringField P "source_path"))
                         (GetStringField P "new_name")) e) as [[b|w|] e1] eqn:E;
      [| unfold RenameAsset, bind in Hrun; rewrite E in Hrun; discriminate ..].
    destruct (RenameAsset_reads P e b e1 Hs Hn E) as (t' & R & D).
    rewrite R in Hrun. injection Hrun as <- <-.
    eexists. split; [exact D|].
    destruct b; [left | right]; eexists; [apply Succeeds_shape | apply FailsWith_shape].
  - destruct (Library_RenameAsset L (GetStringField P "source_path")
                (GetStringField P "destination_path") e) as [[b|w|] e1] eqn:E;
      [| unfold MoveAsset, bind in Hrun; rewrite E in Hrun; discriminate ..].
    destruct (MoveAsset_reads P e b e1 Hs Hd E) as (t' & R & D).
    rewrite R in Hrun. injection Hrun as <- <-.
    eexists. split; [exact D|].
    destruct b; [left | right]; eexists; [apply Succeeds_shape | apply FailsWith_shape].
  - destruct (Library_LoadAsset L (GetStringField P "asset_path") e)
      as [[[c|]|w|] e1] eqn:E;
      [| | unfold ExportAsset, bind in Hrun; rewrite E in Hrun; discriminate ..].
    + destruct (FindPackage L (ObjectPathToPackageName L (GetStringField P "asset_path"))
                  e1) as [[pk|w|] e2] eqn:F;
        [| unfold ExportAsset, bind in Hrun; rewrite E, F in Hrun; discriminate ..].
      destruct (if pk then Library_SaveAsset L (GetStringField P "asset_path") false e2
                else (Returned false, e2)) as [[b|w|] e3] eqn:S.
      * destruct (ExportAsset_reads P e c e1 pk e2 b e3 Ha Hx E F S) as (t' & R & D).
        rewrite R in Hrun. injection Hrun as <- <-.
        eexists. split; [exact D|].
        destruct b; [left | right]; eexists;
          [apply Succeeds_shape | apply FailsWith_shape].
      * unfold ExportAsset, bind in Hrun. rewrite E, F in Hrun.
        destruct pk; [|discriminate]. rewrite S in Hrun. discriminate.
      * unfold ExportAsset, bind in Hrun. rewrite E, F in Hrun.
        destruct pk; [|discriminate]. rewrite S in Hrun. discriminate.
    + destruct (ExportAsset_not_found P e e1 Ha E) as (t' & R & D).
      rewrite R in Hrun. injection Hrun as <- <-.
      eexists. split; [exact D|]. right. eexists. apply FailsWith_shape.
Qed.

(** The router of the family calls each body for its name. *)
Lemma HandleCommand_calls_body : forall e Load Import name body Params,
    In (name, body) (AssetBodies L) ->
    FUnrealMCPAssetCommands.HandleCommand (AssetEditorAt L e Load Import) name Params
    = fst (body Params e).
Proof.
  intros e Load Import name body Params Hin.
  cbn [AssetBodies In] in Hin.
  repeat (destruct Hin as [Hin | Hin]; [injection Hin as <- <-; reflexivity |]).
  contradiction.
Qed.

Lemma asset_names_are_routed : forall name body,
    In (name, body) (AssetBodies L) -> Lookup name = Some (Static AssetFamily).
Proof.
  intros name body Hin. cbn [AssetBodies In] in Hin.
  repeat (destruct Hin as [Hin | Hin]; [injection Hin as <- _; reflexivity |]).
  contradiction.
Qed.

End AssetFacts.

Section EnvelopeFacts.

Lemma Respond_Succeeds : forall r o,
    Succeeds r o -> Respond o = [("status", JString "success"); ("result", JObject o)].
Proof.
  intros r o (S & _ & _). rewrite Respond_cases, S. reflexivity.
Qed.

Lemma Respond_FailsWith : forall m o,
    FailsWith m o -> Respond o = [("status", JString "error"); ("error", JString m)].
Proof.
  intros m o (S & E & _). rewrite Respond_cases, S. cbn [AsBool].
  unfold GetStringField. rewrite E. reflexivity.
Qed.

End EnvelopeFacts.

(** X9.  [GetAssetTypeName] answers Unknown for a null class; otherwise it
    drops the first letter of the class name when that letter is U or A in
    either case, and nothing else: at most one letter goes, and a name in
    lower case loses it as well. *)
Theorem GetAssetTypeName_drops_one_letter :
  GetAssetTypeName None = "Unknown"
  /\ GetAssetTypeName (Some EmptyString) = EmptyString
  /\ forall c rest,
       GetAssetTypeName (Some (String c rest))
       = if Ascii.eqb (FStr.ToLower c) "u" || Ascii.eqb (FStr.ToLower c) "a"
         then rest else String c rest.
Proof.
  split; [reflexivity|]. split; [reflexivity|].
  intros c rest. unfold GetAssetTypeName.
  cbn [StartsWith RightChop].
  change (FStr.ToLower "U") with "u"%char.
  change (FStr.ToLower "A") with "a"%char.
  assert (N : StartsWith rest EmptyString = true) by (destruct rest; reflexivity).
  rewrite N, !andb_true_r.
  destruct (Ascii.eqb (FStr.ToLower c) "u"); [reflexivity|].
  destruct (Ascii.eqb (FStr.ToLower c) "a"); reflexivity.
Qed.

(** X10.  Save, duplicate, delete, rename, move and export: when the
    strings a body splices into its answer hold no double quote and no
    backslash, every text it returns reads as a JSON object of one of two
    shapes: [success] true with a [result] object and no [error], or
    [success] false with an [error] text and no [result]. *)
Theorem asset_answers_read_as_objects :
  forall (Ed : Type) (L : EditorAssetLibrary Ed) name body P e t e',
    In (name, body) (AssetBodies L) ->
    PlainAssetParams L P = true ->
    body (Some P) e = (Returned t, e') ->
    exists o, JsonText.Deserialize t = Some o
              /\ ((exists r, Succeeds (JObject r) o) \/ (exists m, FailsWith m o)).
Proof. intros Ed L. exact (asset_answers_read L). Qed.

Lemma asset_answers_read_as_objects_witness :
  exists o,
    JsonText.Deserialize
      (FStr.TEXT "{'success':true,'result':{'asset_path':'/Game/Cube','deleted':true}}")
    = Some o
    /\ ((exists r, Succeeds (JObject r) o) \/ (exists m, FailsWith m o)).
Proof.
  apply (asset_answers_read_as_objects (list string) ListLibrary
           "delete_asset" (DeleteAsset ListLibrary)
           [("asset_path", JString "/Game/Cube")] ["/Game/Cube"] _ []).
  - simpl. tauto.
  - reflexivity.
  - reflexivity.
Defined.

(** X11.  Save, duplicate, delete, rename and move, on plain strings: the
    [success] a reader finds in the answer is the boolean the call into
    [UEditorAssetLibrary] returned (for duplicate, whether the result was
    not null), and there is no answer to read when that call did not
    return. *)
Theorem asset_answer_carries_the_flag_of_the_library :
  forall (Ed : Type) (L : EditorAssetLibrary Ed) P e,
    PlainAssetParams L P = true ->
    Verdict (fst (SaveAsset L (Some P) e))
    = Flag (fst (Library_SaveAsset L (GetStringField P "asset_path")
                   match TryGetBoolField P "only_if_dirty" with
                   | Some v => v | None => true end e))
    /\ Verdict (fst (DuplicateAsset L (Some P) e))
       = Flag (fst (Library_DuplicateAsset L (GetStringField P "source_path")
                      (GetStringField P "destination_path") e))
    /\ Verdict (fst (DeleteAsset L (Some P) e))
       = Flag (fst (Library_DeleteAsset L (GetStringField P "asset_path") e))
    /\ Verdict (fst (RenameAsset L (Some P) e))
       = Flag (fst (Library_RenameAsset L (GetStringField P "source_path")
                      (Combine L (GetPath L (GetStringField P "source_path"))
                               (GetStringField P "new_name")) e))
    /\ Verdict (fst (MoveAsset L (Some P) e))
       = Flag (fst (Library_RenameAsset L (GetStringField P "source_path")
                      (GetStringField P "destination_path") e)).
Proof.
  intros Ed L P e HP.
  apply PlainAssetParams_parts in HP as (Ha & Hs & Hd & Hx & Hn).
  repeat split.
  - destruct (Library_SaveAsset L _ _ e) as [[b|w|] e1] eqn:E;
      [| unfold SaveAsset, bind; rewrite E; reflexivity ..].
    destruct (SaveAsset_reads L P e b e1 Ha E) as (t & R & D).
    rewrite R. cbn [fst Verdict Flag]. rewrite D. now destruct b.
  - destruct (Library_DuplicateAsset L _ _ e) as [[b|w|] e1] eqn:E;
      [| unfold DuplicateAsset, bind; rewrite E; reflexivity ..].
    destruct (DuplicateAsset_reads L P e b e1 Hs Hd E) as (t & R & D).
    rewrite R. cbn [fst Verdict Flag]. rewrite D. now destruct b.
  - destruct (Library_DeleteAsset L _ e) as [[b|w|] e1] eqn:E;
      [| unfold DeleteAsset, bind; rewrite E; reflexivity ..].
    destruct (DeleteAsset_reads L P e b e1 Ha E) as (t & R & D).
    rewrite R. cbn [fst Verdict Flag]. rewrite D. now destruct b.
  - destruct (Library_RenameAsset L _ (Combine L _ _) e) as [[b|w|] e1] eqn:E;
      [| unfold RenameAsset, bind; rewrite E; reflexivity ..].
    destruct (RenameAsset_reads L P e b e1 Hs Hn E) as (t & R & D).
    rewrite R. cbn [fst Verdict Flag]. rewrite D. now destruct b.
  - destruct (Library_RenameAsset L _ (GetStringField P "destination_path") e)
      as [[b|w|] e1] eqn:E;
      [| unfold MoveAsset, bind; rewrite E; reflexivity ..].
    destruct (MoveAsset_reads L P e b e1 Hs Hd E) as (t & R & D).
    rewrite R. cbn [fst Verdict Flag]. rewrite D. now destruct b.
Qed.

Lemma asset_answer_carries_the_flag_of_the_library_witness :
  Verdict (fst (SaveAsset ListLibrary
                  (Some [("source_path", JString "/Game/Cube");
                         ("destination_path", JString "/Game/Box")]) ["/Game/Cube"]))
  = Some false
  /\ Verdict (fst (DuplicateAsset ListLibrary
                     (Some [("source_path", JString "/Game/Cube");
                            ("destination_path", JString "/Game/Box")]) ["/Game/Cube"]))
     = Some true
  /\ Verdict (fst (DeleteAsset ListLibrary
                     (Some [("source_path", JString "/Game/Cube");
                            ("destination_path", JString "/Game/Box")]) ["/Game/Cube"]))
     = Some false
  /\ Verdict (fst (RenameAsset ListLibrary
                     (Some [("source_path", JString "/Game/Cube");
                            ("destination_path", JString "/Game/Box")]) ["/Game/Cube"]))
     = Some true
  /\ Verdict (fst (MoveAsset ListLibrary
                     (Some [("source_path", JString "/Game/Cube");
                            ("destination_path", JString "/Game/Box")]) ["/Game/Cube"]))
     = Some true.
Proof.
  apply (asset_answer_carries_the_flag_of_the_library (list string) ListLibrary
           [("source_path", JString "/Game/Cube");
            ("destination_path", JString "/Game/Box")] ["/Game/Cube"]).
  reflexivity.
Defined.

(** X12.  [RenameAsset] is [MoveAsset] to the path put together from the
    directory of the source and the new name: on plain strings both leave
    the editor in the same state and both answers carry the same
    [success]. *)
Theorem rename_is_move_within_the_directory :
  forall (Ed : Type) (L : EditorAssetLibrary Ed) P P' e,
    PlainAssetParams L P = true ->
    GetStringField P' "source_path" = GetStringField P "source_path" ->
    GetStringField P' "destination_path"
    = Combine L (GetPath L (GetStringField P "source_path"))
              (GetStringField P "new_name") ->
    snd (RenameAsset L (Some P) e) = snd (MoveAsset L (Some P') e)
    /\ Verdict (fst (RenameAsset L (Some P) e))
       = Verdict (fst (MoveAsset L (Some P') e)).
Proof.
  intros Ed L P P' e HP Es Ed'.
  apply PlainAssetParams_parts in HP as (Ha & Hs & Hd & Hx & Hn).
  destruct (Library_RenameAsset L (GetStringField P "source_path")
              (Combine L (GetPath L (GetStringField P "source_path"))
                       (GetStringField P "new_name")) e) as [[b|w|] e1] eqn:E.
  - destruct (RenameAsset_reads L P e b e1 Hs Hn E) as (t & R & D).
    assert (E' : Library_RenameAsset L (GetStringField P' "source_path")
                   (GetStringField P' "destination_path") e = (Returned b, e1))
      by (rewrite Es, Ed'; exact E).
    destruct (MoveAsset_reads L P' e b e1) as (t' & R' & D');
      [rewrite Es; exact Hs | rewrite Ed'; exact Hn | exact E' |].
    rewrite R, R'. cbn [fst snd Verdict]. rewrite D, D'.
    split; [reflexivity | now destruct b].
  - unfold RenameAsset, MoveAsset, bind. rewrite Es, Ed', E. split; reflexivity.
  - unfold RenameAsset, MoveAsset, bind. rewrite Es, Ed', E. split; reflexivity.
Qed.

Lemma rename_is_move_within_the_directory_witness :
  snd (RenameAsset ListLibrary
         (Some [("source_path", JString "/Game/Cube"); ("new_name", JString "Box")])
         ["/Game/Cube"])
  = snd (MoveAsset ListLibrary
           (Some [("source_path", JString "/Game/Cube");
                  ("destination_path", JString "/Game/Box")])
           ["/Game/Cube"])
  /\ Verdict (fst (RenameAsset ListLibrary
                     (Some [("source_path", JString "/Game/Cube");
                            ("new_name", JString "Box")])
                     ["/Game/Cube"]))
     = Verdict (fst (MoveAsset ListLibrary
                       (Some [("source_path", JString "/Game/Cube");
                              ("destination_path", JString "/Game/Box")])
                       ["/Game/Cube"])).
Proof.
  apply (rename_is_move_within_the_directory (list string) ListLibrary
           [("source_path", JString "/Game/Cube"); ("new_name", JString "Box")]
           [("source_path", JString "/Game/Cube");
            ("destination_path", JString "/Game/Box")]
           ["/Game/Cube"]); reflexivity.
Defined.



(** X14.  From the body to the client.  When the asset family of the bridge
    runs the bodies in editor state [e], a save, duplicate, delete, rename,
    move or export request on plain strings whose body returns is answered
    by the task on the game thread with an envelope: status success with
    the whole answer of the body, its own [success] included, under
    [result], or status error with the error text of the body. *)
Theorem asset_command_reaches_the_client :
  forall (Ed : Type) (L : EditorAssetLibrary Ed) H e Load Import name body P t e',
    AssetEditor (StaticFamilies H) = AssetEditorAt L e Load Import ->
    In (name, body) (AssetBodies L) ->
    PlainAssetParams L P = true ->
    body (Some P) e = (Returned t, e') ->
    exists o,
      JsonText.Deserialize t = Some o
      /\ ((Verdict (Returned t) = Some true
           /\ GameThreadTask H name (Some P)
              = Responded [("status", JString "success"); ("result", JObject o)])
          \/ (exists m,
                 Verdict (Returned t) = Some false
                 /\ Find o "error" = Some (JString m)
                 /\ GameThreadTask H name (Some P)
                    = Responded [("status", JString "error"); ("error", JString m)])).
Proof.
  intros Ed L H e Load Import name body P t e' HA Hin HP Hrun.
  destruct (asset_answers_read L name body P e t e' Hin HP Hrun) as (o & D & Shape).
  assert (T : GameThreadTask H name (Some P) = Responded (Respond o)).
  { unfold GameThreadTask, Route.
    rewrite (asset_names_are_routed L name body Hin).
    cbn [Families.HandleCommand]. rewrite HA.
    rewrite (HandleCommand_calls_body L e Load Import name body (Some P) Hin).
    rewrite Hrun. cbn [fst FromText]. rewrite D. reflexivity. }
  exists o. split; [exact D|].
  destruct Shape as [(r & S) | (m & F)].
  - left. split.
    + cbn [Verdict]. rewrite D. destruct S as (S & _). now rewrite S.
    + rewrite T. f_equal. exact (Respond_Succeeds _ _ S).
  - right. exists m. split; [|split].
    + cbn [Verdict]. rewrite D. destruct F as (F & _). now rewrite F.
    + destruct F as (_ & F & _). exact F.
    + rewrite T. f_equal. exact (Respond_FailsWith _ _ F).
Qed.

Lemma asset_command_reaches_the_client_witness :
  exists o,
    JsonText.Deserialize
      (FStr.TEXT "{'success':false,'error':'Failed to delete asset: /Game/Ball'}")
    = Some o
    /\ ((Verdict (Returned
                    (FStr.TEXT "{'success':false,'error':'Failed to delete asset: /Game/Ball'}"))
         = Some true
         /\ GameThreadTask Served.CubeHandlers "delete_asset"
              (Some [("asset_path", JString "/Game/Ball")])
            = Responded [("status", JString "success"); ("result", JObject o)])
        \/ (exists m,
               Verdict (Returned
                          (FStr.TEXT "{'success':false,'error':'Failed to delete asset: /Game/Ball'}"))
               = Some false
               /\ Find o "error" = Some (JString m)
               /\ GameThreadTask Served.CubeHandlers "delete_asset"
                    (Some [("asset_path", JString "/Game/Ball")])
                  = Responded [("status", JString "error"); ("error", JString m)])).
Proof.
  apply (asset_command_reaches_the_client (list string) ListLibrary
           Served.CubeHandlers ["/Game/Cube"] (fun _ => None) NoOperation
           "delete_asset" (DeleteAsset ListLibrary)
           [("asset_path", JString "/Game/Ball")] _ ["/Game/Cube"]).
  - reflexivity.
  - simpl. tauto.
  - reflexivity.
  - reflexivity.
Defined.

(* ------------------------------------------------------------------ *)
(** ** The bodies of the level commands *)

Import LevelOperations.

Section LevelFacts.
Context {Elsewhere : Type}.
Variable E : Engine Elsewhere.

Lemma try_catch_returns_or_crashes : forall (A : Type) (body : Run (FEditor Elsewhere) A)
                                            handler e what,
    fst (try_catch body handler e) <> Threw what.
Proof.
  intros A body handler e what. unfold try_catch.
  destruct (body e) as [[a|w|] e1]; discriminate.
Qed.

Lemma no_match_SetFirstVisible : forall n v levels,
    forallb (fun x => negb (IsLevel n x)) levels = true ->
    SetFirstVisible n v levels = None.
Proof.
  induction levels as [|x levels IH]; intros H; [reflexivity|].
  cbn [forallb] in H. apply andb_true_iff in H as [Hx H].
  apply negb_true_iff in Hx. cbn [SetFirstVisible]. rewrite Hx.
  now rewrite IH.
Qed.

Lemma SetFirstVisible_first : forall n v before l after,
    forallb (fun x => negb (IsLevel n x)) before = true ->
    IsLevel n (Some l) = true ->
    SetFirstVisible n v (before ++ Some l :: after)
    = Some (before ++ Some (SetShouldBeVisible v l) :: after).
Proof.
  induction before as [|x before IH]; intros l after H Hl.
  - cbn [List.app SetFirstVisible]. rewrite Hl. reflexivity.
  - cbn [forallb] in H. apply andb_true_iff in H as [Hx H].
    apply negb_true_iff in Hx.
    cbn [List.app SetFirstVisible]. rewrite Hx. now rewrite IH.
Qed.

Lemma no_match_RemoveLastLevel : forall n levels,
    forallb (fun x => negb (IsLevel n x)) levels = true ->
    RemoveLastLevel n levels = None.
Proof.
  induction levels as [|x levels IH]; intros H; [reflexivity|].
  cbn [forallb] in H. apply andb_true_iff in H as [Hx H].
  apply negb_true_iff in Hx. cbn [RemoveLastLevel]. rewrite IH by exact H.
  now rewrite Hx.
Qed.

Lemma RemoveLastLevel_last : forall n before l after,
    forallb (fun x => negb (IsLevel n x)) after = true ->
    IsLevel n (Some l) = true ->
    RemoveLastLevel n (before ++ Some l :: after) = Some (before ++ after).
Proof.
  induction before as [|x before IH]; intros l after H Hl.
  - cbn [List.app RemoveLastLevel].
    rewrite (no_match_RemoveLastLevel n after H), Hl. reflexivity.
  - cbn [List.app RemoveLastLevel]. now rewrite IH.
Qed.

End LevelFacts.

(** X15.  The six level bodies with a required parameter check it before
    anything else: when it is missing, is null, an array or an object, or is
    the empty string, the body answers that the parameter is required,
    whatever the engine would do, and leaves the editor as it was. *)
Theorem level_parameter_is_checked_first :
  forall (Elsewhere : Type) (E : Engine Elsewhere) fn key body P e,
    In (fn, key, body) (LevelBodies E) ->
    Required P key = None ->
    exists t o,
      body (Some P) e = (Returned t, e)
      /\ JsonText.Deserialize t = Some o
      /\ FailsWith (key ++ " parameter is required") o.
Proof.
  intros Elsewhere E fn key body P e Hin HR.
  cbn [LevelBodies In] in Hin.
  repeat (destruct Hin as [Hin | Hin];
          [injection Hin as <- <- <-;
           eexists; eexists; split;
           [ unfold CreateLevel, LoadLevel, SetLevelVisibility, CreateStreamingLevel,
               LoadStreamingLevel, UnloadStreamingLevel, try_catch;
             rewrite HR; reflexivity
           | split; [| apply FailsWith_shape];
             match goal with
             | |- _ = Some [_; ("error", JString ?m)] =>
                 exact (error_object_text_reads m eq_refl)
             end ] |]).
  contradiction.
Qed.

Lemma level_parameter_is_checked_first_witness :
  exists t o,
    UnloadStreamingLevel (Some [("level_name", JNull)]) SampleLevelEditor
    = (Returned t, SampleLevelEditor)
    /\ JsonText.Deserialize t = Some o
    /\ FailsWith "level_name parameter is required" o.
Proof.
  apply (level_parameter_is_checked_first unit SampleEngine
           "UnloadStreamingLevel" "level_name" UnloadStreamingLevel
           [("level_name", JNull)] SampleLevelEditor).
  - simpl. tauto.
  - reflexivity.
Defined.

(** X16.  No exception leaves a level body: each of the six ends by
    returning a text or by taking the process down, so the catch of the
    bridge never sees an exception of theirs. *)
Theorem level_bodies_do_not_throw :
  forall (Elsewhere : Type) (E : Engine Elsewhere) fn key body Params e,
    In (fn, key, body) (LevelBodies E) ->
    match fst (body Params e) with
    | Threw _ => False
    | _ => True
    end.
Proof.
  intros Elsewhere E fn key body Params e Hin.
  assert (G : forall what, fst (body Params e) <> Threw what).
  { intros what. cbn [LevelBodies In] in Hin.
    repeat (destruct Hin as [Hin | Hin];
            [injection Hin as <- <- <-; apply try_catch_returns_or_crashes |]).
    contradiction. }
  destruct (fst (body Params e)) as [t|w|]; [exact I | | exact I].
  exact (G w eq_refl).
Qed.

Lemma level_bodies_do_not_throw_witness :
  match fst (LoadLevel SampleEngine (Some [("level_path", JString "/Game/Town")])
               SampleLevelEditor) with
  | Threw _ => False
  | _ => True
  end.
Proof.
  apply (level_bodies_do_not_throw unit SampleEngine "LoadLevel" "level_path"
           (LoadLevel SampleEngine)).
  simpl. tauto.
Defined.

(** The answer in the goal reads as a success with result [r], or as a
    failure with message [m]. *)
Ltac verdict_success r :=
  cbn [fst Verdict];
  match goal with
  | |- context [JsonText.Deserialize ?t] =>
      let D := fresh "D" in
      assert (D : JsonText.Deserialize t = Some [("success", JBool true); ("result", r)])
        by success_reads r;
      rewrite D; reflexivity
  end.

Ltac verdict_failure m :=
  cbn [fst Verdict];
  match goal with
  | |- context [JsonText.Deserialize ?t] =>
      let D := fresh "D" in
      assert (D : JsonText.Deserialize t
                  = Some [("success", JBool false); ("error", JString m)])
        by failure_reads m;
      rewrite D; reflexivity
  end.

(** X17.  [SetLevelVisibility] on a world: of the streaming levels whose
    package name is the given name, compared as [FString]s are, the first
    one is set to the wanted visibility, which is visible when the request
    does not say; every other level, a later one of the same name included,
    stays as it is.  When no level has the name the answer is a failure and
    the editor is left as it was. *)
Theorem SetLevelVisibility_sets_the_first_match :
  forall (Elsewhere : Type) P n (e : FEditor Elsewhere) W,
    Required P "level_name" = Some n ->
    Plain n = true ->
    World e = Some W ->
    (forall before l after,
        StreamingLevels W = before ++ Some l :: after ->
        forallb (fun x => negb (IsLevel n x)) before = true ->
        IsLevel n (Some l) = true ->
        snd (SetLevelVisibility (Some P) e)
        = SetWorld
            {| StreamingLevels :=
                 before
                 ++ Some (SetShouldBeVisible
                            match TryGetBoolField P "visible" with
                            | Some b => b | None => true end l)
                 :: after |} e
        /\ Verdict (fst (SetLevelVisibility (Some P) e)) = Some true)
    /\ (forallb (fun x => negb (IsLevel n x)) (StreamingLevels W) = true ->
        snd (SetLevelVisibility (Some P) e) = e
        /\ Verdict (fst (SetLevelVisibility (Some P) e)) = Some false).
Proof.
  intros Elsewhere P n e W HR Hn HW. split.
  - intros before l after HL Hb Hl.
    unfold SetLevelVisibility, try_catch. rewrite HR, HW, HL.
    rewrite (SetFirstVisible_first n _ before l after Hb Hl).
    unfold ret. split; [reflexivity|].
    destruct (TryGetBoolField P "visible") as [[|]|].
    + assert (Plain ("Set level " ++ n ++ " visibility to " ++ "visible") = true)
        by (repeat (apply Plain_app; [try reflexivity; try assumption|]); reflexivity).
      verdict_success (JString ("Set level " ++ n ++ " visibility to " ++ "visible")).
    + assert (Plain ("Set level " ++ n ++ " visibility to " ++ "hidden") = true)
        by (repeat (apply Plain_app; [try reflexivity; try assumption|]); reflexivity).
      verdict_success (JString ("Set level " ++ n ++ " visibility to " ++ "hidden")).
    + assert (Plain ("Set level " ++ n ++ " visibility to " ++ "visible") = true)
        by (repeat (apply Plain_app; [try reflexivity; try assumption|]); reflexivity).
      verdict_success (JString ("Set level " ++ n ++ " visibility to " ++ "visible")).
  - intros Hnone.
    unfold SetLevelVisibility, try_catch. rewrite HR, HW.
    rewrite (no_match_SetFirstVisible n _ _ Hnone).
    unfold ret. split; [reflexivity|].
    verdict_failure ("Failed to set visibility for level: " ++ n)%string.
Qed.

Lemma SetLevelVisibility_sets_the_first_match_witness :
  snd (SetLevelVisibility
         (Some [("level_name", JString "/game/town"); ("visible", JString "off")])
         SampleLevelEditor)
  = SetWorld
      {| StreamingLevels :=
           [Some {| WorldAssetPackageName := "/Game/Cave"; bShouldBeVisible := false |};
            None]
           ++ Some (SetShouldBeVisible
                      match TryGetBoolField
                              [("level_name", JString "/game/town");
                               ("visible", JString "off")] "visible" with
                      | Some b => b | None => true end
                      {| WorldAssetPackageName := "/Game/Town";
                         bShouldBeVisible := true |})
           :: [] |} SampleLevelEditor
  /\ Verdict (fst (SetLevelVisibility
                     (Some [("level_name", JString "/game/town");
                            ("visible", JString "off")])
                     SampleLevelEditor)) = Some true.
Proof.
  apply (proj1 (SetLevelVisibility_sets_the_first_match unit
                  [("level_name", JString "/game/town"); ("visible", JString "off")]
                  "/game/town" SampleLevelEditor SampleWorld
                  eq_refl eq_refl eq_refl)); reflexivity.
Defined.

(** X18.  [UnloadStreamingLevel] on a world: of the streaming levels whose
    package name is the given name, the last one is taken out of the world
    and the others stay, in their order.  When no level has the name the
    answer is a failure and the editor is left as it was. *)
Theorem UnloadStreamingLevel_removes_the_last_match :
  forall (Elsewhere : Type) P n (e : FEditor Elsewhere) W,
    Required P "level_name" = Some n ->
    Plain n = true ->
    World e = Some W ->
    (forall before l after,
        StreamingLevels W = before ++ Some l :: after ->
        forallb (fun x => negb (IsLevel n x)) after = true ->
        IsLevel n (Some l) = true ->
        snd (UnloadStreamingLevel (Some P) e)
        = SetWorld {| StreamingLevels := before ++ after |} e
        /\ Verdict (fst (UnloadStreamingLevel (Some P) e)) = Some true)
    /\ (forallb (fun x => negb (IsLevel n x)) (StreamingLevels W) = true ->
        snd (UnloadStreamingLevel (Some P) e) = e
        /\ Verdict (fst (UnloadStreamingLevel (Some P) e)) = Some false).
Proof.
  intros Elsewhere P n e W HR Hn HW. split.
  - intros before l after HL Ha Hl.
    unfold UnloadStreamingLevel, try_catch. rewrite HR, HW, HL.
    rewrite (RemoveLastLevel_last n before l after Ha Hl).
    unfold ret. split; [reflexivity|].
    assert (Plain ("Unloaded streaming level: " ++ n) = true)
      by (apply Plain_app; [reflexivity | assumption]).
    verdict_success (JString ("Unloaded streaming level: " ++ n)).
  - intros Hnone.
    unfold UnloadStreamingLevel, try_catch. rewrite HR, HW.
    rewrite (no_match_RemoveLastLevel n _ Hnone).
    unfold ret. split; [reflexivity|].
    verdict_failure ("Failed to unload streaming level: " ++ n)%string.
Qed.

Lemma UnloadStreamingLevel_removes_the_last_match_witness :
  snd (UnloadStreamingLevel (Some [("level_name", JString "/Game/Mine")])
         SampleLevelEditor)
  = SampleLevelEditor
  /\ Verdict (fst (UnloadStreamingLevel (Some [("level_name", JString "/Game/Mine")])
                     SampleLevelEditor)) = Some false.
Proof.
  apply (proj2 (UnloadStreamingLevel_removes_the_last_match unit
                  [("level_name", JString "/Game/Mine")]
                  "/Game/Mine" SampleLevelEditor SampleWorld
                  eq_refl eq_refl eq_refl)); reflexivity.
Defined.

(** X19.  A streaming level made by [CreateStreamingLevel] goes to the end
    of the streaming levels of the world, and [UnloadStreamingLevel] with
    the package name the new level reports takes that very level out again:
    after the two calls the editor is as it was before them. *)
Theorem created_streaming_level_unloads_again :
  forall (Elsewhere : Type) (E : Engine Elsewhere) P1 path P2 n e W l,
    Required P1 "level_path" = Some path ->
    Required P2 "level_name" = Some n ->
    FStr.Equals (PackageNameOf E path) n = true ->
    World e = Some W ->
    NewStreamingLevel E e = Returned (Some l) ->
    exists t1 e1 t2,
      CreateStreamingLevel E (Some P1) e = (Returned t1, e1)
      /\ World e1
         = Some {| StreamingLevels :=
                     StreamingLevels W
                     ++ [Some {| WorldAssetPackageName := PackageNameOf E path;
                                 bShouldBeVisible := bShouldBeVisible l |}] |}
      /\ t1 = FStr.Printf1 (FStr.TEXT "{'success':true,'result':'Created streaming level: ")
                           path (FStr.TEXT "'}")
      /\ UnloadStreamingLevel (Some P2) e1 = (Returned t2, e)
      /\ t2 = FStr.Printf1 (FStr.TEXT "{'success':true,'result':'Unloaded streaming level: ")
                           n (FStr.TEXT "'}").
Proof.
  intros Elsewhere E P1 path P2 n e W l H1 H2 Hn HW HN.
  eexists. eexists. eexists. split; [|split; [|split; [|split]]].
  - unfold CreateStreamingLevel, try_catch. rewrite H1, HW, HN. reflexivity.
  - reflexivity.
  - reflexivity.
  - unfold UnloadStreamingLevel, try_catch. rewrite H2.
    cbn [World SetWorld AddStreamingLevel StreamingLevels].
    rewrite (RemoveLastLevel_last n (StreamingLevels W)
               {| WorldAssetPackageName := PackageNameOf E path;
                  bShouldBeVisible := bShouldBeVisible l |} [] eq_refl Hn).
    rewrite app_nil_r. unfold ret, SetWorld. cbn [Rest].
    destruct e as [w r]. cbn [World Rest] in *. subst w. destruct W. reflexivity.
  - reflexivity.
Qed.

Lemma created_streaming_level_unloads_again_witness :
  exists t1 e1 t2,
    CreateStreamingLevel SampleEngine (Some [("level_path", JString "/Game/Mine")])
      SampleLevelEditor = (Returned t1, e1)
    /\ World e1
       = Some {| StreamingLevels :=
                   StreamingLevels SampleWorld
                   ++ [Some {| WorldAssetPackageName :=
                                 PackageNameOf SampleEngine "/Game/Mine";
                               bShouldBeVisible :=
                                 bShouldBeVisible
                                   {| WorldAssetPackageName := EmptyString;
                                      bShouldBeVisible := false |} |}] |}
    /\ t1 = FStr.Printf1 (FStr.TEXT "{'success':true,'result':'Created streaming level: ")
                         "/Game/Mine" (FStr.TEXT "'}")
    /\ UnloadStreamingLevel (Some [("level_name", JString "/game/mine")]) e1
       = (Returned t2, SampleLevelEditor)
    /\ t2 = FStr.Printf1 (FStr.TEXT "{'success':true,'result':'Unloaded streaming level: ")
                         "/game/mine" (FStr.TEXT "'}").
Proof.
  apply (created_streaming_level_unloads_again unit SampleEngine
           [("level_path", JString "/Game/Mine")] "/Game/Mine"
           [("level_name", JString "/game/mine")] "/game/mine"
           SampleLevelEditor SampleWorld
           {| WorldAssetPackageName := EmptyString; bShouldBeVisible := false |});
    reflexivity.
Defined.

(** X20.  [LoadStreamingLevel] does what [LoadLevel] does: given the same
    plain name, both make the one call [LoadLevel] of the level editor
    subsystem, leave the editor as that call left it, and answer with the
    [success] that call returned.  No streaming level is added to the
    world. *)
Theorem LoadStreamingLevel_is_LoadLevel :
  forall (Elsewhere : Type) (E : Engine Elsewhere) P P' n e Subsystem b e1,
    Required P "level_name" = Some n ->
    Required P' "level_path" = Some n ->
    Plain n = true ->
    LevelEditorSubsystem E e = Some Subsystem ->
    LoadLevel_ Subsystem n e = (Returned b, e1) ->
    snd (LoadStreamingLevel E (Some P) e) = e1
    /\ snd (LoadLevel E (Some P') e) = e1
    /\ Verdict (fst (LoadStreamingLevel E (Some P) e)) = Some b
    /\ Verdict (fst (LoadLevel E (Some P') e)) = Some b.
Proof.
  intros Elsewhere E P P' n e S b e1 HR HR' Hn HS HL.
  unfold LoadStreamingLevel, LoadLevel, try_catch, bind.
  rewrite HR, HR', HS, HL.
  assert (Plain ("Loaded streaming level: " ++ n) = true)
    by (apply Plain_app; [reflexivity | assumption]).
  assert (Plain ("Level loaded: " ++ n) = true)
    by (apply Plain_app; [reflexivity | assumption]).
  destruct b; cbn [negb]; unfold ret; repeat split.
  - verdict_success (JString ("Loaded streaming level: " ++ n)).
  - verdict_success (JString ("Level loaded: " ++ n)).
  - verdict_failure ("Failed to load streaming level: " ++ n)%string.
  - verdict_failure ("Failed to load level: " ++ n)%string.
Qed.

Lemma LoadStreamingLevel_is_LoadLevel_witness :
  snd (LoadStreamingLevel SampleEngine (Some [("level_name", JString "/Game/Town")])
         SampleLevelEditor) = SampleLevelEditor
  /\ snd (LoadLevel SampleEngine (Some [("level_path", JString "/Game/Town")])
            SampleLevelEditor) = SampleLevelEditor
  /\ Verdict (fst (LoadStreamingLevel SampleEngine
                     (Some [("level_name", JString "/Game/Town")])
                     SampleLevelEditor)) = Some true
  /\ Verdict (fst (LoadLevel SampleEngine
                     (Some [("level_path", JString "/Game/Town")])
                     SampleLevelEditor)) = Some true.
Proof.
  apply (LoadStreamingLevel_is_LoadLevel unit SampleEngine
           [("level_name", JString "/Game/Town")]
           [("level_path", JString "/Game/Town")]
           "/Game/Town" SampleLevelEditor SampleSubsystem true SampleLevelEditor);
    reflexivity.
Defined.
